(** * Timetable generator: constraint model, decoding and slot management

    A shallow embedding of the scheduling core of the two programs of the
    repository:

    - [TT_prototype.py]: [solve_timetable], the first model, over
      (batch, subject, timeslot) variables;
    - [TimetableGenerator.py]: [TimetableApp.update_slots],
      [TimetableApp._update_slot_dependent_widgets] and
      [TimetableApp.solve_timetable_model], the model over
      (batch, subject, faculty, classroom, timeslot) variables.

    The CP-SAT engine is an external collaborator.  What the programs do with
    it is to issue a sequence of [NewBoolVar] / [NewIntVar] / [Add] /
    [AddBoolAnd] / [AddBoolOr] / [OnlyEnforceIf] calls, call [Solve], test the
    status and read variable values.  The embedding keeps exactly that: a model
    is the list of calls in program order, a solver is any function from the
    model to a status and a value function, and the only thing assumed about
    it is that an accepted status comes with values satisfying the model. *)

From Stdlib Require Import Ascii.
From stdpp Require Import gmap strings list sorting pretty.

Local Open Scope Z_scope.

(** ** Python helpers *)

(** [range(a, b)] *)
Definition range2 (a b : Z) : list Z := seqZ a (b - a).

(** [range(n)] for an index that is used as a list position. *)
Definition range (n : nat) : list nat := seq 0 n.

(** [sorted(l)] on strings: lexicographic by code unit. *)
Definition sorted (l : list string) : list string := merge_sort String.le l.

(** [enumerate(l)] *)
Definition enumerate {A} (l : list A) : list (nat * A) := zip (seq 0 (length l)) l.

(** [sum(g(a) for a in l)] on integers. *)
Definition sumf {A} (l : list A) (g : A → Z) : Z := foldr (λ a acc, g a + acc) 0 l.

(** ** Exceptions raised by the solve functions *)

Inductive exn :=
| ValueError (msg : string)
| RuntimeError (msg : string).

(** ** The CP-SAT interface, as the two programs use it *)

Module cp_model.

(** [CpSolverStatus] *)
Inductive status := UNKNOWN | MODEL_INVALID | FEASIBLE | INFEASIBLE | OPTIMAL.

(** [status in (cp_model.OPTIMAL, cp_model.FEASIBLE)] *)
Definition accepted (s : status) : bool :=
  match s with
  | OPTIMAL | FEASIBLE => true
  | UNKNOWN | MODEL_INVALID | INFEASIBLE => false
  end.

Inductive cmp := LE | LT | GE | GT | EQ | NE.

Definition cmp_holds (c : cmp) (a b : Z) : bool :=
  match c with
  | LE => bool_decide (a ≤ b)
  | LT => bool_decide (a < b)
  | GE => bool_decide (a >= b)
  | GT => bool_decide (a > b)
  | EQ => bool_decide (a = b)
  | NE => bool_decide (a ≠ b)
  end.

Section model.
Context {V : Type}.

(** A Boolean variable [v] or its negation [v.Not()]. *)
Inductive lit := Pos (v : V) | Neg (v : V).

(** Linear expressions built with [+], [-], [*] and [sum]. *)
Inductive expr :=
| Term (l : lit)
| Const (z : Z)
| Plus (a b : expr)
| Minus (a b : expr)
| Times (k : Z) (a : expr)
| Opp (a : expr).

Definition Var (v : V) : expr := Term (Pos v).

(** Python's [sum(es)]: [0 + e1 + e2 + ...]. *)
Definition psum (es : list expr) : expr := foldl Plus (Const 0) es.

Inductive body :=
| Linear (a : expr) (c : cmp) (b : expr)
| BoolAnd (ls : list lit)
| BoolOr (ls : list lit).

Record constraint := { c_body : body; c_enforce : list lit }.

(** One call on the [CpModel] object. *)
Inductive call :=
| NewIntVar (lo hi : Z) (v : V)
| NewBoolVar (v : V)
| AddConstraint (k : constraint).

(** [model.Add(a <cmp> b)] *)
Definition Add (a : expr) (c : cmp) (b : expr) : call :=
  AddConstraint {| c_body := Linear a c b; c_enforce := [] |}.

(** [model.AddBoolAnd(ls)] and [model.AddBoolOr(ls)] *)
Definition AddBoolAnd (ls : list lit) : call :=
  AddConstraint {| c_body := BoolAnd ls; c_enforce := [] |}.
Definition AddBoolOr (ls : list lit) : call :=
  AddConstraint {| c_body := BoolOr ls; c_enforce := [] |}.

(** [<constraint>.OnlyEnforceIf(l)] *)
Definition OnlyEnforceIf (l : lit) (c : call) : call :=
  match c with
  | AddConstraint k =>
      AddConstraint {| c_body := c_body k; c_enforce := c_enforce k ++ [l] |}
  | NewIntVar _ _ _ | NewBoolVar _ => c
  end.

(** *** Meaning of a model under an assignment of values *)

Definition lit_value (ρ : V → Z) (l : lit) : Z :=
  match l with
  | Pos v => ρ v
  | Neg v => 1 - ρ v
  end.

Definition lit_true (ρ : V → Z) (l : lit) : bool :=
  bool_decide (lit_value ρ l = 1).

Fixpoint eval (ρ : V → Z) (e : expr) : Z :=
  match e with
  | Term l => lit_value ρ l
  | Const z => z
  | Plus a b => eval ρ a + eval ρ b
  | Minus a b => eval ρ a - eval ρ b
  | Times k a => k * eval ρ a
  | Opp a => - eval ρ a
  end.

Definition body_holds (ρ : V → Z) (b : body) : bool :=
  match b with
  | Linear a c b => cmp_holds c (eval ρ a) (eval ρ b)
  | BoolAnd ls => forallb (lit_true ρ) ls
  | BoolOr ls => existsb (lit_true ρ) ls
  end.

Definition constraint_holds (ρ : V → Z) (k : constraint) : bool :=
  implb (forallb (lit_true ρ) (c_enforce k)) (body_holds ρ (c_body k)).

Definition call_ok (ρ : V → Z) (c : call) : bool :=
  match c with
  | NewIntVar lo hi v => bool_decide (lo ≤ ρ v ≤ hi)
  | NewBoolVar v => bool_decide (0 ≤ ρ v ≤ 1)
  | AddConstraint k => constraint_holds ρ k
  end.

(** The values [ρ] are in the declared domains and meet every
    constraint of the model [m]. *)
Definition satisfies (ρ : V → Z) (m : list call) : bool :=
  forallb (call_ok ρ) m.

(** The number of variables of [vs] that are true under [ρ]. *)
Definition count_true (ρ : V → Z) (vs : list V) : nat :=
  length (filter (λ v, ρ v ≠ 0) vs).

(** *** The solver *)

(** What the programs read back after [solver.Solve(model)]. *)
Record response := { status_of : status; Value : V → Z }.

(** A solver receives the model, the objective of [model.Maximize] and
    [max_time_in_seconds]. *)
Definition solver : Type := list call → expr → Z → response.

(** The one assumption on the engine: an accepted status comes with
    values that satisfy the model. *)
Definition sound (S : solver) : Prop :=
  ∀ m obj tl,
    accepted (status_of (S m obj tl)) = true →
    satisfies (Value (S m obj tl)) m = true.

(** A solver that tries a single candidate assignment. *)
Definition try_values (ρ : V → Z) : solver :=
  λ m _ _,
    {| status_of := if satisfies ρ m then FEASIBLE else UNKNOWN;
       Value := ρ |}.

(** A solver that answers with a fixed status, whatever the model. *)
Definition answer (s : status) (ρ : V → Z) : solver :=
  λ _ _ _, {| status_of := s; Value := ρ |}.
End model.

Global Arguments lit : clear implicits.
Global Arguments expr : clear implicits.
Global Arguments body : clear implicits.
Global Arguments constraint : clear implicits.
Global Arguments call : clear implicits.
Global Arguments response : clear implicits.
Global Arguments solver : clear implicits.
End cp_model.

(** ** [TT_prototype.py] *)

Module TT_prototype.
Import cp_model.

Definition DAYS : list string := ["Mon"; "Tue"; "Wed"; "Thu"; "Fri"].
Definition SLOTS : list string :=
  ["9-10"; "10-11"; "11-12"; "12-1"; "2-3"; "3-4"; "4-5"; "5-6"].
Definition SOLVER_TIME_LIMIT : Z := 40.

Definition WEIGHT_FULL_SLOT : Z := 1000.
Definition WEIGHT_ADJACENCY : Z := 5.
Definition WEIGHT_PENALTY_SAME_DAY_SUBJECT : Z := 10.
Definition WEIGHT_PENALTY_FREE_DAY : Z := 2000.

(** The variables of the model, by the dictionary (or loop) that holds
    them and its key. *)
Inductive var :=
| x (b s t : nat)
| y (b t : nat)
| day_active (b d : nat)
| sameday_penalty (b s d : nat)
| slot_filled (t : nat)
| full_slot (t : nat)
| adj (b d k : nat).

(** A subject is a tuple [(name, hours, faculty_count)]. *)
Definition subject_row : Type := string * Z * Z.
Definition name_of (s : subject_row) : string := s.1.1.
Definition hours_of (s : subject_row) : Z := s.1.2.
Definition faculty_count_of (s : subject_row) : Z := s.2.

(** *** The messages of the feasibility checks *)

Definition msg_max_per_day (max_per_day : Z) (num_slots_per_day : nat) : string :=
  "Max hours/day (" +:+ pretty max_per_day +:+
  ") exceeds available slots per day (" +:+ pretty num_slots_per_day +:+ ").".
Definition msg_max_per_week (max_per_week : Z) (total_slots : nat) : string :=
  "Max hours/week (" +:+ pretty max_per_week +:+
  ") exceeds total slots in the week (" +:+ pretty total_slots +:+ ").".
Definition msg_min_per_day (min_per_day max_per_day : Z) : string :=
  "Min hours/day (" +:+ pretty min_per_day +:+
  ") cannot be greater than Max hours/day (" +:+ pretty max_per_day +:+ ").".
Definition msg_required (required_per_batch max_per_week : Z) : string :=
  "Total required hours per batch (" +:+ pretty required_per_batch +:+
  ") exceeds the weekly limit (" +:+ pretty max_per_week +:+ ").".
Definition msg_rooms (total_required_all_batches max_possible_with_rooms : Z) : string :=
  "Not enough rooms. Required class-slots (" +:+ pretty total_required_all_batches +:+
  ") exceed total room capacity (" +:+ pretty max_possible_with_rooms +:+ ").".
Definition msg_no_solution : string :=
  "Solver found no feasible solution within time limit.".

(** [sum(hours for (_, hours, _) in subjects)] *)
Definition required_hours (subjects : list subject_row) : Z :=
  foldl Z.add 0 (hours_of <$> subjects).

(** The "basic feasibility checks" at the head of [solve_timetable]:
    the first failing check, with its message. *)
Definition feasibility_checks (subjects : list subject_row)
    (num_batches num_rooms max_per_day max_per_week min_per_day : Z)
    (num_days num_slots_per_day : nat) : option string :=
  let total_slots := (num_days * num_slots_per_day)%nat in
  if bool_decide (max_per_day > Z.of_nat num_slots_per_day) then
    Some (msg_max_per_day max_per_day num_slots_per_day)
  else if bool_decide (max_per_week > Z.of_nat total_slots) then
    Some (msg_max_per_week max_per_week total_slots)
  else if bool_decide (min_per_day > max_per_day) then
    Some (msg_min_per_day min_per_day max_per_day)
  else
    let required_per_batch := required_hours subjects in
    if bool_decide (required_per_batch > max_per_week) then
      Some (msg_required required_per_batch max_per_week)
    else
      let total_required_all_batches := required_per_batch * num_batches in
      let max_possible_with_rooms := num_rooms * Z.of_nat total_slots in
      if bool_decide (total_required_all_batches > max_possible_with_rooms) then
        Some (msg_rooms total_required_all_batches max_possible_with_rooms)
      else None.

(** *** The model *)

Section build.
Variables (subjects : list subject_row).
Variables (num_batches num_rooms max_per_day max_per_week min_per_day : Z).
Variables (num_days num_slots_per_day : nat).

Let num_subjects : nat := length subjects.
Let total_slots : nat := (num_days * num_slots_per_day)%nat.
Let batch_range : list nat := range (Z.to_nat num_batches).

(** [sum(y[(b, t)] for t in day_ts)] with
    [day_ts = [d * num_slots_per_day + k for k in range(num_slots_per_day)]] *)
Definition daily_hours (b d : nat) : expr var :=
  psum ((λ t, Var (y b t)) <$>
        ((λ k, d * num_slots_per_day + k)%nat <$> range num_slots_per_day)).

Definition decision_variables : list (call var) :=
  b ← batch_range; s_idx ← range num_subjects; t ← range total_slots;
  [NewBoolVar (x b s_idx t)].

Definition occupied_variables : list (call var) :=
  b ← batch_range; t ← range total_slots;
  [NewBoolVar (y b t);
   Add (psum ((λ s_idx, Var (x b s_idx t)) <$> range num_subjects)) EQ (Var (y b t))].

Definition daily_constraints : list (call var) :=
  b ← batch_range; d ← range num_days;
  [Add (daily_hours b d) LE (Const max_per_day);
   NewBoolVar (day_active b d);
   OnlyEnforceIf (Pos (day_active b d)) (Add (daily_hours b d) GE (Const 1));
   OnlyEnforceIf (Neg (day_active b d)) (Add (daily_hours b d) EQ (Const 0))]
  ++ (if bool_decide (min_per_day > 0) then
        [OnlyEnforceIf (Pos (day_active b d))
           (Add (daily_hours b d) GE (Const min_per_day))]
      else []).

Definition free_day_penalty_vars : list (lit var) :=
  b ← batch_range; d ← range num_days; [Neg (day_active b d)].

Definition weekly_constraints : list (call var) :=
  b ← batch_range;
  [Add (psum ((λ t, Var (y b t)) <$> range total_slots)) LE (Const max_per_week)].

Definition subject_hours_constraints : list (call var) :=
  b ← batch_range; '(s_idx, subj) ← enumerate subjects;
  [Add (psum ((λ t, Var (x b s_idx t)) <$> range total_slots)) EQ
       (Const (hours_of subj))].

Definition room_constraints : list (call var) :=
  t ← range total_slots;
  [Add (psum ((λ b, Var (y b t)) <$> batch_range)) LE (Const num_rooms)].

Definition faculty_constraints : list (call var) :=
  '(s_idx, subj) ← enumerate subjects; t ← range total_slots;
  [Add (psum ((λ b, Var (x b s_idx t)) <$> batch_range)) LE
       (Const (faculty_count_of subj))].

(** [sum(x[(b, s_idx, d * num_slots_per_day + k)] for k in range(num_slots_per_day))] *)
Definition daily_subject_hours (b s_idx d : nat) : expr var :=
  psum ((λ k, Var (x b s_idx (d * num_slots_per_day + k))) <$>
        range num_slots_per_day).

Definition same_day_constraints : list (call var) :=
  b ← batch_range; '(s_idx, subj) ← enumerate subjects;
  if bool_decide (hours_of subj ≤ Z.of_nat num_days) then
    d ← range num_days;
    [NewIntVar 0 (Z.of_nat num_slots_per_day - 1) (sameday_penalty b s_idx d);
     Add (Var (sameday_penalty b s_idx d)) GE
         (Minus (daily_subject_hours b s_idx d) (Const 1))]
  else [].

Definition same_day_penalty_terms : list var :=
  b ← batch_range; '(s_idx, subj) ← enumerate subjects;
  if bool_decide (hours_of subj ≤ Z.of_nat num_days) then
    d ← range num_days; [sameday_penalty b s_idx d]
  else [].

Definition slot_filled_constraints : list (call var) :=
  t ← range total_slots;
  [NewIntVar 0 num_rooms (slot_filled t);
   Add (Var (slot_filled t)) EQ (psum ((λ b, Var (y b t)) <$> batch_range))].

Definition full_slot_constraints : list (call var) :=
  t ← range total_slots;
  [NewBoolVar (full_slot t);
   OnlyEnforceIf (Pos (full_slot t))
     (Add (Var (slot_filled t)) EQ (Const num_rooms));
   OnlyEnforceIf (Neg (full_slot t))
     (Add (Var (slot_filled t)) NE (Const num_rooms))].

Definition adjacency_constraints : list (call var) :=
  b ← batch_range; d ← range num_days; k ← range (num_slots_per_day - 1);
  let t := (d * num_slots_per_day + k)%nat in
  [NewBoolVar (adj b d k);
   OnlyEnforceIf (Pos (adj b d k))
     (AddBoolAnd [Pos (y b t); Pos (y b (t + 1))]);
   OnlyEnforceIf (Neg (adj b d k))
     (AddBoolOr [Neg (y b t); Neg (y b (t + 1))])].

Definition adj_list : list var :=
  b ← batch_range; d ← range num_days; k ← range (num_slots_per_day - 1);
  [adj b d k].

(** The calls on [model], in program order. *)
Definition model : list (call var) :=
  decision_variables ++ occupied_variables ++ daily_constraints ++
  weekly_constraints ++ subject_hours_constraints ++ room_constraints ++
  faculty_constraints ++ same_day_constraints ++ slot_filled_constraints ++
  full_slot_constraints ++ adjacency_constraints.

(** The argument of [model.Maximize]. *)
Definition objective : expr var :=
  Minus
    (Minus
       (Plus
          (psum ((λ t, Times WEIGHT_FULL_SLOT (Var (full_slot t))) <$> range total_slots))
          (psum ((λ v, Times WEIGHT_ADJACENCY (Var v)) <$> adj_list)))
       (psum ((λ v, Times WEIGHT_PENALTY_SAME_DAY_SUBJECT (Var v)) <$> same_day_penalty_terms)))
    (psum ((λ l, Times WEIGHT_PENALTY_FREE_DAY (Term l)) <$> free_day_penalty_vars)).

(** *** Decoding *)

(** [schedule[b]] once the loops over subjects and timeslots are done. *)
Definition schedule_row (value : var → Z) (b : nat) : list string :=
  foldl (λ row '(s_idx, subj),
           foldl (λ row t,
                    if bool_decide (value (x b s_idx t) = 1)
                    then <[t := name_of subj]> row else row)
                 row (range total_slots))
        (replicate total_slots "Free") (enumerate subjects).

(** The name that ends up in cell [t] of [schedule[b]]: that of the last
    subject, in list order, whose variable is 1 there; ["Free"] if there
    is none. *)
Definition cell_name (value : var → Z) (b t : nat) : string :=
  foldl (λ cur '(s_idx, subj),
           if bool_decide (value (x b s_idx t) = 1) then name_of subj else cur)
        "Free" (enumerate subjects).

Definition build_schedule (value : var → Z) : gmap nat (list string) :=
  foldl (λ schedule b, <[b := schedule_row value b]> schedule) ∅ batch_range.

(** [room_assignments[t]]: rooms [1..] handed to the occupied batches in
    batch order. *)
Definition room_row (value : var → Z) (t : nat) : list (nat * nat) :=
  let occupied_batches :=
    filter (λ b, value (y b t) = 1) batch_range in
  (λ '(idx, b), (idx + 1, b)%nat) <$> enumerate occupied_batches.

Definition build_room_assignments (value : var → Z) : gmap nat (list (nat * nat)) :=
  foldl (λ rooms t, <[t := room_row value t]> rooms) ∅ (range total_slots).
End build.

(** The values that [solve_timetable] reads back from the engine. *)
Definition solution_values (engine : solver var)
    (subjects : list subject_row)
    (num_batches num_rooms max_per_day max_per_week min_per_day : Z)
    (days slots : list string) (time_limit : Z) : var → Z :=
  Value (engine
           (model subjects num_batches num_rooms max_per_day max_per_week
              min_per_day (length days) (length slots))
           (objective subjects num_batches (length days) (length slots))
           time_limit).

(** How many timeslots of a row of the schedule hold [name], and how many
    are occupied at all. *)
Definition slots_with (name : string) (row : list string) : nat :=
  length (filter (λ entry, entry = name) row).
Definition occupied_slots (row : list string) : nat :=
  length (filter (λ entry, entry ≠ "Free") row).

(** [solve_timetable], with the solving engine as an argument. *)
Definition solve_timetable (engine : solver var)
    (subjects : list subject_row)
    (num_batches num_rooms max_per_day max_per_week min_per_day : Z)
    (days slots : list string) (time_limit : Z)
    : exn + (gmap nat (list string) * gmap nat (list (nat * nat))) :=
  let num_days := length days in
  let num_slots_per_day := length slots in
  match feasibility_checks subjects num_batches num_rooms max_per_day
          max_per_week min_per_day num_days num_slots_per_day with
  | Some msg => inl (ValueError msg)
  | None =>
      let m := model subjects num_batches num_rooms max_per_day max_per_week
                 min_per_day num_days num_slots_per_day in
      let obj := objective subjects num_batches num_days num_slots_per_day in
      let r := engine m obj time_limit in
      if negb (accepted (status_of r)) then inl (RuntimeError msg_no_solution)
      else
        inr (build_schedule subjects num_batches num_days num_slots_per_day (Value r),
             build_room_assignments num_batches num_days num_slots_per_day (Value r))
  end.

(** *** Reading a returned schedule *)

(** The cells of day [d] in a row of the schedule, [n] slots a day. *)
Definition day_cells (n d : nat) (row : list string) : list string :=
  take n (drop (d * n) row).
End TT_prototype.

(** ** [TimetableGenerator.py] *)

Module TimetableGenerator.
Import cp_model.

(** *** Dialog boxes shown by the application *)

Inductive dialog :=
| ShowError (title msg : string)
| ShowInfo (title msg : string).

(** *** Domain data of [TimetableGenerator.py] *)

(** [batches[b]["subjects"][s]] is a dict with keys ["hours"] and ["type"];
    both are read with [.get], so either may be absent. *)
Record subject := {
  s_hours : option Z;
  s_type : option string;
}.

Record batch := {
  b_year : string;
  b_branch : string;
  b_subjects : gmap string subject;
}.

(** [faculty[f]["assignments"][s]] is the set of batches that [f] teaches
    subject [s] to; [faculty[f].get("preferences", {}).get("prefers_morning")]
    is read for its truth value. *)
Record faculty_member := {
  f_assignments : gmap string (gset string);
  f_prefers_morning : bool;
}.

(** [classrooms[c]]: ["capacity"] and ["type"] are indexed, ["max_daily_hours"]
    is read with [.get]. *)
Record classroom := {
  c_capacity : Z;
  c_type : string;
  c_max_daily_hours : option Z;
}.

(** *** The part of [TimetableApp] that slot management and solving read and
    write *)

Record App := {
  slots : list string;
  saturday_var : bool;
  batches : gmap string batch;
  faculty : gmap string faculty_member;
  classrooms : gmap string classroom;
  start_hour_var : Z;
  end_hour_var : Z;
  lunch_hour_var : Z;
  time_limit_var : Z;
  min_hours_day_var : Z;
  max_hours_day_var : Z;
  class_max_daily_hours_var : Z;
  min_hours_spinbox_to : Z;
  max_hours_spinbox_to : Z;
  class_max_hours_spinbox_to : Z;
}.

Definition set_slots (v : list string) (a : App) : App :=
  {| slots := v; saturday_var := saturday_var a; batches := batches a;
     faculty := faculty a; classrooms := classrooms a;
     start_hour_var := start_hour_var a; end_hour_var := end_hour_var a;
     lunch_hour_var := lunch_hour_var a; time_limit_var := time_limit_var a;
     min_hours_day_var := min_hours_day_var a;
     max_hours_day_var := max_hours_day_var a;
     class_max_daily_hours_var := class_max_daily_hours_var a;
     min_hours_spinbox_to := min_hours_spinbox_to a;
     max_hours_spinbox_to := max_hours_spinbox_to a;
     class_max_hours_spinbox_to := class_max_hours_spinbox_to a |}.

Definition set_spinbox_limits (n : Z) (a : App) : App :=
  {| slots := slots a; saturday_var := saturday_var a; batches := batches a;
     faculty := faculty a; classrooms := classrooms a;
     start_hour_var := start_hour_var a; end_hour_var := end_hour_var a;
     lunch_hour_var := lunch_hour_var a; time_limit_var := time_limit_var a;
     min_hours_day_var := min_hours_day_var a;
     max_hours_day_var := max_hours_day_var a;
     class_max_daily_hours_var := class_max_daily_hours_var a;
     min_hours_spinbox_to := n;
     max_hours_spinbox_to := n;
     class_max_hours_spinbox_to := n |}.

Definition set_max_hours_day_var (v : Z) (a : App) : App :=
  {| slots := slots a; saturday_var := saturday_var a; batches := batches a;
     faculty := faculty a; classrooms := classrooms a;
     start_hour_var := start_hour_var a; end_hour_var := end_hour_var a;
     lunch_hour_var := lunch_hour_var a; time_limit_var := time_limit_var a;
     min_hours_day_var := min_hours_day_var a;
     max_hours_day_var := v;
     class_max_daily_hours_var := class_max_daily_hours_var a;
     min_hours_spinbox_to := min_hours_spinbox_to a;
     max_hours_spinbox_to := max_hours_spinbox_to a;
     class_max_hours_spinbox_to := class_max_hours_spinbox_to a |}.

Definition set_class_max_daily_hours_var (v : Z) (a : App) : App :=
  {| slots := slots a; saturday_var := saturday_var a; batches := batches a;
     faculty := faculty a; classrooms := classrooms a;
     start_hour_var := start_hour_var a; end_hour_var := end_hour_var a;
     lunch_hour_var := lunch_hour_var a; time_limit_var := time_limit_var a;
     min_hours_day_var := min_hours_day_var a;
     max_hours_day_var := max_hours_day_var a;
     class_max_daily_hours_var := v;
     min_hours_spinbox_to := min_hours_spinbox_to a;
     max_hours_spinbox_to := max_hours_spinbox_to a;
     class_max_hours_spinbox_to := class_max_hours_spinbox_to a |}.

(** *** Slot management *)

(** [f"{hour}-{hour+1}"] *)
Definition slot_label (hour : Z) : string :=
  pretty hour +:+ "-" +:+ pretty (hour + 1).

(** [TimetableApp._update_slot_dependent_widgets] *)
Definition _update_slot_dependent_widgets (a : App) : App :=
  let num_slots := Z.of_nat (length (slots a)) in
  let num_slots := if bool_decide (num_slots = 0) then 1 else num_slots in
  let a := set_spinbox_limits num_slots a in
  let a := if bool_decide (max_hours_day_var a > num_slots)
           then set_max_hours_day_var num_slots a else a in
  let a := if bool_decide (class_max_daily_hours_var a > num_slots)
           then set_class_max_daily_hours_var num_slots a else a in
  a.

Definition slots_updated_msg (n : nat) : string :=
  "Time slots updated to " +:+ pretty n +:+ " daily working hours.".

(** [TimetableApp.update_slots]: the new application state and the dialog
    that is shown. *)
Definition update_slots (a : App) : App * dialog :=
  let start := start_hour_var a in
  let end_ := end_hour_var a in
  let lunch := lunch_hour_var a in
  if bool_decide (start >= end_) then
    (a, ShowError "Error" "Start hour must be less than end hour.")
  else
    let new_slots :=
      foldl (λ acc hour,
               if bool_decide (hour = lunch) then acc
               else acc ++ [slot_label hour])
            [] (range2 start end_) in
    let a := set_slots new_slots a in
    let a := _update_slot_dependent_widgets a in
    (a, ShowInfo "Success" (slots_updated_msg (length (slots a)))).


(** *** The model of [solve_timetable_model] *)

Definition DAYS : list string := ["Mon"; "Tue"; "Wed"; "Thu"; "Fri"].
Definition DEFAULT_SLOTS : list string :=
  ["9-10"; "10-11"; "11-12"; "12-1"; "2-3"; "3-4"; "4-5"].
Definition DEFAULT_SOLVER_TIME_LIMIT : Z := 45.
Definition MAX_CONSECUTIVE_CLASSES : nat := 3.

Definition WEIGHT_ADJACENCY : Z := 5.
Definition WEIGHT_PENALTY_FREE_DAY : Z := 1000.
Definition WEIGHT_PENALTY_LONG_STRETCH : Z := 50.
Definition WEIGHT_PENALTY_FACULTY_PREFERENCE : Z := 20.

(** [TimetableApp.get_current_days] *)
Definition get_current_days (self : App) : list string :=
  if saturday_var self then DAYS ++ ["Sat"] else DAYS.

Inductive var :=
| x (b s f c t : nat)
| y (b t : nat)
| day_has_class (b d : nat)
| adj (b d k : nat)
| free_day (b d : nat)
| long_stretch (b d k : nat)
| pref (f t : nat).

Global Instance var_eq_dec : EqDecision var.
Proof. solve_decision. Defined.

Global Instance batch_inhabited : Inhabited batch :=
  populate {| b_year := ""; b_branch := ""; b_subjects := ∅ |}.
Global Instance faculty_member_inhabited : Inhabited faculty_member :=
  populate {| f_assignments := ∅; f_prefers_morning := false |}.
Global Instance classroom_inhabited : Inhabited classroom :=
  populate {| c_capacity := 0; c_type := ""; c_max_daily_hours := None |}.

(** *** [int(label.split('-')[0])] *)

(** [label.split('-')[0]]: the text before the first dash. *)
Fixpoint before_dash (label : string) : string :=
  match label with
  | EmptyString => EmptyString
  | String a rest =>
      if bool_decide (a = "-"%char) then EmptyString
      else String a (before_dash rest)
  end.

Definition digit_of (a : ascii) : option Z :=
  let n := Z.of_N (N_of_ascii a) in
  if bool_decide (48 ≤ n ≤ 57) then Some (n - 48) else None.

Fixpoint digits_value (acc : Z) (s : string) : option Z :=
  match s with
  | EmptyString => Some acc
  | String a rest =>
      match digit_of a with
      | Some d => digits_value (10 * acc + d) rest
      | None => None
      end
  end.

(** [int(s)] on the texts that can stand before the dash of a slot label of
    the application: decimal digits, or nothing at all when the hour is
    negative.  [None] is the [ValueError] that [int] raises. *)
Definition int (s : string) : option Z :=
  match s with
  | EmptyString => None
  | String _ _ => digits_value 0 s
  end.

Definition msg_invalid_literal (s : string) : string :=
  "invalid literal for int() with base 10: '" +:+ s +:+ "'".

Definition slot_start_hour (label : string) : exn + Z :=
  match int (before_dash label) with
  | Some h => inr h
  | None => inl (ValueError (msg_invalid_literal (before_dash label)))
  end.

(** Loops whose body may raise: the first exception ends the loop. *)
Fixpoint for_each {A B} (l : list A) (body : A → exn + list B) : exn + list B :=
  match l with
  | [] => inr []
  | a :: l =>
      match body a with
      | inl e => inl e
      | inr bs =>
          match for_each l body with
          | inl e => inl e
          | inr rest => inr (bs ++ rest)
          end
      end
  end.

Definition msg_no_solution : string :=
  "No feasible solution found. Check constraints and parameters (e.g., min/max hours per day).".

(** A cell of the schedule: [(subject, faculty, classroom)] or [None]. *)
Definition cell : Type := option (string * string * string).

(** The dictionary returned by [solve_timetable_model]. *)
Record timetable := {
  result_schedule : list (list cell);
  result_batch_list : list string;
  result_workloads : gmap string Z;
}.

Section build.
Variables (self : App).
Variables (batches : gmap string batch) (faculty : gmap string faculty_member)
          (classrooms : gmap string classroom).
Variables (min_hours_day max_hours_day : Z).

Definition days : list string := get_current_days self.

Definition batch_list : list string := sorted (map_to_list batches).*1.
Definition faculty_list : list string := sorted (map_to_list faculty).*1.
Definition classroom_list : list string := sorted (map_to_list classrooms).*1.

(** [sorted(list(set(s for b in batches.values() for s in b["subjects"])))] *)
Definition all_subjects : list string :=
  sorted (elements (⋃ ((λ b, dom (b_subjects b)) <$> (map_to_list batches).*2))).

Definition num_batches : nat := length batch_list.
Definition num_faculty : nat := length faculty_list.
Definition num_classrooms : nat := length classroom_list.
Definition num_subjects : nat := length all_subjects.
Definition num_days : nat := length days.
Definition num_slots_per_day : nat := length (slots self).
Definition total_slots : nat := (num_days * num_slots_per_day)%nat.

Definition decision_variables : list (call var) :=
  b ← range num_batches; s ← range num_subjects; f ← range num_faculty;
  c ← range num_classrooms; t ← range total_slots;
  [NewBoolVar (x b s f c t)].

(** [{fac for fac, dat in faculty.items()
      if s_name in dat["assignments"] and b_name in dat["assignments"][s_name]}] *)
Definition teaches (dat : faculty_member) (s_name b_name : string) : bool :=
  match f_assignments dat !! s_name with
  | Some bs => bool_decide (b_name ∈ bs)
  | None => false
  end.

Definition faculty_for_subject (s_name b_name : string) : gset string :=
  dom (filter (λ kv, teaches kv.2 s_name b_name = true) faculty).

(** The assignment variables that one constraint sums over. *)
Definition vars_of_batch_subject (b s : nat) : list var :=
  f ← range num_faculty; c ← range num_classrooms; t ← range total_slots;
  [x b s f c t].
Definition vars_of_batch_subject_faculty (b s f : nat) : list var :=
  c ← range num_classrooms; t ← range total_slots; [x b s f c t].
Definition vars_of_batch_subject_classroom (b s c : nat) : list var :=
  f ← range num_faculty; t ← range total_slots; [x b s f c t].
Definition vars_of_batch_slot (b t : nat) : list var :=
  s ← range num_subjects; f ← range num_faculty; c ← range num_classrooms;
  [x b s f c t].
Definition vars_of_faculty_slot (f t : nat) : list var :=
  b ← range num_batches; s ← range num_subjects; c ← range num_classrooms;
  [x b s f c t].
Definition vars_of_classroom_slot (c t : nat) : list var :=
  b ← range num_batches; s ← range num_subjects; f ← range num_faculty;
  [x b s f c t].
Definition vars_of_classroom_day (c d : nat) : list var :=
  let daily_slots :=
    seq (d * num_slots_per_day)
        ((d + 1) * num_slots_per_day - d * num_slots_per_day) in
  b ← range num_batches; s ← range num_subjects; f ← range num_faculty;
  t ← daily_slots; [x b s f c t].

(** "Standard constraints": what a batch does not study, whom a subject
    may not be taught by, and where it may not be taught. *)
Definition structural_constraints : list (call var) :=
  '(b_idx, b_name) ← enumerate batch_list;
  '(s_idx, s_name) ← enumerate all_subjects;
  match b_subjects (batches !!! b_name) !! s_name with
  | None =>
      [Add (psum (Var <$> vars_of_batch_subject b_idx s_idx)) EQ (Const 0)]
  | Some subj =>
      ('(f_idx, f_name) ← enumerate faculty_list;
       if bool_decide (f_name ∉ faculty_for_subject s_name b_name) then
         [Add (psum (Var <$> vars_of_batch_subject_faculty b_idx s_idx f_idx)) EQ
              (Const 0)]
       else [])
      ++
      (let subj_type := s_type subj in
       '(c_idx, c_name) ← enumerate classroom_list;
       if bool_decide (Some (c_type (classrooms !!! c_name)) ≠ subj_type) then
         [Add (psum (Var <$> vars_of_batch_subject_classroom b_idx s_idx c_idx)) EQ
              (Const 0)]
       else [])
  end.

Definition batch_slot_constraints : list (call var) :=
  b ← range num_batches; t ← range total_slots;
  [Add (psum (Var <$> vars_of_batch_slot b t)) LE (Const 1)].

Definition faculty_slot_constraints : list (call var) :=
  f ← range num_faculty; t ← range total_slots;
  [Add (psum (Var <$> vars_of_faculty_slot f t)) LE (Const 1)].

Definition classroom_capacity_constraints : list (call var) :=
  '(c_idx, c_name) ← enumerate classroom_list; t ← range total_slots;
  [Add (psum (Var <$> vars_of_classroom_slot c_idx t)) LE
       (Const (c_capacity (classrooms !!! c_name)))].

Definition classroom_daily_constraints : list (call var) :=
  '(c_idx, c_name) ← enumerate classroom_list;
  let max_h := default (Z.of_nat num_slots_per_day)
                 (c_max_daily_hours (classrooms !!! c_name)) in
  d ← range num_days;
  [Add (psum (Var <$> vars_of_classroom_day c_idx d)) LE (Const max_h)].

Definition required_hours_constraints : list (call var) :=
  '(b_idx, b_name) ← enumerate batch_list;
  '(s_idx, s_name) ← enumerate all_subjects;
  match b_subjects (batches !!! b_name) !! s_name with
  | Some subj =>
      let required_hours := default 0 (s_hours subj) in
      [Add (psum (Var <$> vars_of_batch_subject b_idx s_idx)) EQ
           (Const required_hours)]
  | None => []
  end.

Definition occupied_variables : list (call var) :=
  b ← range num_batches; t ← range total_slots;
  [NewBoolVar (y b t);
   Add (psum (Var <$> vars_of_batch_slot b t)) EQ (Var (y b t))].

(** [sum(y[b, d * num_slots_per_day + k] for k in range(num_slots_per_day))] *)
Definition daily_hours (b d : nat) : expr var :=
  psum ((λ k, Var (y b (d * num_slots_per_day + k))) <$> range num_slots_per_day).

Definition daily_constraints : list (call var) :=
  b ← range num_batches; d ← range num_days;
  [Add (daily_hours b d) LE (Const max_hours_day);
   NewBoolVar (day_has_class b d);
   OnlyEnforceIf (Pos (day_has_class b d)) (Add (daily_hours b d) GT (Const 0));
   OnlyEnforceIf (Neg (day_has_class b d)) (Add (daily_hours b d) EQ (Const 0));
   OnlyEnforceIf (Pos (day_has_class b d))
     (Add (daily_hours b d) GE (Const min_hours_day))].

(** The objective part: each loop issues its calls and appends its terms
    to [objective_terms]. *)
Definition adjacency_constraints : list (call var) :=
  b ← range num_batches; d ← range num_days; k ← range (num_slots_per_day - 1);
  let t := (d * num_slots_per_day + k)%nat in
  [NewBoolVar (adj b d k);
   OnlyEnforceIf (Pos (adj b d k)) (AddBoolAnd [Pos (y b t); Pos (y b (t + 1))])].

Definition adjacency_terms : list (expr var) :=
  b ← range num_batches; d ← range num_days; k ← range (num_slots_per_day - 1);
  [Times WEIGHT_ADJACENCY (Var (adj b d k))].

Definition free_day_constraints : list (call var) :=
  b ← range num_batches; d ← range num_days;
  [NewBoolVar (free_day b d);
   OnlyEnforceIf (Pos (free_day b d)) (Add (daily_hours b d) EQ (Const 0))].

Definition free_day_terms : list (expr var) :=
  b ← range num_batches; d ← range num_days;
  [Times WEIGHT_PENALTY_FREE_DAY (Opp (Var (free_day b d)))].

Definition long_stretch_constraints : list (call var) :=
  b ← range num_batches; d ← range num_days;
  k ← range (num_slots_per_day - MAX_CONSECUTIVE_CLASSES);
  let t_start := (d * num_slots_per_day + k)%nat in
  let stretch := (λ i, Pos (y b (t_start + i))) <$> range (MAX_CONSECUTIVE_CLASSES + 1) in
  [NewBoolVar (long_stretch b d k);
   OnlyEnforceIf (Pos (long_stretch b d k)) (AddBoolAnd stretch)].

Definition long_stretch_terms : list (expr var) :=
  b ← range num_batches; d ← range num_days;
  k ← range (num_slots_per_day - MAX_CONSECUTIVE_CLASSES);
  [Times WEIGHT_PENALTY_LONG_STRETCH (Opp (Var (long_stretch b d k)))].

(** The faculty-preference loop reads the start hour of each slot label
    with [int], which may raise.  [preference_slots] lists the
    (faculty, timeslot) pairs for which the loop creates [has_class]. *)
Definition preference_slots : exn + list (nat * nat) :=
  for_each (enumerate faculty_list) (λ '(f_idx, f_name),
    if f_prefers_morning (faculty !!! f_name) then
      let morning_slots_end_hour := 12 in
      for_each (range num_days) (λ d,
        for_each (range num_slots_per_day) (λ k,
          match slot_start_hour (slots self !!! k) with
          | inl e => inl e
          | inr slot_start_hour =>
              if bool_decide (slot_start_hour >= morning_slots_end_hour) then
                let t := (d * num_slots_per_day + k)%nat in
                inr [(f_idx, t)]
              else inr []
          end))
    else inr []).

Definition preference_constraints (ps : list (nat * nat)) : list (call var) :=
  '(f_idx, t) ← ps;
  [NewBoolVar (pref f_idx t);
   OnlyEnforceIf (Pos (pref f_idx t))
     (Add (psum (Var <$> vars_of_faculty_slot f_idx t)) GT (Const 0))].

Definition preference_terms (ps : list (nat * nat)) : list (expr var) :=
  '(f_idx, t) ← ps;
  [Times WEIGHT_PENALTY_FACULTY_PREFERENCE (Opp (Var (pref f_idx t)))].

Definition hard_constraints : list (call var) :=
  decision_variables ++ structural_constraints ++ batch_slot_constraints ++
  faculty_slot_constraints ++ classroom_capacity_constraints ++
  classroom_daily_constraints ++ required_hours_constraints ++
  occupied_variables ++ daily_constraints.

(** The calls on [model] in program order, and the argument of
    [model.Maximize]; or the exception raised on the way. *)
Definition build_model : exn + (list (call var) * expr var) :=
  match preference_slots with
  | inl e => inl e
  | inr ps =>
      inr (hard_constraints ++ adjacency_constraints ++ free_day_constraints ++
           long_stretch_constraints ++ preference_constraints ps,
           psum (adjacency_terms ++ free_day_terms ++ long_stretch_terms ++
                 preference_terms ps))
  end.

(** *** Decoding *)

(** The (subject, faculty, classroom) indices in the order in which the
    decoding loops visit them for one cell. *)
Definition cell_candidates : list (nat * nat * nat) :=
  s ← range num_subjects; f ← range num_faculty; c ← range num_classrooms;
  [(s, f, c)].

(** [schedule[b][t]] once the loops over subjects, faculty and classrooms
    are done: every true variable overwrites the cell. *)
Definition schedule_cell (value : var → Z) (b t : nat) : cell :=
  foldl (λ (cur : cell) '(s, f, c),
           if bool_decide (value (x b s f c t) ≠ 0)
           then Some (all_subjects !!! s, faculty_list !!! f, classroom_list !!! c)
           else cur)
        None cell_candidates.

Definition build_schedule (value : var → Z) : list (list cell) :=
  (λ b, (λ t, schedule_cell value b t) <$> range total_slots) <$> range num_batches.

(** [workloads]: one more hour for the faculty member of every occupied
    cell, if that name is a key. *)
Definition build_workloads (sched : list (list cell)) : gmap string Z :=
  foldl (λ w row,
           foldl (λ w (entry : cell),
                    match entry with
                    | Some (_, fac, _) => alter (λ n, n + 1) fac w
                    | None => w
                    end)
                 w row)
        (list_to_map ((λ f, (f, 0)) <$> faculty_list)) sched.
End build.

(** The model declares [v] as a Boolean variable. *)
Definition declares (m : list (call var)) (v : var) : bool :=
  existsb (λ c, match c with
                | NewBoolVar v' => bool_decide (v' = v)
                | NewIntVar _ _ _ | AddConstraint _ => false
                end) m.

(** The same values with every indicator of the objective at 0. *)
Definition without_indicators (value : var → Z) (v : var) : Z :=
  match v with
  | adj _ _ _ | free_day _ _ | long_stretch _ _ _ | pref _ _ => 0
  | x _ _ _ _ _ | y _ _ | day_has_class _ _ => value v
  end.

(** The values that [solve_timetable_model] reads back from the engine. *)
Definition solution_values (engine : solver var) (self : App)
    (batches : gmap string batch) (faculty : gmap string faculty_member)
    (classrooms : gmap string classroom)
    (time_limit min_hours_day max_hours_day : Z) : var → Z :=
  match build_model self batches faculty classrooms min_hours_day max_hours_day with
  | inl _ => λ _, 0
  | inr (m, obj) => Value (engine m obj time_limit)
  end.

(** The subject of a cell, how many timeslots of a row of the schedule are
    given to the subject [name], and how many are occupied at all. *)
Definition cell_subject (entry : cell) : option string :=
  match entry with
  | Some (subj, _, _) => Some subj
  | None => None
  end.
Definition slots_with (name : string) (row : list cell) : nat :=
  length (filter (λ entry, cell_subject entry = Some name) row).
Definition occupied_slots (row : list cell) : nat :=
  length (filter (λ entry : cell, entry ≠ None) row).

(** The faculty member and the classroom of a cell, and [schedule[b][t]]
    ([None] outside the schedule). *)
Definition cell_faculty (entry : cell) : option string :=
  match entry with
  | Some (_, fac, _) => Some fac
  | None => None
  end.
Definition cell_at (sched : list (list cell)) (b t : nat) : cell :=
  default None (sched !! b ≫= λ row, row !! t).

(** [TimetableApp.solve_timetable_model], with the solving engine as an
    argument. *)
Definition solve_timetable_model (engine : solver var) (self : App)
    (batches : gmap string batch) (faculty : gmap string faculty_member)
    (classrooms : gmap string classroom)
    (time_limit min_hours_day max_hours_day : Z) : exn + timetable :=
  match build_model self batches faculty classrooms min_hours_day max_hours_day with
  | inl e => inl e
  | inr (m, obj) =>
      let r := engine m obj time_limit in
      if negb (accepted (status_of r)) then inl (RuntimeError msg_no_solution)
      else
        let sched := build_schedule self batches faculty classrooms (Value r) in
        inr {| result_schedule := sched;
               result_batch_list := batch_list batches;
               result_workloads := build_workloads faculty sched |}
  end.

(** *** Reading a returned schedule *)

(** The cells of day [d] in a row of the schedule, [n] slots a day. *)
Definition day_cells (n d : nat) (row : list cell) : list cell :=
  take n (drop (d * n) row).


(** The number of cells of a schedule that name the faculty member [fac]. *)
Definition lessons_of (fac : string) (sched : list (list cell)) : nat :=
  length (filter (λ entry, cell_faculty entry = Some fac) (concat sched)).

(** *** Python strings *)

(** [s] without the prefix [p], if it starts with [p]. *)
Fixpoint without_prefix (p s : string) : option string :=
  match p, s with
  | EmptyString, _ => Some s
  | String a p, String b s =>
      if bool_decide (a = b) then without_prefix p s else None
  | String _ _, EmptyString => None
  end.

Definition utf8 (bytes : list N) : string :=
  foldr (λ b s, String (ascii_of_N b) s) EmptyString bytes.

(** The characters that [str.isspace] accepts, in UTF-8: U+0009 to U+000D,
    U+001C to U+001F, U+0020, U+0085, U+00A0, U+1680, U+2000 to U+200A,
    U+2028, U+2029, U+202F, U+205F and U+3000. *)
Definition whitespace : list string :=
  utf8 <$> [[9]; [10]; [11]; [12]; [13]; [28]; [29]; [30]; [31]; [32];
            [194; 133]; [194; 160]; [225; 154; 128];
            [226; 128; 128]; [226; 128; 129]; [226; 128; 130]; [226; 128; 131];
            [226; 128; 132]; [226; 128; 133]; [226; 128; 134]; [226; 128; 135];
            [226; 128; 136]; [226; 128; 137]; [226; 128; 138];
            [226; 128; 168]; [226; 128; 169]; [226; 128; 175];
            [226; 129; 159]; [227; 128; 128]]%N.

Fixpoint without_first (ps : list string) (s : string) : option string :=
  match ps with
  | [] => None
  | p :: ps =>
      match without_prefix p s with
      | Some rest => Some rest
      | None => without_first ps s
      end
  end.

Fixpoint lstrip_go (fuel : nat) (ps : list string) (s : string) : string :=
  match fuel with
  | O => s
  | S fuel =>
      match without_first ps s with
      | Some rest => lstrip_go fuel ps rest
      | None => s
      end
  end.

(** [s.strip()] *)
Definition lstrip (s : string) : string :=
  lstrip_go (String.length s) whitespace s.
Definition rstrip (s : string) : string :=
  String.rev (lstrip_go (String.length s) (String.rev <$> whitespace)
                (String.rev s)).
Definition strip (s : string) : string := rstrip (lstrip s).

(** [s.split(' ')[0]]: the text before the first space. *)
Fixpoint first_word (s : string) : string :=
  match s with
  | EmptyString => EmptyString
  | String a rest =>
      if bool_decide (a = " "%char) then EmptyString
      else String a (first_word rest)
  end.

(** *** The registry tabs of the application *)

(** An exception that leaves a callback. *)
Inductive raised :=
| KeyError (key : string)
| TclError (text : string).

(** What a callback shows: a dialog as above, or a warning. *)
Inductive notice :=
| Dialog (d : dialog)
| ShowWarning (title msg : string).

(** A [tk.IntVar] behind an entry or a spin box, as [get] finds it.  The text
    of the field is free: [get] returns the integer that it reads there, or
    raises [TclError] (expected floating-point number but got "text") when
    the text is no number, the empty text included. *)
Inductive IntVar :=
| Reads (n : Z)
| NoNumber (text : string).

Definition IntVar_get (v : IntVar) : raised + Z :=
  match v with
  | Reads n => inr n
  | NoNumber text => inl (TclError text)
  end.

(** The entry variables that the editing callbacks only read.
    [class_max_daily_hours_text] is the text of the spin box of
    [class_max_daily_hours_var] when that text is no number, and [None] when
    the variable reads as the application holds it. *)
Record Entries := {
  batch_name_var : string;
  batch_year_var : IntVar;
  batch_branch_var : string;
  subj_name_var : string;
  subj_hours_var : IntVar;
  subj_type_var : string;
  class_name_var : string;
  class_capacity_var : IntVar;
  class_type_var : string;
  class_max_daily_hours_text : option string;
}.

(** The application with the rest of what the editing callbacks read and
    write: the entry variables, the selections of the five tree views and
    [selected_item_for_edit].  The rows of a tree view are the sorted keys of
    its registry and are not kept; the states of the buttons are not kept
    either. *)
Record Window := {
  app : App;
  entries : Entries;
  faculty_name_var : string;
  faculty_pref_morning_var : bool;
  batch_tree_selection : list string;
  subject_tree_selection : list string;
  faculty_tree_selection : list string;
  assignment_tree_selection : list string;
  classroom_tree_selection : list string;
  selected_item_for_edit : option string;
}.

Definition set_batches (v : gmap string batch) (a : App) : App :=
  {| slots := slots a; saturday_var := saturday_var a; batches := v;
     faculty := faculty a; classrooms := classrooms a;
     start_hour_var := start_hour_var a; end_hour_var := end_hour_var a;
     lunch_hour_var := lunch_hour_var a; time_limit_var := time_limit_var a;
     min_hours_day_var := min_hours_day_var a;
     max_hours_day_var := max_hours_day_var a;
     class_max_daily_hours_var := class_max_daily_hours_var a;
     min_hours_spinbox_to := min_hours_spinbox_to a;
     max_hours_spinbox_to := max_hours_spinbox_to a;
     class_max_hours_spinbox_to := class_max_hours_spinbox_to a |}.

Definition set_faculty (v : gmap string faculty_member) (a : App) : App :=
  {| slots := slots a; saturday_var := saturday_var a; batches := batches a;
     faculty := v; classrooms := classrooms a;
     start_hour_var := start_hour_var a; end_hour_var := end_hour_var a;
     lunch_hour_var := lunch_hour_var a; time_limit_var := time_limit_var a;
     min_hours_day_var := min_hours_day_var a;
     max_hours_day_var := max_hours_day_var a;
     class_max_daily_hours_var := class_max_daily_hours_var a;
     min_hours_spinbox_to := min_hours_spinbox_to a;
     max_hours_spinbox_to := max_hours_spinbox_to a;
     class_max_hours_spinbox_to := class_max_hours_spinbox_to a |}.

Definition set_classrooms (v : gmap string classroom) (a : App) : App :=
  {| slots := slots a; saturday_var := saturday_var a; batches := batches a;
     faculty := faculty a; classrooms := v;
     start_hour_var := start_hour_var a; end_hour_var := end_hour_var a;
     lunch_hour_var := lunch_hour_var a; time_limit_var := time_limit_var a;
     min_hours_day_var := min_hours_day_var a;
     max_hours_day_var := max_hours_day_var a;
     class_max_daily_hours_var := class_max_daily_hours_var a;
     min_hours_spinbox_to := min_hours_spinbox_to a;
     max_hours_spinbox_to := max_hours_spinbox_to a;
     class_max_hours_spinbox_to := class_max_hours_spinbox_to a |}.

Definition set_app (v : App) (w : Window) : Window :=
  {| app := v; entries := entries w;
     faculty_name_var := faculty_name_var w;
     faculty_pref_morning_var := faculty_pref_morning_var w;
     batch_tree_selection := batch_tree_selection w;
     subject_tree_selection := subject_tree_selection w;
     faculty_tree_selection := faculty_tree_selection w;
     assignment_tree_selection := assignment_tree_selection w;
     classroom_tree_selection := classroom_tree_selection w;
     selected_item_for_edit := selected_item_for_edit w |}.

Definition set_faculty_name_var (v : string) (w : Window) : Window :=
  {| app := app w; entries := entries w;
     faculty_name_var := v;
     faculty_pref_morning_var := faculty_pref_morning_var w;
     batch_tree_selection := batch_tree_selection w;
     subject_tree_selection := subject_tree_selection w;
     faculty_tree_selection := faculty_tree_selection w;
     assignment_tree_selection := assignment_tree_selection w;
     classroom_tree_selection := classroom_tree_selection w;
     selected_item_for_edit := selected_item_for_edit w |}.

Definition set_faculty_pref_morning_var (v : bool) (w : Window) : Window :=
  {| app := app w; entries := entries w;
     faculty_name_var := faculty_name_var w;
     faculty_pref_morning_var := v;
     batch_tree_selection := batch_tree_selection w;
     subject_tree_selection := subject_tree_selection w;
     faculty_tree_selection := faculty_tree_selection w;
     assignment_tree_selection := assignment_tree_selection w;
     classroom_tree_selection := classroom_tree_selection w;
     selected_item_for_edit := selected_item_for_edit w |}.

Definition set_batch_tree_selection (v : list string) (w : Window) : Window :=
  {| app := app w; entries := entries w;
     faculty_name_var := faculty_name_var w;
     faculty_pref_morning_var := faculty_pref_morning_var w;
     batch_tree_selection := v;
     subject_tree_selection := subject_tree_selection w;
     faculty_tree_selection := faculty_tree_selection w;
     assignment_tree_selection := assignment_tree_selection w;
     classroom_tree_selection := classroom_tree_selection w;
     selected_item_for_edit := selected_item_for_edit w |}.

Definition set_subject_tree_selection (v : list string) (w : Window) : Window :=
  {| app := app w; entries := entries w;
     faculty_name_var := faculty_name_var w;
     faculty_pref_morning_var := faculty_pref_morning_var w;
     batch_tree_selection := batch_tree_selection w;
     subject_tree_selection := v;
     faculty_tree_selection := faculty_tree_selection w;
     assignment_tree_selection := assignment_tree_selection w;
     classroom_tree_selection := classroom_tree_selection w;
     selected_item_for_edit := selected_item_for_edit w |}.

Definition set_faculty_tree_selection (v : list string) (w : Window) : Window :=
  {| app := app w; entries := entries w;
     faculty_name_var := faculty_name_var w;
     faculty_pref_morning_var := faculty_pref_morning_var w;
     batch_tree_selection := batch_tree_selection w;
     subject_tree_selection := subject_tree_selection w;
     faculty_tree_selection := v;
     assignment_tree_selection := assignment_tree_selection w;
     classroom_tree_selection := classroom_tree_selection w;
     selected_item_for_edit := selected_item_for_edit w |}.

Definition set_assignment_tree_selection (v : list string) (w : Window) : Window :=
  {| app := app w; entries := entries w;
     faculty_name_var := faculty_name_var w;
     faculty_pref_morning_var := faculty_pref_morning_var w;
     batch_tree_selection := batch_tree_selection w;
     subject_tree_selection := subject_tree_selection w;
     faculty_tree_selection := faculty_tree_selection w;
     assignment_tree_selection := v;
     classroom_tree_selection := classroom_tree_selection w;
     selected_item_for_edit := selected_item_for_edit w |}.

Definition set_classroom_tree_selection (v : list string) (w : Window) : Window :=
  {| app := app w; entries := entries w;
     faculty_name_var := faculty_name_var w;
     faculty_pref_morning_var := faculty_pref_morning_var w;
     batch_tree_selection := batch_tree_selection w;
     subject_tree_selection := subject_tree_selection w;
     faculty_tree_selection := faculty_tree_selection w;
     assignment_tree_selection := assignment_tree_selection w;
     classroom_tree_selection := v;
     selected_item_for_edit := selected_item_for_edit w |}.

Definition set_selected_item_for_edit (v : option string) (w : Window) : Window :=
  {| app := app w; entries := entries w;
     faculty_name_var := faculty_name_var w;
     faculty_pref_morning_var := faculty_pref_morning_var w;
     batch_tree_selection := batch_tree_selection w;
     subject_tree_selection := subject_tree_selection w;
     faculty_tree_selection := faculty_tree_selection w;
     assignment_tree_selection := assignment_tree_selection w;
     classroom_tree_selection := classroom_tree_selection w;
     selected_item_for_edit := v |}.

(** How a callback ends: the state it leaves, the dialogs it has shown, in
    order, and the exception that has left it, if any. *)
Record outcome := {
  window : Window;
  shown : list notice;
  raised_error : option raised;
}.

Definition finish (w : Window) : outcome :=
  {| window := w; shown := []; raised_error := None |}.
Definition finish_with (n : notice) (w : Window) : outcome :=
  {| window := w; shown := [n]; raised_error := None |}.
Definition raise (e : raised) (w : Window) : outcome :=
  {| window := w; shown := []; raised_error := Some e |}.

(** One call after another: an exception ends the callback. *)
Definition and_then (o : outcome) (k : Window → outcome) : outcome :=
  match raised_error o with
  | Some _ => o
  | None =>
      let o' := k (window o) in
      {| window := window o'; shown := shown o ++ shown o';
         raised_error := raised_error o' |}
  end.

Definition error_box (msg : string) : notice := Dialog (ShowError "Error" msg).

(** **** The views *)

(** [TimetableApp.on_batch_select]: the subject view is emptied and filled
    again from the selected batch. *)
Definition on_batch_select (w : Window) : Window :=
  set_subject_tree_selection [] (set_selected_item_for_edit None w).

(** [TimetableApp.on_faculty_select] *)
Definition on_faculty_select (w : Window) : outcome :=
  let w := set_selected_item_for_edit None w in
  let w := set_assignment_tree_selection [] w in
  match faculty_tree_selection w with
  | [] => finish (set_faculty_pref_morning_var false w)
  | fac_name :: _ =>
      match faculty (app w) !! fac_name with
      | None => raise (KeyError fac_name) w
      | Some fac_data =>
          finish (set_faculty_pref_morning_var (f_prefers_morning fac_data) w)
      end
  end.

(** [TimetableApp.on_classroom_select] *)
Definition on_classroom_select (w : Window) : Window :=
  set_selected_item_for_edit None w.

(** [TimetableApp.update_batch_view], [update_faculty_view],
    [update_classroom_view] and [update_all_views]: every row is deleted and
    the rows of the registry are inserted, so nothing is selected. *)
Definition update_batch_view (w : Window) : outcome :=
  finish (on_batch_select (set_batch_tree_selection [] w)).
Definition update_faculty_view (w : Window) : outcome :=
  on_faculty_select (set_faculty_tree_selection [] w).
Definition update_classroom_view (w : Window) : outcome :=
  finish (on_classroom_select (set_classroom_tree_selection [] w)).
Definition update_all_views (w : Window) : outcome :=
  and_then (and_then (update_batch_view w) update_faculty_view)
    update_classroom_view.

(** **** Batches *)

(** [TimetableApp.add_batch]; the year is read before anything is stored,
    and is kept as the text that the views show. *)
Definition add_batch (w : Window) : outcome :=
  let name := strip (batch_name_var (entries w)) in
  if bool_decide (name = EmptyString ∨ is_Some (batches (app w) !! name)) then
    finish_with (error_box "Batch name must be unique and not empty.") w
  else
    match IntVar_get (batch_year_var (entries w)) with
    | inl e => raise e w
    | inr year =>
        let data :=
          {| b_year := pretty year;
             b_branch := strip (batch_branch_var (entries w));
             b_subjects := ∅ |} in
        update_batch_view
          (set_app (set_batches (<[name := data]> (batches (app w))) (app w)) w)
    end.

Definition confirm_remove_batch (batch_name : string) : string :=
  "Are you sure you want to remove batch '" +:+ batch_name +:+
  "'?" +:+ String (ascii_of_N 10) "This will also remove it from all faculty assignments.".

(** The clean-up loop of [remove_batch] on one faculty member. *)
Definition without_batch (batch_name : string) (fac_data : faculty_member)
    : faculty_member :=
  {| f_assignments := (λ assigned_batches, assigned_batches ∖ {[ batch_name ]})
                        <$> f_assignments fac_data;
     f_prefers_morning := f_prefers_morning fac_data |}.

(** [TimetableApp.remove_batch]; [askyesno] is the answer of the user to the
    question asked. *)
Definition remove_batch (askyesno : string → string → bool) (w : Window)
    : outcome :=
  match batch_tree_selection w with
  | [] => finish_with (error_box "Please select a batch to remove.") w
  | batch_name :: _ =>
      if askyesno "Confirm Deletion" (confirm_remove_batch batch_name) then
        match batches (app w) !! batch_name with
        | None => raise (KeyError batch_name) w
        | Some _ =>
            let a := set_batches (delete batch_name (batches (app w))) (app w) in
            let a := set_faculty (without_batch batch_name <$> faculty a) a in
            and_then (update_batch_view (set_app a w)) update_faculty_view
        end
      else finish w
  end.

(** The renaming loop of [update_batch] on one faculty member. *)
Definition with_batch_renamed (old_name new_name : string)
    (fac_data : faculty_member) : faculty_member :=
  {| f_assignments :=
       (λ b_set : gset string,
          if bool_decide (old_name ∈ b_set)
          then {[ new_name ]} ∪ b_set ∖ {[ old_name ]} else b_set)
         <$> f_assignments fac_data;
     f_prefers_morning := f_prefers_morning fac_data |}.

(** [not self.selected_item_for_edit]: [None] and the empty string. *)
Definition edited_item (w : Window) : option string :=
  match selected_item_for_edit w with
  | Some EmptyString | None => None
  | Some item => Some item
  end.

(** [TimetableApp.update_batch]: the batch is popped from the registry
    before the year is read, so a [TclError] of that read leaves the registry
    without the batch. *)
Definition update_batch (w : Window) : outcome :=
  match edited_item w with
  | None => finish w
  | Some old_name =>
      let new_name := strip (batch_name_var (entries w)) in
      if bool_decide (old_name ≠ new_name
                      ∧ is_Some (batches (app w) !! new_name)) then
        finish_with (error_box "A batch with this name already exists.") w
      else
        match batches (app w) !! old_name with
        | None => raise (KeyError old_name) w
        | Some data =>
            let popped :=
              set_app (set_batches (delete old_name (batches (app w))) (app w))
                w in
            match IntVar_get (batch_year_var (entries w)) with
            | inl e => raise e popped
            | inr year =>
                let data :=
                  {| b_year := pretty year;
                     b_branch := batch_branch_var (entries w);
                     b_subjects := b_subjects data |} in
                let a :=
                  set_batches (<[new_name := data]> (batches (app popped)))
                    (app popped) in
                let a :=
                  if bool_decide (old_name ≠ new_name)
                  then set_faculty
                         (with_batch_renamed old_name new_name <$> faculty a) a
                  else a in
                update_all_views
                  (set_selected_item_for_edit None (set_app a popped))
            end
        end
  end.

(** **** Faculty *)

(** [TimetableApp.add_faculty] *)
Definition add_faculty (w : Window) : outcome :=
  let name := strip (faculty_name_var w) in
  if bool_decide (name = EmptyString ∨ is_Some (faculty (app w) !! name)) then
    finish_with (error_box "Faculty name must be unique and not empty.") w
  else
    let data := {| f_assignments := ∅; f_prefers_morning := false |} in
    update_faculty_view
      (set_app (set_faculty (<[name := data]> (faculty (app w))) (app w)) w).

Definition confirm_remove (name : string) : string :=
  "Are you sure you want to remove '" +:+ name +:+ "'?".

(** [TimetableApp.remove_faculty] *)
Definition remove_faculty (askyesno : string → string → bool) (w : Window)
    : outcome :=
  match faculty_tree_selection w with
  | [] => finish_with (error_box "Please select a faculty member to remove.") w
  | faculty_name :: _ =>
      if askyesno "Confirm Deletion" (confirm_remove faculty_name) then
        match faculty (app w) !! faculty_name with
        | None => raise (KeyError faculty_name) w
        | Some _ =>
            update_faculty_view
              (set_app (set_faculty (delete faculty_name (faculty (app w)))
                          (app w)) w)
        end
      else finish w
  end.

(** [TimetableApp.update_faculty] *)
Definition update_faculty (w : Window) : outcome :=
  match edited_item w with
  | None => finish w
  | Some old_name =>
      let new_name := strip (faculty_name_var w) in
      if bool_decide (new_name = EmptyString) then
        finish_with (error_box "Faculty name cannot be empty.") w
      else if bool_decide (old_name ≠ new_name
                           ∧ is_Some (faculty (app w) !! new_name)) then
        finish_with
          (error_box "A faculty member with this name already exists.") w
      else
        let renamed :=
          if bool_decide (old_name ≠ new_name) then
            match faculty (app w) !! old_name with
            | None => inl (KeyError old_name)
            | Some data =>
                inr (set_faculty (<[new_name := data]>
                                    (delete old_name (faculty (app w))))
                       (app w))
            end
          else inr (app w) in
        match renamed with
        | inl e => raise e w
        | inr a =>
            update_faculty_view
              (set_faculty_name_var EmptyString
                 (set_selected_item_for_edit None (set_app a w)))
        end
  end.

(** [TimetableApp.set_faculty_preferences] *)
Definition set_faculty_preferences (w : Window) : outcome :=
  match faculty_tree_selection w with
  | [] => finish_with (error_box "Select a faculty member first.") w
  | faculty_name :: _ =>
      match faculty (app w) !! faculty_name with
      | None => raise (KeyError faculty_name) w
      | Some fac_data =>
          let fac_data :=
            {| f_assignments := f_assignments fac_data;
               f_prefers_morning := faculty_pref_morning_var w |} in
          finish_with
            (Dialog (ShowInfo "Success"
                       ("Preferences for " +:+ faculty_name +:+
                        " have been updated.")))
            (set_app (set_faculty (<[faculty_name := fac_data]>
                                     (faculty (app w))) (app w)) w)
      end
  end.

(** **** Classrooms *)

(** [self.class_max_daily_hours_var] as [get] finds it. *)
Definition class_max_daily_hours (w : Window) : IntVar :=
  match class_max_daily_hours_text (entries w) with
  | Some text => NoNumber text
  | None => Reads (class_max_daily_hours_var (app w))
  end.

(** The dictionary that [add_classroom] and [update_classroom] build from
    the form: the capacity is read first, the maximum of daily hours last. *)
Definition classroom_of_form (w : Window) : raised + classroom :=
  match IntVar_get (class_capacity_var (entries w)) with
  | inl e => inl e
  | inr capacity =>
      match IntVar_get (class_max_daily_hours w) with
      | inl e => inl e
      | inr max_daily_hours =>
          inr {| c_capacity := capacity;
                 c_type := class_type_var (entries w);
                 c_max_daily_hours := Some max_daily_hours |}
      end
  end.

(** [TimetableApp.add_classroom]: the form is read before anything is
    stored. *)
Definition add_classroom (w : Window) : outcome :=
  let name := strip (class_name_var (entries w)) in
  if bool_decide (name = EmptyString ∨ is_Some (classrooms (app w) !! name)) then
    finish_with (error_box "Classroom name must be unique and not empty.") w
  else
    match classroom_of_form w with
    | inl e => raise e w
    | inr data =>
        update_classroom_view
          (set_app (set_classrooms (<[name := data]> (classrooms (app w)))
                      (app w)) w)
    end.

(** [TimetableApp.remove_classroom] *)
Definition remove_classroom (askyesno : string → string → bool) (w : Window)
    : outcome :=
  match classroom_tree_selection w with
  | [] => finish_with (error_box "Please select a classroom to remove.") w
  | classroom_name :: _ =>
      if askyesno "Confirm Deletion" (confirm_remove classroom_name) then
        match classrooms (app w) !! classroom_name with
        | None => raise (KeyError classroom_name) w
        | Some _ =>
            update_classroom_view
              (set_app (set_classrooms
                          (delete classroom_name (classrooms (app w)))
                          (app w)) w)
        end
      else finish w
  end.

(** [TimetableApp.update_classroom]: the classroom is popped from the
    registry before the form is read, so a [TclError] of a read leaves the
    registry without the classroom. *)
Definition update_classroom (w : Window) : outcome :=
  match edited_item w with
  | None => finish w
  | Some old_name =>
      let new_name := strip (class_name_var (entries w)) in
      if bool_decide (old_name ≠ new_name
                      ∧ is_Some (classrooms (app w) !! new_name)) then
        finish_with (error_box "A classroom with this name already exists.") w
      else
        match classrooms (app w) !! old_name with
        | None => raise (KeyError old_name) w
        | Some _ =>
            let popped :=
              set_app (set_classrooms (delete old_name (classrooms (app w)))
                         (app w)) w in
            match classroom_of_form w with
            | inl e => raise e popped
            | inr data =>
                let a :=
                  set_classrooms (<[new_name := data]> (classrooms (app popped)))
                    (app popped) in
                update_classroom_view
                  (set_selected_item_for_edit None (set_app a popped))
            end
        end
  end.

(** **** Subjects of a batch *)

(** The dictionary that [add_subject] and [update_subject] build from the
    form. *)
Definition subject_of_form (w : Window) : raised + subject :=
  match IntVar_get (subj_hours_var (entries w)) with
  | inl e => inl e
  | inr hours =>
      inr {| s_hours := Some hours; s_type := Some (subj_type_var (entries w)) |}
  end.

Definition with_subjects (v : gmap string subject) (data : batch) : batch :=
  {| b_year := b_year data; b_branch := b_branch data; b_subjects := v |}.

Definition set_subjects (batch_name : string) (data : batch)
    (v : gmap string subject) (w : Window) : Window :=
  set_app (set_batches (<[batch_name := with_subjects v data]>
                          (batches (app w))) (app w)) w.

(** [TimetableApp.add_subject] *)
Definition add_subject (w : Window) : outcome :=
  match batch_tree_selection w with
  | [] => finish_with (error_box "Please select a batch first.") w
  | batch_name :: _ =>
      let subj_name := strip (subj_name_var (entries w)) in
      if bool_decide (subj_name = EmptyString) then
        finish_with (error_box "Subject name cannot be empty.") w
      else
        match batches (app w) !! batch_name with
        | None => raise (KeyError batch_name) w
        | Some data =>
            if bool_decide (is_Some (b_subjects data !! subj_name)) then
              finish_with
                (error_box ("Subject '" +:+ subj_name +:+
                            "' already exists in this batch.")) w
            else
              match subject_of_form w with
              | inl e => raise e w
              | inr subj =>
                  finish (on_batch_select
                            (set_subjects batch_name data
                               (<[subj_name := subj]> (b_subjects data)) w))
              end
        end
  end.

(** [TimetableApp.update_subject]: on a change of name the old subject is
    deleted before the form is read, so a [TclError] of the read leaves the
    batch without the subject; the form is read before the batch is looked up
    for the store. *)
Definition update_subject (w : Window) : outcome :=
  match batch_tree_selection w, subject_tree_selection w with
  | batch_name :: _, old_subj_name :: _ =>
      let new_subj_name := strip (subj_name_var (entries w)) in
      if bool_decide (new_subj_name = EmptyString) then
        finish_with (error_box "Subject name cannot be empty.") w
      else
        let renamed :=
          if bool_decide (old_subj_name ≠ new_subj_name) then
            match batches (app w) !! batch_name with
            | None => inl (inl (KeyError batch_name))
            | Some data =>
                if bool_decide (is_Some (b_subjects data !! new_subj_name)) then
                  inl (inr (error_box ("Subject '" +:+ new_subj_name +:+
                                       "' already exists in this batch.")))
                else
                  match b_subjects data !! old_subj_name with
                  | None => inl (inl (KeyError old_subj_name))
                  | Some _ =>
                      inr (set_subjects batch_name data
                             (delete old_subj_name (b_subjects data)) w)
                  end
            end
          else inr w in
        match renamed with
        | inl (inl e) => raise e w
        | inl (inr n) => finish_with n w
        | inr w' =>
            match subject_of_form w with
            | inl e => raise e w'
            | inr subj =>
                match batches (app w') !! batch_name with
                | None => raise (KeyError batch_name) w'
                | Some data =>
                    finish (on_batch_select
                              (set_subjects batch_name data
                                 (<[new_subj_name := subj]> (b_subjects data))
                                 w'))
                end
            end
        end
  | _, _ =>
      finish_with
        (error_box "Please select a batch and a subject to update.") w
  end.

(** [TimetableApp.remove_subject] *)
Definition remove_subject (askyesno : string → string → bool) (w : Window)
    : outcome :=
  match batch_tree_selection w, subject_tree_selection w with
  | batch_name :: _, subj_name :: _ =>
      if askyesno "Confirm Deletion" (confirm_remove subj_name) then
        match batches (app w) !! batch_name with
        | None => raise (KeyError batch_name) w
        | Some data =>
            match b_subjects data !! subj_name with
            | None => raise (KeyError subj_name) w
            | Some _ =>
                finish (on_batch_select
                          (set_subjects batch_name data
                             (delete subj_name (b_subjects data)) w))
            end
        end
      else finish w
  | _, _ => finish_with (error_box "Please select a subject to remove.") w
  end.

(** **** Teaching assignments *)

Definition with_assignments (v : gmap string (gset string))
    (fac_data : faculty_member) : faculty_member :=
  {| f_assignments := v; f_prefers_morning := f_prefers_morning fac_data |}.

Definition set_assignments (fac_name : string) (fac_data : faculty_member)
    (v : gmap string (gset string)) (w : Window) : Window :=
  set_app (set_faculty (<[fac_name := with_assignments v fac_data]>
                          (faculty (app w))) (app w)) w.

(** The button "Add" of the dialog that [TimetableApp.add_assignment] opens
    for the selected faculty member [fac_name]; [subject_var] is the subject
    chosen in the dialog. *)
Definition on_add (fac_name subject_var : string) (w : Window) : outcome :=
  let subj_name := subject_var in
  if bool_decide (subj_name = EmptyString) then
    finish_with (ShowWarning "Warning" "Please select a subject.") w
  else
    match faculty (app w) !! fac_name with
    | None => raise (KeyError fac_name) w
    | Some fac_data =>
        if bool_decide (is_Some (f_assignments fac_data !! subj_name)) then
          finish_with
            (ShowWarning "Warning"
               (fac_name +:+ " is already assigned to teach " +:+ subj_name
                +:+ ".")) w
        else
          on_faculty_select
            (set_assignments fac_name fac_data
               (<[subj_name := ∅]> (f_assignments fac_data)) w)
    end.

(** [TimetableApp.add_assignment], with the choice made in its dialog:
    [None] for "Cancel". *)
Definition add_assignment (choice : option string) (w : Window) : outcome :=
  match faculty_tree_selection w with
  | [] => finish_with (error_box "Please select a faculty member first.") w
  | fac_name :: _ =>
      match choice with
      | Some subject_var => on_add fac_name subject_var w
      | None => finish w
      end
  end.

Definition confirm_remove_assignment (subj_name fac_name : string) : string :=
  "Are you sure you want to remove the assignment '" +:+ subj_name +:+
  "' from " +:+ fac_name +:+ "?".

(** [TimetableApp.remove_assignment] *)
Definition remove_assignment (askyesno : string → string → bool) (w : Window)
    : outcome :=
  match faculty_tree_selection w, assignment_tree_selection w with
  | fac_name :: _, subj_name :: _ =>
      if askyesno "Confirm Deletion"
           (confirm_remove_assignment subj_name fac_name) then
        match faculty (app w) !! fac_name with
        | None => raise (KeyError fac_name) w
        | Some fac_data =>
            on_faculty_select
              (set_assignments fac_name fac_data
                 (delete subj_name (f_assignments fac_data)) w)
        end
      else finish w
  | _, _ =>
      finish_with
        (error_box
           "Please select a faculty member and an assignment to remove.") w
  end.

(** The lines of the list box of [TimetableApp.edit_assignment]:
    [f"{name} ({year}, {branch})"] for the batches in sorted order. *)
Definition batch_line (name : string) (data : batch) : string :=
  name +:+ " (" +:+ b_year data +:+ ", " +:+ b_branch data +:+ ")".

Definition all_batches_formatted (a : App) : list string :=
  (λ name, batch_line name (batches a !!! name)) <$> batch_list (batches a).

(** The lines that [edit_assignment] selects when the dialog opens. *)
Definition preselected (a : App) (fac_name subj_name : string)
    : raised + list nat :=
  match faculty a !! fac_name with
  | None => inl (KeyError fac_name)
  | Some fac_data =>
      let current_assigned_set : gset string :=
        default ∅ (f_assignments fac_data !! subj_name) in
      inr ((enumerate (all_batches_formatted a)) ≫= λ '(i, formatted_name),
             let batch_name := first_word formatted_name in
             if bool_decide (batch_name ∈ current_assigned_set) then [i] else [])
  end.

(** [TimetableApp._save_assignment_changes]: [listbox] holds the lines of the
    list box and [curselection] the indices selected in it; the line of an
    index out of range is empty. *)
Definition _save_assignment_changes (fac_name subj_name : string)
    (listbox : list string) (curselection : list nat) (w : Window) : outcome :=
  let newly_assigned_batches : gset string :=
    foldl (λ acc i,
             let formatted_name := default EmptyString (listbox !! i) in
             let batch_name := first_word formatted_name in
             acc ∪ {[ batch_name ]})
          ∅ curselection in
  match faculty (app w) !! fac_name with
  | None => raise (KeyError fac_name) w
  | Some fac_data =>
      on_faculty_select
        (set_assignments fac_name fac_data
           (<[subj_name := newly_assigned_batches]> (f_assignments fac_data)) w)
  end.

(** [TimetableApp.edit_assignment] with what is done in its dialog: [None]
    for "Cancel", the indices selected for "Save". *)
Definition edit_assignment (choice : option (list nat)) (w : Window) : outcome :=
  match faculty_tree_selection w, assignment_tree_selection w with
  | fac_name :: _, subj_name :: _ =>
      match preselected (app w) fac_name subj_name with
      | inl e => raise e w
      | inr _ =>
          match choice with
          | Some curselection =>
              _save_assignment_changes fac_name subj_name
                (all_batches_formatted (app w)) curselection w
          | None => finish w
          end
      end
  | _, _ => finish w
  end.

(** **** The callbacks as one type *)

Inductive callback :=
| AddBatch
| RemoveBatch
| UpdateBatch
| AddFaculty
| RemoveFaculty
| UpdateFaculty
| SetFacultyPreferences
| AddClassroom
| RemoveClassroom
| UpdateClassroom
| AddSubject
| UpdateSubject
| RemoveSubject
| AddAssignment (choice : option string)
| RemoveAssignment
| EditAssignment (choice : option (list nat)).

Definition run_callback (askyesno : string → string → bool) (c : callback)
    (w : Window) : outcome :=
  match c with
  | AddBatch => add_batch w
  | RemoveBatch => remove_batch askyesno w
  | UpdateBatch => update_batch w
  | AddFaculty => add_faculty w
  | RemoveFaculty => remove_faculty askyesno w
  | UpdateFaculty => update_faculty w
  | SetFacultyPreferences => set_faculty_preferences w
  | AddClassroom => add_classroom w
  | RemoveClassroom => remove_classroom askyesno w
  | UpdateClassroom => update_classroom w
  | AddSubject => add_subject w
  | UpdateSubject => update_subject w
  | RemoveSubject => remove_subject askyesno w
  | AddAssignment choice => add_assignment choice w
  | RemoveAssignment => remove_assignment askyesno w
  | EditAssignment choice => edit_assignment choice w
  end.

(** Every batch named in a teaching assignment is a batch of the
    registry. *)
Definition assignments_known (a : App) : Prop :=
  ∀ fac_name fac_data subj_name b_set batch_name,
    faculty a !! fac_name = Some fac_data →
    f_assignments fac_data !! subj_name = Some b_set →
    batch_name ∈ b_set →
    is_Some (batches a !! batch_name).
End TimetableGenerator.

(** * Example configurations *)

Module examples.
Import cp_model.

(** *** For the prototype *)

(** One batch, one room, one day of two slots, one hour of Math. *)
Definition proto_subjects : list TT_prototype.subject_row := [("Math", 1, 1)].
Definition proto_days : list string := ["Mon"].
Definition proto_slots : list string := ["9-10"; "10-11"].

(** Math in the first slot. *)
Definition proto_values (v : TT_prototype.var) : Z :=
  match v with
  | TT_prototype.x 0 0 0 => 1
  | TT_prototype.y 0 0 => 1
  | TT_prototype.day_active 0 0 => 1
  | TT_prototype.slot_filled 0 => 1
  | TT_prototype.full_slot 0 => 1
  | _ => 0
  end.

Definition proto_run (engine : solver TT_prototype.var) (max_per_day : Z) :=
  TT_prototype.solve_timetable engine proto_subjects 1 1 max_per_day 2 1
    proto_days proto_slots 40.

(** *** For the application *)

Import TimetableGenerator.

Definition math_subject (hours : Z) : subject :=
  {| s_hours := Some hours; s_type := Some "Lecture" |}.

Definition math_batch (hours : Z) : batch :=
  {| b_year := "1"; b_branch := "CS";
     b_subjects := {[ "Math" := math_subject hours ]} |}.

Definition math (hours : Z) : gmap string batch :=
  {[ "B1" := math_batch hours ]}.

Definition one_teacher : gmap string faculty_member :=
  {[ "F1" := {| f_assignments := {[ "Math" := {[ "B1" ]} ]};
                f_prefers_morning := true |} ]}.

Definition room (hours : Z) : classroom :=
  {| c_capacity := 1; c_type := "Lecture"; c_max_daily_hours := Some hours |}.

Definition app_with (the_slots : list string) (the_batches : gmap string batch)
    (the_faculty : gmap string faculty_member)
    (the_classrooms : gmap string classroom) : App :=
  {| slots := the_slots; saturday_var := false;
     batches := the_batches; faculty := the_faculty; classrooms := the_classrooms;
     start_hour_var := 9; end_hour_var := 17; lunch_hour_var := 13;
     time_limit_var := 45; min_hours_day_var := 1; max_hours_day_var := 2;
     class_max_daily_hours_var := 2;
     min_hours_spinbox_to := 2; max_hours_spinbox_to := 2;
     class_max_hours_spinbox_to := 2 |}.

(** [solve_timetable_model] as [_execute_solver_thread] calls it, but for the
    engine and the max hours per day. *)
Definition run (engine : solver var) (a : App) (max_hours_day : Z) :=
  solve_timetable_model engine a (batches a) (faculty a) (classrooms a)
    (time_limit_var a) (min_hours_day_var a) max_hours_day.

(** Five days of two slots, 11-12 and 12-13; batch B1 has two hours of Math
    with F1, who prefers mornings, in room R1. *)
Definition tiny_app : App :=
  app_with ["11-12"; "12-13"] (math 2) one_teacher {[ "R1" := room 2 ]}.

(** Both hours on Monday; every indicator of the objective is 0. *)
Definition tiny_values (v : var) : Z :=
  match v with
  | x 0 0 0 0 0 | x 0 0 0 0 1 => 1
  | y 0 0 | y 0 1 => 1
  | day_has_class 0 0 => 1
  | _ => 0
  end.

(** The timetable returned by a run, if any. *)
Definition result_of (r : exn + timetable) : timetable :=
  match r with
  | inr t => t
  | inl _ =>
      {| result_schedule := []; result_batch_list := []; result_workloads := ∅ |}
  end.

Definition tiny_result : timetable :=
  result_of (run (try_values tiny_values) tiny_app 2).

(** The model built for a run, if any. *)
Definition model_of (r : exn + (list (call var) * expr var)) : list (call var) :=
  match r with
  | inr (m, _) => m
  | inl _ => []
  end.

Definition tiny_model : list (call var) :=
  model_of (build_model tiny_app (batches tiny_app) (faculty tiny_app)
              (classrooms tiny_app) 1 2).

(** One day more: four slots in a row, all four taken by Math, and the
    long-stretch indicator 0. *)
Definition long_day_app : App :=
  app_with ["8-9"; "9-10"; "10-11"; "11-12"] (math 4) one_teacher
    {[ "R1" := room 4 ]}.

Definition long_day_values (v : var) : Z :=
  match v with
  | x 0 0 0 0 t => if bool_decide (t < 4)%nat then 1 else 0
  | y 0 t => if bool_decide (t < 4)%nat then 1 else 0
  | day_has_class 0 0 => 1
  | _ => 0
  end.

Definition long_day_model : list (call var) :=
  model_of (build_model long_day_app (batches long_day_app)
              (faculty long_day_app) (classrooms long_day_app) 1 4).

(** The same, with nobody to teach Math. *)
Definition no_teacher_app : App :=
  app_with ["11-12"; "12-13"] (math 2) ∅ {[ "R1" := room 2 ]}.



(** Two rooms, and values that put B1 into both in the first slot. *)
Definition two_rooms_app : App :=
  app_with ["11-12"; "12-13"] (math 2) one_teacher
    {[ "R1" := room 2; "R2" := room 2 ]}.

Definition double_booked_values (v : var) : Z :=
  match v with
  | x 0 0 0 0 0 | x 0 0 0 1 0 => 1
  | _ => 0
  end.

(** An application state with one classroom that may be used seven hours
    a day, about to rebuild its slots for the hours 9 to 12. *)
Definition seven_slot_app : App :=
  {| slots := DEFAULT_SLOTS;
     saturday_var := false; batches := ∅; faculty := ∅;
     classrooms := {[ "R1" := room 7 ]};
     start_hour_var := 9; end_hour_var := 12; lunch_hour_var := 13;
     time_limit_var := 45;
     min_hours_day_var := 1; max_hours_day_var := 5;
     class_max_daily_hours_var := 7;
     min_hours_spinbox_to := 7; max_hours_spinbox_to := 7;
     class_max_hours_spinbox_to := 7 |}.

(** Math with nobody to teach it. *)
Definition untaught_subjects : list TT_prototype.subject_row := [("Math", 1, 0)].

(** One hour of a subject named like the filler of an empty cell. *)
Definition free_subjects : list TT_prototype.subject_row := [("Free", 1, 1)].

(** Two subjects of one name, one hour each. *)
Definition same_name_subjects : list TT_prototype.subject_row :=
  [("Math", 1, 1); ("Math", 1, 1)].

(** The first in the first slot of the day, the second in the second. *)
Definition same_name_values (v : TT_prototype.var) : Z :=
  match v with
  | TT_prototype.x 0 0 0 | TT_prototype.x 0 1 1 => 1
  | TT_prototype.y 0 0 | TT_prototype.y 0 1 => 1
  | TT_prototype.day_active 0 0 => 1
  | TT_prototype.slot_filled 0 | TT_prototype.slot_filled 1 => 1
  | TT_prototype.full_slot 0 | TT_prototype.full_slot 1 => 1
  | TT_prototype.adj 0 0 0 => 1
  | _ => 0
  end.

(** The prototype's runs on these subjects: one batch, one room, one day of
    two slots. *)
Definition free_run :=
  TT_prototype.solve_timetable (try_values proto_values) free_subjects
    1 1 2 2 1 proto_days proto_slots 40.
Definition same_name_run :=
  TT_prototype.solve_timetable (try_values same_name_values) same_name_subjects
    1 1 2 2 1 proto_days proto_slots 40.





(** The result of the prototype's run on [proto_values], if any. *)
Definition proto_result : gmap nat (list string) * gmap nat (list (nat * nat)) :=
  match proto_run (try_values proto_values) 2 with
  | inr res => res
  | inl _ => (∅, ∅)
  end.


(** The same application state about to rebuild its slots for the hours
    -1 to 2, which a typed-in start hour allows. *)
Definition negative_start_app : App :=
  {| slots := DEFAULT_SLOTS;
     saturday_var := false; batches := math 2; faculty := one_teacher;
     classrooms := {[ "R1" := room 7 ]};
     start_hour_var := -1; end_hour_var := 2; lunch_hour_var := 13;
     time_limit_var := 45;
     min_hours_day_var := 1; max_hours_day_var := 5;
     class_max_daily_hours_var := 7;
     min_hours_spinbox_to := 7; max_hours_spinbox_to := 7;
     class_max_hours_spinbox_to := 7 |}.

(** *** For the registry tabs *)

(** The entry fields, filled in for a batch B2 and a subject Physics. *)
Definition filled_entries : Entries :=
  {| batch_name_var := " B2 "; batch_year_var := Reads 1;
     batch_branch_var := "CSE";
     subj_name_var := "Physics"; subj_hours_var := Reads 3;
     subj_type_var := "Lecture";
     class_name_var := "R2"; class_capacity_var := Reads 1;
     class_type_var := "Lecture"; class_max_daily_hours_text := None |}.

(** [tiny_app] with B1, its subject Math and its teacher F1 selected, and
    B1 taken for editing. *)
Definition tiny_window : Window :=
  {| app := tiny_app; entries := filled_entries;
     faculty_name_var := "F2"; faculty_pref_morning_var := false;
     batch_tree_selection := ["B1"]; subject_tree_selection := ["Math"];
     faculty_tree_selection := ["F1"]; assignment_tree_selection := ["Math"];
     classroom_tree_selection := []; selected_item_for_edit := Some "B1" |}.



(** A user who answers every question with yes. *)
Definition yes : string → string → bool := λ _ _, true.
End examples.

(** * Properties *)

(** ** Sums over lists *)

Section sums.
Context {A : Type}.
Implicit Types (l : list A) (g h : A → Z).

Lemma sumf_app l1 l2 g : sumf (l1 ++ l2) g = sumf l1 g + sumf l2 g.
Proof. induction l1 as [|a l1 IH]; simpl; [done | rewrite IH; lia]. Qed.

Lemma sumf_ext l g h : (∀ a, a ∈ l → g a = h a) → sumf l g = sumf l h.
Proof.
  induction l as [|a l IH]; intros Hgh; simpl; [done|].
  rewrite (Hgh a) by left. rewrite IH; [done|]. intros b Hb. apply Hgh. by right.
Qed.

Lemma sumf_zero l g : (∀ a, a ∈ l → g a = 0) → sumf l g = 0.
Proof.
  induction l as [|a l IH]; intros Hg; simpl; [done|].
  rewrite (Hg a) by left. rewrite IH; [done|]. intros b Hb. apply Hg. by right.
Qed.

Lemma sumf_nonneg l g : (∀ a, a ∈ l → 0 ≤ g a) → 0 ≤ sumf l g.
Proof.
  induction l as [|a l IH]; intros Hg; simpl; [done|].
  assert (0 ≤ g a) by (apply Hg; left).
  assert (0 ≤ sumf l g) by (apply IH; intros b Hb; apply Hg; by right). lia.
Qed.

Lemma sumf_le l g h : (∀ a, a ∈ l → g a ≤ h a) → sumf l g ≤ sumf l h.
Proof.
  induction l as [|a l IH]; intros Hgh; simpl; [done|].
  assert (g a ≤ h a) by (apply Hgh; left).
  assert (sumf l g ≤ sumf l h) by (apply IH; intros b Hb; apply Hgh; by right). lia.
Qed.

Lemma sumf_plus l g h : sumf l (λ a, g a + h a) = sumf l g + sumf l h.
Proof. induction l as [|a l IH]; simpl; [done | rewrite IH; lia]. Qed.

Lemma sumf_const_zero l : sumf l (λ _, 0) = 0.
Proof. by apply sumf_zero. Qed.

Lemma sumf_fmap {B} (k : B → A) (l : list B) g : sumf (k <$> l) g = sumf l (g ∘ k).
Proof. induction l as [|b l IH]; csimpl; [done | by rewrite IH]. Qed.

Lemma sumf_bind {B} (k : B → list A) (l : list B) g :
  sumf (l ≫= k) g = sumf l (λ b, sumf (k b) g).
Proof.
  induction l as [|b l IH]; csimpl; [done|].
  by rewrite sumf_app, IH.
Qed.

(** A member with a positive value is a lower bound of a sum of
    non-negative values. *)
Lemma sumf_member_le l g a :
  (∀ b, b ∈ l → 0 ≤ g b) → a ∈ l → g a ≤ sumf l g.
Proof.
  induction l as [|b l IH]; intros Hg Ha; [by apply elem_of_nil in Ha|].
  simpl. assert (0 ≤ g b) by (apply Hg; left).
  assert (0 ≤ sumf l g) by (apply sumf_nonneg; intros c Hc; apply Hg; by right).
  apply elem_of_cons in Ha as [->|Ha]; [lia|].
  assert (g a ≤ sumf l g) by (apply IH; [intros c Hc; apply Hg; by right | done]).
  lia.
Qed.

(** Two different members, likewise. *)
Lemma sumf_two_members_le l g a1 a2 :
  NoDup l → (∀ b, b ∈ l → 0 ≤ g b) → a1 ∈ l → a2 ∈ l → a1 ≠ a2 →
  g a1 + g a2 ≤ sumf l g.
Proof.
  induction l as [|b l IH]; intros Hnd Hg H1 H2 Hne; [by apply elem_of_nil in H1|].
  apply NoDup_cons in Hnd as [Hb Hnd]. simpl.
  assert (0 ≤ g b) by (apply Hg; left).
  assert (Hg' : ∀ c, c ∈ l → 0 ≤ g c) by (intros c Hc; apply Hg; by right).
  apply elem_of_cons in H1 as [->|H1]; apply elem_of_cons in H2 as [->|H2].
  - done.
  - pose proof (sumf_member_le l g a2 Hg' H2). lia.
  - pose proof (sumf_member_le l g a1 Hg' H1). lia.
  - pose proof (IH Hnd Hg' H1 H2 Hne). lia.
Qed.
End sums.

Lemma sumf_swap {A B} (la : list A) (lb : list B) (G : A → B → Z) :
  sumf la (λ a, sumf lb (G a)) = sumf lb (λ b, sumf la (λ a, G a b)).
Proof.
  induction la as [|a la IH]; simpl.
  - by rewrite sumf_const_zero.
  - by rewrite IH, sumf_plus.
Qed.

(** ** Slot management *)

Section slot_management.
Import TimetableGenerator.

Lemma foldl_append_filter {A B} (P : A → Prop) `{!∀ a, Decision (P a)}
    (f : A → B) (l : list A) (acc : list B) :
  foldl (λ acc a, if bool_decide (P a) then acc else acc ++ [f a]) acc l
  = acc ++ (f <$> filter (λ a, ¬ P a) l).
Proof.
  revert acc. induction l as [|a l IH]; intros acc; simpl.
  - by rewrite app_nil_r.
  - rewrite IH. rewrite filter_cons. case_bool_decide; case_decide; try done.
    by rewrite fmap_cons, <- app_assoc.
Qed.

Lemma length_filter_seqZ_ne (lunch : Z) (n : nat) (start : Z) :
  Z.of_nat (length (filter (λ h, ¬ h = lunch) (seqZ start (Z.of_nat n))))
  = if bool_decide (start ≤ lunch < start + Z.of_nat n)
    then Z.of_nat n - 1 else Z.of_nat n.
Proof.
  revert start. induction n as [|n IH]; intros start.
  - rewrite seqZ_nil by lia. simpl. case_bool_decide; lia.
  - rewrite seqZ_cons by lia. rewrite filter_cons.
    replace (Z.pred (Z.of_nat (S n))) with (Z.of_nat n) by lia.
    specialize (IH (Z.succ start)). revert IH.
    case_decide; simpl length; repeat case_bool_decide; lia.
Qed.

Lemma new_slots_eq (a : App) :
  start_hour_var a < end_hour_var a →
  slots (update_slots a).1
  = slot_label <$> filter (λ h, ¬ h = lunch_hour_var a)
                          (range2 (start_hour_var a) (end_hour_var a)).
Proof.
  intros Hlt. unfold update_slots.
  rewrite bool_decide_eq_false_2 by lia. cbn [fst].
  unfold _update_slot_dependent_widgets.
  repeat (case_bool_decide; cbn [slots set_slots set_spinbox_limits
    set_max_hours_day_var set_class_max_daily_hours_var]);
    by rewrite foldl_append_filter.
Qed.


(** C10.  [update_slots] is atomic on error: with start hour >= end hour it
    shows the error dialog and returns the application state as it was, the
    slot list included; with start hour < end hour the new slot list holds,
    in order, the label of each hour of [start, end) other than the lunch
    hour, once, so that it has (end - start) - 1 slots if
    start <= lunch < end and (end - start) slots otherwise. *)
Theorem update_slots_atomic (a : App) :
  (start_hour_var a >= end_hour_var a →
     update_slots a
     = (a, ShowError "Error" "Start hour must be less than end hour."))
  ∧ (start_hour_var a < end_hour_var a →
     slots (update_slots a).1
     = slot_label <$> filter (λ h, ¬ h = lunch_hour_var a)
                             (range2 (start_hour_var a) (end_hour_var a))
     ∧ Z.of_nat (length (slots (update_slots a).1))
       = if bool_decide (start_hour_var a ≤ lunch_hour_var a < end_hour_var a)
         then end_hour_var a - start_hour_var a - 1
         else end_hour_var a - start_hour_var a).
Proof.
  split.
  - intros Hge. unfold update_slots. by rewrite bool_decide_eq_true_2.
  - intros Hlt. split; [by apply new_slots_eq|].
    rewrite new_slots_eq by done. rewrite length_fmap. unfold range2.
    pose proof (length_filter_seqZ_ne (lunch_hour_var a)
                  (Z.to_nat (end_hour_var a - start_hour_var a))
                  (start_hour_var a)) as Hlen.
    rewrite Z2Nat.id in Hlen by lia. rewrite Hlen.
    repeat case_bool_decide; lia.
Qed.

Lemma update_slots_atomic_witness :
  slots (update_slots examples.seven_slot_app).1 = ["9-10"; "10-11"; "11-12"]
  ∧ Z.of_nat (length (slots (update_slots examples.seven_slot_app).1)) = 3.
Proof.
  destruct (update_slots_atomic examples.seven_slot_app) as [_ Hok].
  destruct Hok as [Hslots Hlen]; [reflexivity|].
  split; [rewrite Hslots | rewrite Hlen]; reflexivity.
Defined.



End slot_management.

(** ** Python loops *)

Lemma elem_of_range (n i : nat) : i ∈ range n ↔ (i < n)%nat.
Proof. unfold range. rewrite elem_of_seq. lia. Qed.

Lemma NoDup_range (n : nat) : NoDup (range n).
Proof. apply NoDup_seq. Qed.

Lemma elem_of_enumerate {A} (l : list A) (i : nat) (a : A) :
  (i, a) ∈ enumerate l ↔ l !! i = Some a.
Proof.
  unfold enumerate. rewrite list_elem_of_lookup. split.
  - intros [j Hj]. apply lookup_zip_with_Some in Hj as (i' & a' & Heq & Hi & Ha).
    simplify_eq. apply lookup_seq in Hi as [-> _]. done.
  - intros Ha. exists i. apply lookup_zip_with_Some. exists i, a.
    split; [done|]. split; [|done]. apply lookup_seq. split; [done|].
    by apply lookup_lt_Some in Ha.
Qed.

Lemma foldl_ext_all {A B} (f g : B → A → B) (l : list A) (init : B) :
  (∀ b a, f b a = g b a) → foldl f init l = foldl g init l.
Proof.
  intros Hfg. revert init. induction l as [|a l IH]; intros init; simpl; [done|].
  by rewrite Hfg, IH.
Qed.

(** A loop that overwrites a variable whenever a test succeeds leaves the
    value written at the last success. *)
Section overwrite.
Context {A B : Type} (hit : A → bool) (val : A → B) (step : B → A → B).
Hypothesis step_spec : ∀ cur a, step cur a = if hit a then val a else cur.

Lemma foldl_overwrite_none (l : list A) (init : B) :
  (∀ a, a ∈ l → hit a = false) → foldl step init l = init.
Proof.
  revert init. induction l as [|a l IH]; intros init Hl; simpl; [done|].
  rewrite step_spec, (Hl a) by left. apply IH. intros b Hb. apply Hl. by right.
Qed.

Lemma foldl_overwrite_last (l1 l2 : list A) (a : A) (init : B) :
  hit a = true → (∀ b, b ∈ l2 → hit b = false) →
  foldl step init (l1 ++ a :: l2) = val a.
Proof.
  intros Ha Hl2. rewrite foldl_app. simpl. rewrite step_spec, Ha.
  by apply foldl_overwrite_none.
Qed.

(** Every list either has no success or splits at its last one. *)
Lemma last_hit_split (l : list A) :
  (∀ a, a ∈ l → hit a = false)
  ∨ ∃ l1 a l2, l = l1 ++ a :: l2 ∧ hit a = true ∧ ∀ b, b ∈ l2 → hit b = false.
Proof.
  induction l as [|a l IH]; [left; intros a Ha; by apply elem_of_nil in Ha|].
  destruct IH as [Hnone | (l1 & a' & l2 & -> & Ha' & Hl2)].
  - destruct (hit a) eqn:Ha.
    + right. exists [], a, l. done.
    + left. intros b [->|Hb]%elem_of_cons; auto.
  - right. exists (a :: l1), a', l2. done.
Qed.

Lemma foldl_overwrite_cases (l : list A) (init : B) :
  (foldl step init l = init ∧ ∀ a, a ∈ l → hit a = false)
  ∨ ∃ a, a ∈ l ∧ hit a = true ∧ foldl step init l = val a.
Proof.
  destruct (last_hit_split l) as [Hnone | (l1 & a & l2 & -> & Ha & Hl2)].
  - left. split; [by apply foldl_overwrite_none | done].
  - right. exists a. split; [|split; [done | by apply foldl_overwrite_last]].
    apply elem_of_app. right. left.
Qed.
End overwrite.

(** ** Meaning of the calls on a model *)

Section cp_facts.
Import cp_model.
Context {V : Type}.
Implicit Types (ρ : V → Z) (m : list (call V)) (vs : list V).

Lemma satisfies_elem_of ρ m c :
  satisfies ρ m = true → c ∈ m → call_ok ρ c = true.
Proof.
  unfold satisfies. rewrite forallb_forall. intros Hm Hc.
  apply Hm. by apply list_elem_of_In.
Qed.

Lemma satisfies_app ρ m1 m2 :
  satisfies ρ (m1 ++ m2) = true ↔ satisfies ρ m1 = true ∧ satisfies ρ m2 = true.
Proof. unfold satisfies. rewrite forallb_app. apply andb_true_iff. Qed.

Lemma eval_psum ρ (es : list (expr V)) : eval ρ (psum es) = sumf es (eval ρ).
Proof.
  unfold psum.
  assert (∀ acc, eval ρ (foldl Plus acc es) = eval ρ acc + sumf es (eval ρ)) as H.
  { induction es as [|e es IH]; intros acc; simpl; [lia|]. rewrite IH. simpl. lia. }
  rewrite H. simpl. lia.
Qed.

Lemma eval_psum_fmap {A} ρ (k : A → expr V) (l : list A) :
  eval ρ (psum (k <$> l)) = sumf l (λ a, eval ρ (k a)).
Proof. by rewrite eval_psum, sumf_fmap. Qed.

Lemma eval_psum_vars ρ vs : eval ρ (psum (Var <$> vs)) = sumf vs ρ.
Proof. by rewrite eval_psum_fmap. Qed.

Lemma bool_var_ok ρ m v :
  satisfies ρ m = true → NewBoolVar v ∈ m → 0 ≤ ρ v ≤ 1.
Proof.
  intros Hm Hv. pose proof (satisfies_elem_of _ _ _ Hm Hv) as H.
  simpl in H. by apply bool_decide_eq_true in H.
Qed.

Lemma int_var_ok ρ m lo hi v :
  satisfies ρ m = true → NewIntVar lo hi v ∈ m → lo ≤ ρ v ≤ hi.
Proof.
  intros Hm Hv. pose proof (satisfies_elem_of _ _ _ Hm Hv) as H.
  simpl in H. by apply bool_decide_eq_true in H.
Qed.

Lemma add_ok ρ m a c b :
  satisfies ρ m = true → Add a c b ∈ m → cmp_holds c (eval ρ a) (eval ρ b) = true.
Proof. intros Hm Hc. apply (satisfies_elem_of _ _ _ Hm Hc). Qed.

Lemma add_if_ok ρ m l a c b :
  satisfies ρ m = true → OnlyEnforceIf l (Add a c b) ∈ m →
  lit_true ρ l = true → cmp_holds c (eval ρ a) (eval ρ b) = true.
Proof.
  intros Hm Hc Hl. pose proof (satisfies_elem_of _ _ _ Hm Hc) as H.
  simpl in H. unfold constraint_holds in H. simpl in H. by rewrite Hl in H.
Qed.

Lemma bool_and_if_ok ρ m l ls :
  satisfies ρ m = true → OnlyEnforceIf l (AddBoolAnd ls) ∈ m →
  lit_true ρ l = true → ∀ l', l' ∈ ls → lit_true ρ l' = true.
Proof.
  intros Hm Hc Hl l' Hl'. pose proof (satisfies_elem_of _ _ _ Hm Hc) as H.
  simpl in H. unfold constraint_holds in H. simpl in H. rewrite Hl in H.
  simpl in H. rewrite forallb_forall in H. apply H. by apply list_elem_of_In.
Qed.

Lemma bool_or_if_ok ρ m l ls :
  satisfies ρ m = true → OnlyEnforceIf l (AddBoolOr ls) ∈ m →
  lit_true ρ l = true → ∃ l', l' ∈ ls ∧ lit_true ρ l' = true.
Proof.
  intros Hm Hc Hl. pose proof (satisfies_elem_of _ _ _ Hm Hc) as H.
  simpl in H. unfold constraint_holds in H. simpl in H. rewrite Hl in H.
  simpl in H. apply existsb_exists in H as (l' & Hin & Ht).
  exists l'. split; [by apply list_elem_of_In | done].
Qed.

(** Over Boolean values a sum is the number of true variables. *)
Lemma sumf_count_true ρ vs :
  (∀ v, v ∈ vs → 0 ≤ ρ v ≤ 1) → sumf vs ρ = Z.of_nat (count_true ρ vs).
Proof.
  unfold count_true. induction vs as [|v vs IH]; intros Hb; simpl; [done|].
  rewrite filter_cons. assert (0 ≤ ρ v ≤ 1) by (apply Hb; left).
  rewrite IH by (intros w Hw; apply Hb; by right).
  case_decide; simpl; lia.
Qed.

Lemma count_true_fmap {A} ρ (k : A → V) (l : list A) :
  count_true ρ (k <$> l) = length (filter (λ a, ρ (k a) ≠ 0) l).
Proof.
  unfold count_true. induction l as [|a l IH]; csimpl; [done|].
  rewrite !filter_cons. simpl. case_decide; simpl; by rewrite IH.
Qed.

Lemma lit_true_pos ρ (v : V) : lit_true ρ (Pos v) = true ↔ ρ v = 1.
Proof. unfold lit_true. simpl. apply bool_decide_eq_true. Qed.

Lemma lit_true_neg ρ (v : V) : lit_true ρ (Neg v) = true ↔ ρ v = 0.
Proof. unfold lit_true. simpl. rewrite bool_decide_eq_true. lia. Qed.

(** An accepted answer of a sound solver satisfies the model. *)
Lemma sound_accepted (S : solver V) m obj tl :
  sound S → negb (accepted (status_of (S m obj tl))) = false →
  satisfies (Value (S m obj tl)) m = true.
Proof. intros HS Hacc. apply HS. by apply negb_false_iff in Hacc. Qed.

Lemma try_values_sound ρ : sound (try_values ρ).
Proof.
  intros m obj tl. unfold try_values. simpl.
  destruct (satisfies ρ m) eqn:Hm; [done | discriminate].
Qed.
End cp_facts.

(** ** The prototype model *)

Ltac in_loop a :=
  apply list_elem_of_bind; exists a;
  split; [| first [ by apply elem_of_range | by apply elem_of_enumerate | done ] ].

Ltac in_body := apply list_elem_of_In; simpl; tauto.

Section prototype_model.
Import cp_model TT_prototype.
Variables (subjects : list subject_row).
Variables (num_batches num_rooms max_per_day max_per_week min_per_day : Z).
Variables (num_days num_slots_per_day : nat).
Variable ρ : var → Z.

Local Abbreviation the_model :=
  (model subjects num_batches num_rooms max_per_day max_per_week min_per_day
     num_days num_slots_per_day).
Local Abbreviation nb := (Z.to_nat num_batches).
Local Abbreviation total := (num_days * num_slots_per_day)%nat.

Hypothesis Hsat : satisfies ρ the_model = true.

Ltac in_model H := unfold model; rewrite !elem_of_app; tauto.

Lemma proto_x_bool b s t :
  (b < nb)%nat → (s < length subjects)%nat → (t < total)%nat →
  0 ≤ ρ (x b s t) ≤ 1.
Proof.
  intros Hb Hs Ht. apply (bool_var_ok ρ the_model); [done|].
  assert (NewBoolVar (x b s t) ∈ decision_variables subjects num_batches
            num_days num_slots_per_day) as Hin.
  { unfold decision_variables. in_loop b. in_loop s. in_loop t. in_body. }
  in_model Hin.
Qed.

Lemma proto_y_bool b t :
  (b < nb)%nat → (t < total)%nat → 0 ≤ ρ (y b t) ≤ 1.
Proof.
  intros Hb Ht. apply (bool_var_ok ρ the_model); [done|].
  assert (NewBoolVar (y b t) ∈ occupied_variables subjects num_batches
            num_days num_slots_per_day) as Hin.
  { unfold occupied_variables. in_loop b. in_loop t. in_body. }
  in_model Hin.
Qed.

(** [y[b, t]] is the number of subjects of batch [b] at [t]. *)
Lemma proto_y_link b t :
  (b < nb)%nat → (t < total)%nat →
  sumf (range (length subjects)) (λ s, ρ (x b s t)) = ρ (y b t).
Proof.
  intros Hb Ht.
  assert (Add (psum ((λ s_idx, Var (x b s_idx t)) <$> range (length subjects)))
              EQ (Var (y b t)) ∈ the_model) as Hin.
  { assert (Add (psum ((λ s_idx, Var (x b s_idx t)) <$> range (length subjects)))
              EQ (Var (y b t)) ∈ occupied_variables subjects num_batches
              num_days num_slots_per_day) as Hin.
    { unfold occupied_variables. in_loop b. in_loop t. in_body. }
    in_model Hin. }
  pose proof (add_ok _ _ _ _ _ Hsat Hin) as H. simpl in H.
  apply bool_decide_eq_true in H. by rewrite eval_psum_fmap in H.
Qed.


Lemma proto_subject_hours b s subj :
  (b < nb)%nat → subjects !! s = Some subj →
  sumf (range total) (λ t, ρ (x b s t)) = hours_of subj.
Proof.
  intros Hb Hs.
  assert (Add (psum ((λ t, Var (x b s t)) <$> range total)) EQ
              (Const (hours_of subj)) ∈ the_model) as Hin.
  { assert (Add (psum ((λ t, Var (x b s t)) <$> range total)) EQ
              (Const (hours_of subj)) ∈ subject_hours_constraints subjects
                num_batches num_days num_slots_per_day) as Hin.
    { unfold subject_hours_constraints. in_loop b. in_loop (s, subj). in_body. }
    in_model Hin. }
  pose proof (add_ok _ _ _ _ _ Hsat Hin) as H. simpl in H.
  apply bool_decide_eq_true in H. by rewrite eval_psum_fmap in H.
Qed.

Lemma proto_rooms t :
  (t < total)%nat → sumf (range nb) (λ b, ρ (y b t)) ≤ num_rooms.
Proof.
  intros Ht.
  assert (Add (psum ((λ b, Var (y b t)) <$> range nb)) LE (Const num_rooms)
            ∈ the_model) as Hin.
  { assert (Add (psum ((λ b, Var (y b t)) <$> range nb)) LE (Const num_rooms)
              ∈ room_constraints num_batches num_rooms num_days
                  num_slots_per_day) as Hin.
    { unfold room_constraints. in_loop t. in_body. }
    in_model Hin. }
  pose proof (add_ok _ _ _ _ _ Hsat Hin) as H. simpl in H.
  apply bool_decide_eq_true in H. by rewrite eval_psum_fmap in H.
Qed.

Lemma proto_faculty s subj t :
  subjects !! s = Some subj → (t < total)%nat →
  sumf (range nb) (λ b, ρ (x b s t)) ≤ faculty_count_of subj.
Proof.
  intros Hs Ht.
  assert (Add (psum ((λ b, Var (x b s t)) <$> range nb)) LE
              (Const (faculty_count_of subj)) ∈ the_model) as Hin.
  { assert (Add (psum ((λ b, Var (x b s t)) <$> range nb)) LE
              (Const (faculty_count_of subj)) ∈ faculty_constraints subjects
                num_batches num_days num_slots_per_day) as Hin.
    { unfold faculty_constraints. in_loop (s, subj). in_loop t. in_body. }
    in_model Hin. }
  pose proof (add_ok _ _ _ _ _ Hsat Hin) as H. simpl in H.
  apply bool_decide_eq_true in H. by rewrite eval_psum_fmap in H.
Qed.

(** A batch has at most one subject in a timeslot. *)
Lemma proto_one_subject b t s1 s2 :
  (b < nb)%nat → (t < total)%nat →
  (s1 < length subjects)%nat → (s2 < length subjects)%nat →
  ρ (x b s1 t) = 1 → ρ (x b s2 t) = 1 → s1 = s2.
Proof.
  intros Hb Ht Hs1 Hs2 H1 H2.
  destruct (decide (s1 = s2)) as [|Hne]; [done|]. exfalso.
  pose proof (proto_y_link b t Hb Ht) as Hlink.
  pose proof (proto_y_bool b t Hb Ht) as Hy.
  pose proof (sumf_two_members_le (range (length subjects))
                (λ s, ρ (x b s t)) s1 s2 (NoDup_range _)) as Hle.
  simpl in Hle. rewrite H1, H2 in Hle.
  assert (1 + 1 ≤ sumf (range (length subjects)) (λ s, ρ (x b s t))); [|lia].
  apply Hle; [|by apply elem_of_range|by apply elem_of_range|done].
  intros s Hs%elem_of_range. pose proof (proto_x_bool b s t Hb Hs Ht). lia.
Qed.
End prototype_model.

(** ** Decoding in the prototype *)

Lemma length_filter_fmap_ext {A B} (P : B → Prop) (Q : A → Prop)
    `{!∀ b, Decision (P b)} `{!∀ a, Decision (Q a)} (f : A → B) (l : list A) :
  (∀ a, a ∈ l → P (f a) ↔ Q a) →
  length (filter P (f <$> l)) = length (filter Q l).
Proof.
  induction l as [|a l IH]; intros HPQ; csimpl; [done|].
  rewrite !filter_cons.
  assert (P (f a) ↔ Q a) as Ha by (apply HPQ; left).
  assert (length (filter P (f <$> l)) = length (filter Q l)) as Hl
    by (apply IH; intros b Hb; apply HPQ; by right).
  repeat case_decide; simpl; try tauto; by rewrite Hl.
Qed.

Lemma list_eq_fmap_range {A} (row : list A) (n : nat) (f : nat → A) :
  length row = n → (∀ t, (t < n)%nat → row !! t = Some (f t)) →
  row = f <$> range n.
Proof.
  intros Hlen Hrow. apply list_eq. intros t. unfold range.
  destruct (decide (t < n)%nat) as [Ht|Ht].
  - rewrite Hrow by done. rewrite list_lookup_fmap, lookup_seq_lt by done. done.
  - rewrite lookup_ge_None_2 by lia. symmetry. apply lookup_ge_None_2.
    rewrite length_fmap, length_seq. lia.
Qed.

Lemma foldl_insert_lookup {A} (f : nat → A) (l : list nat) (m : gmap nat A) (b : nat) :
  foldl (λ m b, <[b := f b]> m) m l !! b
  = if bool_decide (b ∈ l) then Some (f b) else m !! b.
Proof.
  revert m. induction l as [|a l IH]; intros m; cbn [foldl].
  - case_bool_decide as H; [by apply elem_of_nil in H | done].
  - rewrite IH. case_bool_decide as H1; case_bool_decide as H2; try done.
    + exfalso. apply H2. by right.
    + apply elem_of_cons in H2 as [->|?]; [|done]. by rewrite lookup_insert_eq.
    + rewrite lookup_insert_ne; [done|]. intros ->. apply H2. by left.
Qed.

(** One pass over the timeslots for a single subject. *)
Lemma row_pass_lookup (hit : nat → bool) (name : string) (ts : list nat)
    (row : list string) (t : nat) (cur : string) :
  row !! t = Some cur →
  foldl (λ row t', if hit t' then <[t' := name]> row else row) row ts !! t
  = Some (if hit t && bool_decide (t ∈ ts) then name else cur).
Proof.
  revert row cur. induction ts as [|t' ts IH]; intros row cur Hrow; cbn [foldl].
  - rewrite Hrow. case_bool_decide as H; [by apply elem_of_nil in H|].
    by rewrite andb_false_r.
  - destruct (decide (t = t')) as [<-|Hne].
    + rewrite (bool_decide_eq_true_2 (t ∈ t :: ts)) by left.
      destruct (hit t) eqn:Hhit.
      * erewrite IH; last first.
        { apply list_lookup_insert_eq. by apply lookup_lt_Some in Hrow. }
        rewrite ?Hhit. simpl. by destruct (bool_decide (t ∈ ts)).
      * erewrite IH by done. by rewrite ?Hhit.
    + assert (bool_decide (t ∈ t' :: ts) = bool_decide (t ∈ ts)) as ->.
      { apply bool_decide_ext. rewrite elem_of_cons. tauto. }
      destruct (hit t'); [|by apply IH].
      apply IH. by rewrite list_lookup_insert_ne.
Qed.

Lemma row_pass_length (hit : nat → bool) (name : string) (ts : list nat)
    (row : list string) :
  length (foldl (λ row t', if hit t' then <[t' := name]> row else row) row ts)
  = length row.
Proof.
  revert row. induction ts as [|t' ts IH]; intros row; simpl; [done|].
  rewrite IH. destruct (hit t'); [apply length_insert | done].
Qed.

Section prototype_decoding.
Import cp_model TT_prototype.
Variables (subjects : list subject_row) (num_batches : Z).
Variables (num_days num_slots_per_day : nat).
Variable ρ : var → Z.

Local Abbreviation total := (num_days * num_slots_per_day)%nat.
Local Abbreviation row_of := (schedule_row subjects num_days num_slots_per_day ρ).

Lemma schedule_row_length b : length (row_of b) = total.
Proof.
  unfold schedule_row.
  assert (∀ l row, length (foldl (λ row '(s_idx, subj),
             foldl (λ row t,
                      if bool_decide (ρ (x b s_idx t) = 1)
                      then <[t := name_of subj]> row else row)
                   row (range total)) row l) = length row) as H.
  { induction l as [|[s subj] l IH]; intros row; simpl; [done|].
    rewrite IH. apply (row_pass_length (λ t, bool_decide (ρ (x b s t) = 1))). }
  rewrite H. apply length_replicate.
Qed.

Lemma schedule_row_lookup b t :
  (t < total)%nat → row_of b !! t = Some (cell_name subjects ρ b t).
Proof.
  intros Ht. unfold schedule_row, cell_name.
  assert (∀ l (row : list string) cur, row !! t = Some cur →
    foldl (λ row '(s_idx, subj),
             foldl (λ row t,
                      if bool_decide (ρ (x b s_idx t) = 1)
                      then <[t := name_of subj]> row else row)
                   row (range total)) row l !! t
    = Some (foldl (λ cur '(s_idx, subj),
                     if bool_decide (ρ (x b s_idx t) = 1) then name_of subj else cur)
                  cur l)) as H.
  { induction l as [|[s subj] l IH]; intros row cur Hrow; simpl; [done|].
    apply IH.
    rewrite (row_pass_lookup (λ t, bool_decide (ρ (x b s t) = 1)) _ _ _ _ cur) by done.
    rewrite (bool_decide_eq_true_2 (t ∈ range total)) by (by apply elem_of_range).
    by rewrite andb_true_r. }
  apply H. by apply lookup_replicate_2.
Qed.

Lemma schedule_row_eq b : row_of b = cell_name subjects ρ b <$> range total.
Proof.
  apply list_eq_fmap_range; [apply schedule_row_length|].
  intros t Ht. by apply schedule_row_lookup.
Qed.

Lemma build_schedule_lookup b :
  (b < Z.to_nat num_batches)%nat →
  build_schedule subjects num_batches num_days num_slots_per_day ρ !! b
  = Some (row_of b).
Proof.
  intros Hb. unfold build_schedule. rewrite foldl_insert_lookup.
  rewrite bool_decide_eq_true_2; [done | by apply elem_of_range].
Qed.

(** What a cell holds: ["Free"] when no variable is 1, the name of a
    subject whose variable is 1 otherwise. *)
Lemma cell_name_cases b t :
  (cell_name subjects ρ b t = "Free" ∧ ∀ s subj, subjects !! s = Some subj → ρ (x b s t) ≠ 1)
  ∨ ∃ s subj, subjects !! s = Some subj ∧ ρ (x b s t) = 1
              ∧ cell_name subjects ρ b t = name_of subj.
Proof.
  unfold cell_name.
  destruct (foldl_overwrite_cases
              (λ a : nat * subject_row, bool_decide (ρ (x b a.1 t) = 1))
              (λ a, name_of a.2)
              (λ cur '(s_idx, subj),
                 if bool_decide (ρ (x b s_idx t) = 1) then name_of subj else cur)
              ltac:(by intros cur [s subj])
              (enumerate subjects) "Free")
    as [[Hfree Hnone] | ([s subj] & Hin & Hhit & Hval)].
  - left. split; [done|]. intros s subj Hs%elem_of_enumerate.
    specialize (Hnone _ Hs). simpl in Hnone. by apply bool_decide_eq_false in Hnone.
  - right. exists s, subj. apply elem_of_enumerate in Hin.
    simpl in Hhit. apply bool_decide_eq_true in Hhit. done.
Qed.
End prototype_decoding.

(** ** Solutions of the prototype model *)

Section prototype_solutions.
Import cp_model TT_prototype.
Variables (subjects : list subject_row).
Variables (num_batches num_rooms max_per_day max_per_week min_per_day : Z).
Variables (num_days num_slots_per_day : nat).
Variable ρ : var → Z.

Local Abbreviation the_model :=
  (model subjects num_batches num_rooms max_per_day max_per_week min_per_day
     num_days num_slots_per_day).
Local Abbreviation nb := (Z.to_nat num_batches).
Local Abbreviation total := (num_days * num_slots_per_day)%nat.
Local Abbreviation row_of := (schedule_row subjects num_days num_slots_per_day ρ).

Hypothesis Hsat : satisfies ρ the_model = true.

Lemma proto_hours_count b s subj :
  (b < nb)%nat → subjects !! s = Some subj →
  Z.of_nat (count_true ρ ((λ t, x b s t) <$> range total)) = hours_of subj.
Proof.
  intros Hb Hs. rewrite <- sumf_count_true.
  - rewrite sumf_fmap. by eapply proto_subject_hours.
  - intros v (t & -> & Ht%elem_of_range)%list_elem_of_fmap.
    eapply proto_x_bool; [done..| |done]. by apply lookup_lt_Some in Hs.
Qed.





(** A cell holds the name of a subject whose variable is 1 there; a name
    that is not ["Free"] and that no other subject has stands in no other
    cell. *)
Lemma proto_cell_of_true b s subj t :
  (b < nb)%nat → (t < total)%nat → subjects !! s = Some subj →
  ρ (x b s t) ≠ 0 → cell_name subjects ρ b t = name_of subj.
Proof.
  intros Hb Ht Hs Hx.
  assert (ρ (x b s t) = 1) as H1.
  { pose proof (proto_x_bool _ _ _ _ _ _ _ _ _ Hsat b s t Hb
                  (lookup_lt_Some _ _ _ Hs) Ht). lia. }
  destruct (cell_name_cases subjects ρ b t)
    as [[_ Hnone] | (s' & subj' & Hs' & Hx' & ->)].
  - by destruct (Hnone s subj Hs).
  - assert (s' = s) as ->; [|by simplify_eq].
    eapply proto_one_subject; eauto using lookup_lt_Some.
Qed.

Lemma proto_true_of_cell b s subj t :
  name_of subj ≠ "Free" →
  (∀ s' subj', subjects !! s' = Some subj' →
               name_of subj' = name_of subj → s' = s) →
  subjects !! s = Some subj →
  cell_name subjects ρ b t = name_of subj → ρ (x b s t) ≠ 0.
Proof.
  intros Hfree Hown Hs Hcell.
  destruct (cell_name_cases subjects ρ b t)
    as [[Hf _] | (s' & subj' & Hs' & Hx' & Hn)].
  - exfalso. apply Hfree. by rewrite <- Hcell.
  - assert (s' = s) as ->; [|lia].
    eapply Hown; [exact Hs'|]. by rewrite <- Hn.
Qed.

(** Exact hours, read off the schedule. *)
Lemma proto_hours_in_row b s subj :
  name_of subj ≠ "Free" →
  (∀ s' subj', subjects !! s' = Some subj' →
               name_of subj' = name_of subj → s' = s) →
  (b < nb)%nat → subjects !! s = Some subj →
  Z.of_nat (slots_with (name_of subj) (row_of b)) = hours_of subj.
Proof.
  intros Hfree Hown Hb Hs. rewrite <- (proto_hours_count b s subj Hb Hs).
  f_equal. unfold slots_with. rewrite schedule_row_eq, count_true_fmap.
  apply length_filter_fmap_ext. intros t Ht%elem_of_range. split.
  - by apply proto_true_of_cell.
  - by apply proto_cell_of_true.
Qed.

End prototype_solutions.

(** ** The sorted lists of the registry *)

Lemma elem_of_sorted (l : list string) (a : string) : a ∈ sorted l ↔ a ∈ l.
Proof. unfold sorted. by rewrite merge_sort_Permutation. Qed.

Lemma NoDup_sorted (l : list string) : NoDup l → NoDup (sorted l).
Proof. unfold sorted. by rewrite merge_sort_Permutation. Qed.

Section registry.
Import TimetableGenerator.
Context {A : Type}.
Implicit Types (m : gmap string A).

Lemma sorted_keys_lookup m k a :
  m !! k = Some a → ∃ i, sorted (map_to_list m).*1 !! i = Some k.
Proof.
  intros Hk. apply list_elem_of_lookup, elem_of_sorted, list_elem_of_fmap.
  exists (k, a). split; [done|]. by apply elem_of_map_to_list.
Qed.

Lemma sorted_keys_elem m i k :
  sorted (map_to_list m).*1 !! i = Some k → ∃ a, m !! k = Some a.
Proof.
  intros Hi%list_elem_of_lookup_2. rewrite elem_of_sorted in Hi.
  apply list_elem_of_fmap in Hi as ([k' a] & -> & Hin).
  exists a. by apply elem_of_map_to_list.
Qed.

Lemma NoDup_sorted_keys m : NoDup (sorted (map_to_list m).*1).
Proof. apply NoDup_sorted, NoDup_fst_map_to_list. Qed.
End registry.

Lemma all_subjects_elem (batches : gmap string TimetableGenerator.batch)
    (s_name : string) :
  s_name ∈ TimetableGenerator.all_subjects batches
  ↔ ∃ b_name bd, batches !! b_name = Some bd
                 ∧ is_Some (TimetableGenerator.b_subjects bd !! s_name).
Proof.
  unfold TimetableGenerator.all_subjects.
  rewrite elem_of_sorted, elem_of_elements, elem_of_union_list. split.
  - intros (X & HX & Hs). apply list_elem_of_fmap in HX as (bd & -> & Hbd).
    apply list_elem_of_fmap in Hbd as ([b_name bd'] & -> & Hin).
    apply elem_of_map_to_list in Hin. exists b_name, bd'.
    split; [done|]. by apply elem_of_dom.
  - intros (b_name & bd & Hb & Hs). exists (dom (TimetableGenerator.b_subjects bd)).
    split; [|by apply elem_of_dom].
    apply list_elem_of_fmap. exists bd. split; [done|].
    apply list_elem_of_fmap. exists (b_name, bd). split; [done|].
    by apply elem_of_map_to_list.
Qed.

Lemma NoDup_all_subjects (batches : gmap string TimetableGenerator.batch) :
  NoDup (TimetableGenerator.all_subjects batches).
Proof. apply NoDup_sorted, NoDup_elements. Qed.

(** ** The model of [solve_timetable_model] *)

Ltac var_in_ranges H :=
  repeat (apply list_elem_of_bind in H as (? & H & ?%elem_of_range));
  apply list_elem_of_singleton in H as ->.

Section generator_model.
Import cp_model TimetableGenerator.
Variables (self : App).
Variables (batches : gmap string batch) (faculty : gmap string faculty_member)
          (classrooms : gmap string classroom).
Variables (min_hours_day max_hours_day : Z).
Variables (ρ : var → Z) (m : list (call var)) (obj : expr var).

Local Abbreviation nb := (num_batches batches).
Local Abbreviation ns := (num_subjects batches).
Local Abbreviation nf := (num_faculty faculty).
Local Abbreviation nc := (num_classrooms classrooms).
Local Abbreviation total := (total_slots self).
Local Abbreviation hard :=
  (hard_constraints self batches faculty classrooms min_hours_day max_hours_day).

Hypothesis Hbuild :
  build_model self batches faculty classrooms min_hours_day max_hours_day
  = inr (m, obj).
Hypothesis Hsat : satisfies ρ m = true.

Lemma hard_in_model c : c ∈ hard → c ∈ m.
Proof.
  intros Hc. unfold build_model in Hbuild.
  destruct (preference_slots self faculty) as [e|ps]; [discriminate|].
  injection Hbuild as <- _. apply elem_of_app. by left.
Qed.

Ltac in_hard H :=
  apply hard_in_model; unfold hard_constraints; rewrite !elem_of_app; tauto.

Lemma gen_x_bool b s f c t :
  (b < nb)%nat → (s < ns)%nat → (f < nf)%nat → (c < nc)%nat → (t < total)%nat →
  0 ≤ ρ (x b s f c t) ≤ 1.
Proof.
  intros Hb Hs Hf Hc Ht. apply (bool_var_ok ρ m); [done|].
  assert (NewBoolVar (x b s f c t)
          ∈ decision_variables self batches faculty classrooms) as Hin.
  { unfold decision_variables. in_loop b. in_loop s. in_loop f. in_loop c.
    in_loop t. in_body. }
  in_hard Hin.
Qed.

Lemma gen_batch_slot b t :
  (b < nb)%nat → (t < total)%nat →
  sumf (vars_of_batch_slot batches faculty classrooms b t) ρ ≤ 1.
Proof.
  intros Hb Ht.
  assert (Add (psum (Var <$> vars_of_batch_slot batches faculty classrooms b t))
              LE (Const 1) ∈ m) as Hin.
  { assert (Add (psum (Var <$> vars_of_batch_slot batches faculty classrooms b t))
              LE (Const 1)
            ∈ batch_slot_constraints self batches faculty classrooms) as Hin.
    { unfold batch_slot_constraints. in_loop b. in_loop t. in_body. }
    in_hard Hin. }
  pose proof (add_ok _ _ _ _ _ Hsat Hin) as H. simpl in H.
  apply bool_decide_eq_true in H. by rewrite eval_psum_vars in H.
Qed.

Lemma gen_faculty_slot f t :
  (f < nf)%nat → (t < total)%nat →
  sumf (vars_of_faculty_slot batches classrooms f t) ρ ≤ 1.
Proof.
  intros Hf Ht.
  assert (Add (psum (Var <$> vars_of_faculty_slot batches classrooms f t))
              LE (Const 1) ∈ m) as Hin.
  { assert (Add (psum (Var <$> vars_of_faculty_slot batches classrooms f t))
              LE (Const 1)
            ∈ faculty_slot_constraints self batches faculty classrooms) as Hin.
    { unfold faculty_slot_constraints. in_loop f. in_loop t. in_body. }
    in_hard Hin. }
  pose proof (add_ok _ _ _ _ _ Hsat Hin) as H. simpl in H.
  apply bool_decide_eq_true in H. by rewrite eval_psum_vars in H.
Qed.


Lemma gen_required_hours b_idx b_name s_idx s_name subj :
  batch_list batches !! b_idx = Some b_name →
  all_subjects batches !! s_idx = Some s_name →
  b_subjects (batches !!! b_name) !! s_name = Some subj →
  sumf (vars_of_batch_subject self faculty classrooms b_idx s_idx) ρ
  = default 0 (s_hours subj).
Proof.
  intros Hb Hs Hsubj.
  assert (Add (psum (Var <$> vars_of_batch_subject self faculty classrooms b_idx s_idx))
              EQ (Const (default 0 (s_hours subj))) ∈ m) as Hin.
  { assert (Add (psum (Var <$> vars_of_batch_subject self faculty classrooms b_idx s_idx))
              EQ (Const (default 0 (s_hours subj)))
            ∈ required_hours_constraints self batches faculty classrooms) as Hin.
    { unfold required_hours_constraints. in_loop (b_idx, b_name).
      in_loop (s_idx, s_name). rewrite Hsubj. in_body. }
    in_hard Hin. }
  pose proof (add_ok _ _ _ _ _ Hsat Hin) as H. simpl in H.
  apply bool_decide_eq_true in H. by rewrite eval_psum_vars in H.
Qed.

Lemma gen_not_taught_by b_idx b_name s_idx s_name subj f_idx f_name :
  batch_list batches !! b_idx = Some b_name →
  all_subjects batches !! s_idx = Some s_name →
  b_subjects (batches !!! b_name) !! s_name = Some subj →
  faculty_list faculty !! f_idx = Some f_name →
  f_name ∉ faculty_for_subject faculty s_name b_name →
  sumf (vars_of_batch_subject_faculty self classrooms b_idx s_idx f_idx) ρ = 0.
Proof.
  intros Hb Hs Hsubj Hf Hnot.
  assert (Add (psum (Var <$> vars_of_batch_subject_faculty self classrooms
                               b_idx s_idx f_idx))
              EQ (Const 0) ∈ m) as Hin.
  { assert (Add (psum (Var <$> vars_of_batch_subject_faculty self classrooms
                                 b_idx s_idx f_idx))
              EQ (Const 0)
            ∈ structural_constraints self batches faculty classrooms) as Hin.
    { unfold structural_constraints. in_loop (b_idx, b_name).
      in_loop (s_idx, s_name). rewrite Hsubj. apply elem_of_app. left.
      in_loop (f_idx, f_name). rewrite bool_decide_eq_true_2 by done. in_body. }
    in_hard Hin. }
  pose proof (add_ok _ _ _ _ _ Hsat Hin) as H. simpl in H.
  apply bool_decide_eq_true in H. by rewrite eval_psum_vars in H.
Qed.






End generator_model.

(** ** Decoding in [solve_timetable_model] *)

Section generator_decoding.
Import cp_model TimetableGenerator.
Variables (self : App).
Variables (batches : gmap string batch) (faculty : gmap string faculty_member)
          (classrooms : gmap string classroom).
Variable ρ : var → Z.

Local Abbreviation ns := (num_subjects batches).
Local Abbreviation nf := (num_faculty faculty).
Local Abbreviation nc := (num_classrooms classrooms).
Local Abbreviation total := (total_slots self).
Local Abbreviation cell_of := (schedule_cell batches faculty classrooms ρ).
Local Abbreviation names_of :=
  (λ a : nat * nat * nat,
     (all_subjects batches !!! a.1.1, faculty_list faculty !!! a.1.2,
      classroom_list classrooms !!! a.2)).

Lemma elem_of_cell_candidates s f c :
  (s, f, c) ∈ cell_candidates batches faculty classrooms
  ↔ (s < ns)%nat ∧ (f < nf)%nat ∧ (c < nc)%nat.
Proof.
  unfold cell_candidates. split.
  - intros H.
    repeat (apply list_elem_of_bind in H as (? & H & ?%elem_of_range)).
    apply list_elem_of_singleton in H. by simplify_eq.
  - intros (Hs & Hf & Hc). in_loop s. in_loop f. in_loop c. in_body.
Qed.

Lemma schedule_cell_step (cur : cell) (a : nat * nat * nat) b t :
  (let '(s, f, c) := a in
   if bool_decide (ρ (x b s f c t) ≠ 0)
   then Some (all_subjects batches !!! s, faculty_list faculty !!! f,
              classroom_list classrooms !!! c)
   else cur)
  = if bool_decide (ρ (x b a.1.1 a.1.2 a.2 t) ≠ 0) then Some (names_of a) else cur.
Proof. by destruct a as [[s f] c]. Qed.

(** A cell is empty when no variable of its batch and timeslot is true, and
    otherwise names a (subject, faculty, classroom) whose variable is true. *)
Lemma schedule_cell_cases b t :
  (cell_of b t = None
   ∧ ∀ s f c, (s < ns)%nat → (f < nf)%nat → (c < nc)%nat → ρ (x b s f c t) = 0)
  ∨ ∃ s f c, (s < ns)%nat ∧ (f < nf)%nat ∧ (c < nc)%nat
             ∧ ρ (x b s f c t) ≠ 0
             ∧ cell_of b t = Some (names_of (s, f, c)).
Proof.
  unfold schedule_cell.
  destruct (foldl_overwrite_cases
              (λ a : nat * nat * nat, bool_decide (ρ (x b a.1.1 a.1.2 a.2 t) ≠ 0))
              (λ a, Some (names_of a))
              (λ (cur : cell) '(s, f, c),
                 if bool_decide (ρ (x b s f c t) ≠ 0)
                 then Some (all_subjects batches !!! s, faculty_list faculty !!! f,
                            classroom_list classrooms !!! c)
                 else cur)
              (λ cur a, schedule_cell_step cur a b t)
              (cell_candidates batches faculty classrooms) None)
    as [[Hnone Hall] | ([[s f] c] & Hin & Hhit & Hval)].
  - left. split; [done|]. intros s f c Hs Hf Hc.
    specialize (Hall (s, f, c)). simpl in Hall.
    assert (bool_decide (ρ (x b s f c t) ≠ 0) = false) as H
      by (apply Hall; by apply elem_of_cell_candidates).
    apply bool_decide_eq_false in H. lia.
  - right. exists s, f, c. apply elem_of_cell_candidates in Hin as (Hs & Hf & Hc).
    simpl in Hhit. apply bool_decide_eq_true in Hhit. done.
Qed.

(** The decoder keeps the last true variable in loop order. *)
Lemma schedule_cell_last b t l1 a l2 :
  cell_candidates batches faculty classrooms = l1 ++ a :: l2 →
  ρ (x b a.1.1 a.1.2 a.2 t) ≠ 0 →
  (∀ a', a' ∈ l2 → ρ (x b a'.1.1 a'.1.2 a'.2 t) = 0) →
  cell_of b t = Some (names_of a).
Proof.
  intros Hsplit Ha Hl2. unfold schedule_cell. rewrite Hsplit.
  apply (foldl_overwrite_last
           (λ a : nat * nat * nat, bool_decide (ρ (x b a.1.1 a.1.2 a.2 t) ≠ 0))
           (λ a, Some (names_of a))).
  - intros cur a'. apply schedule_cell_step.
  - by apply bool_decide_eq_true_2.
  - intros a' Ha'. apply bool_decide_eq_false_2. rewrite (Hl2 a' Ha'). lia.
Qed.

Lemma build_schedule_lookup_row b :
  (b < num_batches batches)%nat →
  build_schedule self batches faculty classrooms ρ !! b
  = Some ((λ t, cell_of b t) <$> range total).
Proof.
  intros Hb. unfold build_schedule, range.
  by rewrite list_lookup_fmap, lookup_seq_lt.
Qed.

(** Decoding reads nothing but the values of the assignment variables. *)
Lemma build_schedule_ext (ρ' : var → Z) :
  (∀ b s f c t, ρ (x b s f c t) = ρ' (x b s f c t)) →
  build_schedule self batches faculty classrooms ρ
  = build_schedule self batches faculty classrooms ρ'.
Proof.
  intros Heq. unfold build_schedule.
  apply list_fmap_ext. intros _ b _. apply list_fmap_ext. intros _ t _.
  unfold schedule_cell. apply foldl_ext_all. intros cur [[s f] c]. by rewrite Heq.
Qed.
End generator_decoding.

(** ** Solutions of the model of [solve_timetable_model] *)

Section generator_solutions.
Import cp_model TimetableGenerator.
Variables (self : App).
Variables (batches : gmap string batch) (faculty : gmap string faculty_member)
          (classrooms : gmap string classroom).
Variables (min_hours_day max_hours_day : Z).
Variables (ρ : var → Z) (m : list (call var)) (obj : expr var).

Local Abbreviation nb := (num_batches batches).
Local Abbreviation ns := (num_subjects batches).
Local Abbreviation nf := (num_faculty faculty).
Local Abbreviation nc := (num_classrooms classrooms).
Local Abbreviation total := (total_slots self).
Local Abbreviation cell_of := (schedule_cell batches faculty classrooms ρ).

(** The number of (faculty, classroom) pairs that teach subject [s] to
    batch [b] at [t]. *)
Local Abbreviation at_slot b s t :=
  (sumf (range nf) (λ f, sumf (range nc) (λ c, ρ (x b s f c t)))).

Hypothesis Hbuild :
  build_model self batches faculty classrooms min_hours_day max_hours_day
  = inr (m, obj).
Hypothesis Hsat : satisfies ρ m = true.

Lemma batch_slot_sum b t :
  sumf (vars_of_batch_slot batches faculty classrooms b t) ρ
  = sumf (range ns) (λ s, at_slot b s t).
Proof.
  unfold vars_of_batch_slot. rewrite sumf_bind.
  apply sumf_ext. intros s _. rewrite sumf_bind.
  apply sumf_ext. intros f _. rewrite sumf_bind.
  apply sumf_ext. intros c _. simpl. lia.
Qed.

Lemma batch_subject_sum b s :
  sumf (vars_of_batch_subject self faculty classrooms b s) ρ
  = sumf (range total) (λ t, at_slot b s t).
Proof.
  unfold vars_of_batch_subject. rewrite sumf_bind.
  rewrite (sumf_swap (range total) (range nf)).
  apply sumf_ext. intros f _. rewrite sumf_bind.
  rewrite (sumf_swap (range total) (range nc)).
  apply sumf_ext. intros c _. rewrite sumf_bind.
  apply sumf_ext. intros t _. simpl. lia.
Qed.


Lemma at_slot_nonneg b s t :
  (b < nb)%nat → (s < ns)%nat → (t < total)%nat → 0 ≤ at_slot b s t.
Proof.
  intros Hb Hs Ht. apply sumf_nonneg. intros f Hf%elem_of_range.
  apply sumf_nonneg. intros c Hc%elem_of_range.
  pose proof (gen_x_bool _ _ _ _ _ _ _ _ _ Hbuild Hsat b s f c t). lia.
Qed.

Lemma at_slot_member b s f c t :
  (b < nb)%nat → (s < ns)%nat → (f < nf)%nat → (c < nc)%nat → (t < total)%nat →
  ρ (x b s f c t) ≤ at_slot b s t.
Proof.
  intros Hb Hs Hf Hc Ht.
  etrans; [|apply (sumf_member_le (range nf) _ f)].
  - apply (sumf_member_le (range nc) (λ c, ρ (x b s f c t)) c).
    + intros c' Hc'%elem_of_range.
      pose proof (gen_x_bool _ _ _ _ _ _ _ _ _ Hbuild Hsat b s f c' t). lia.
    + by apply elem_of_range.
  - intros f' Hf'%elem_of_range. apply sumf_nonneg. intros c' Hc'%elem_of_range.
    pose proof (gen_x_bool _ _ _ _ _ _ _ _ _ Hbuild Hsat b s f' c' t). lia.
  - by apply elem_of_range.
Qed.

Lemma at_slot_le_1 b s t :
  (b < nb)%nat → (s < ns)%nat → (t < total)%nat → at_slot b s t ≤ 1.
Proof.
  intros Hb Hs Ht.
  pose proof (gen_batch_slot _ _ _ _ _ _ _ _ _ Hbuild Hsat b t Hb Ht) as Hle.
  rewrite batch_slot_sum in Hle.
  etrans; [|exact Hle].
  apply (sumf_member_le (range ns) (λ s, at_slot b s t) s).
  - intros s' Hs'%elem_of_range. by apply at_slot_nonneg.
  - by apply elem_of_range.
Qed.

Lemma at_slot_unique b s1 s2 t :
  (b < nb)%nat → (s1 < ns)%nat → (s2 < ns)%nat → (t < total)%nat →
  at_slot b s1 t ≠ 0 → at_slot b s2 t ≠ 0 → s1 = s2.
Proof.
  intros Hb Hs1 Hs2 Ht H1 H2.
  destruct (decide (s1 = s2)) as [|Hne]; [done|]. exfalso.
  pose proof (at_slot_nonneg b s1 t Hb Hs1 Ht).
  pose proof (at_slot_nonneg b s2 t Hb Hs2 Ht).
  pose proof (gen_batch_slot _ _ _ _ _ _ _ _ _ Hbuild Hsat b t Hb Ht) as Hle.
  rewrite batch_slot_sum in Hle.
  pose proof (sumf_two_members_le (range ns) (λ s, at_slot b s t) s1 s2
                (NoDup_range _)) as Htwo.
  simpl in Htwo.
  assert (at_slot b s1 t + at_slot b s2 t
          ≤ sumf (range ns) (λ s, at_slot b s t)); [|lia].
  apply Htwo; [|by apply elem_of_range|by apply elem_of_range|done].
  intros s Hs%elem_of_range. by apply at_slot_nonneg.
Qed.

(** A cell names subject [s] exactly when some variable of that subject is
    true for the batch and timeslot of the cell. *)
Lemma gen_cell_subject_iff b s s_name t :
  (b < nb)%nat → (t < total)%nat → all_subjects batches !! s = Some s_name →
  cell_subject (cell_of b t) = Some s_name ↔ at_slot b s t ≠ 0.
Proof.
  intros Hb Ht Hs.
  assert (s < ns)%nat as Hsn by (by apply lookup_lt_Some in Hs).
  destruct (schedule_cell_cases batches faculty classrooms ρ b t)
    as [[Hnone Hall] | (s' & f' & c' & Hs' & Hf' & Hc' & Hx & Hcell)].
  - rewrite Hnone. simpl. split; [done|]. intros Hne. exfalso. apply Hne.
    apply sumf_zero. intros f Hf%elem_of_range.
    apply sumf_zero. intros c Hc%elem_of_range. by apply Hall.
  - rewrite Hcell. simpl.
    assert (at_slot b s' t ≠ 0) as Hs'ne.
    { pose proof (at_slot_member b s' f' c' t Hb Hs' Hf' Hc' Ht).
      pose proof (gen_x_bool _ _ _ _ _ _ _ _ _ Hbuild Hsat b s' f' c' t
                    Hb Hs' Hf' Hc' Ht). lia. }
    split.
    + intros [= Hname]. assert (s' = s) as <-; [|done].
      eapply (NoDup_lookup (all_subjects batches)); [apply NoDup_all_subjects| |done].
      rewrite <- Hname. apply list_lookup_lookup_total_lt. done.
    + intros Hne. assert (s' = s) as -> by (by eapply at_slot_unique).
      f_equal. by apply list_lookup_total_correct.
Qed.

Lemma gen_hours_in_row b b_name s_name subj :
  batch_list batches !! b = Some b_name →
  b_subjects (batches !!! b_name) !! s_name = Some subj →
  Z.of_nat (slots_with s_name ((λ t, cell_of b t) <$> range total))
  = default 0 (s_hours subj).
Proof.
  intros Hb Hsubj.
  assert (b < nb)%nat as Hbn by (by apply lookup_lt_Some in Hb).
  assert (s_name ∈ all_subjects batches) as Hin.
  { apply all_subjects_elem.
    destruct (sorted_keys_elem _ _ _ Hb) as [bd Hbd].
    exists b_name, bd. split; [done|].
    rewrite (lookup_total_correct _ _ _ Hbd) in Hsubj. by eexists. }
  apply list_elem_of_lookup in Hin as [s Hs].
  assert (s < ns)%nat as Hsn by (by apply lookup_lt_Some in Hs).
  rewrite <- (gen_required_hours _ _ _ _ _ _ _ _ _ Hbuild Hsat
                b b_name s s_name subj Hb Hs Hsubj).
  rewrite batch_subject_sum.
  rewrite (sumf_count_true (λ t, at_slot b s t) (range total)); last first.
  { intros t Ht%elem_of_range.
    split; [by apply at_slot_nonneg | by apply at_slot_le_1]. }
  f_equal. unfold slots_with, count_true.
  apply length_filter_fmap_ext. intros t Ht%elem_of_range.
  by apply gen_cell_subject_iff.
Qed.
End generator_solutions.

(** ** Double booking, read off the schedule *)

Lemma count_le_sumf {A} (P : A → Prop) `{!∀ a, Decision (P a)} (l : list A)
    (g : A → Z) :
  (∀ a, a ∈ l → 0 ≤ g a) → (∀ a, a ∈ l → P a → 1 ≤ g a) →
  Z.of_nat (length (filter P l)) ≤ sumf l g.
Proof.
  induction l as [|a l IH]; intros Hg HP; simpl; [done|].
  assert (Z.of_nat (length (filter P l)) ≤ sumf l g) as IH'.
  { apply IH; intros b Hb; [apply Hg | apply HP]; by right. }
  assert (0 ≤ g a) by (apply Hg; left).
  rewrite filter_cons. case_decide as Ha; simpl length; [|lia].
  assert (1 ≤ g a) by (apply HP; [left | done]). lia.
Qed.

Section generator_schedule.
Import cp_model TimetableGenerator.
Variables (self : App).
Variables (batches : gmap string batch) (faculty : gmap string faculty_member)
          (classrooms : gmap string classroom).
Variables (min_hours_day max_hours_day : Z).
Variables (ρ : var → Z) (m : list (call var)) (obj : expr var).

Local Abbreviation nb := (num_batches batches).
Local Abbreviation ns := (num_subjects batches).
Local Abbreviation nf := (num_faculty faculty).
Local Abbreviation nc := (num_classrooms classrooms).
Local Abbreviation total := (total_slots self).
Local Abbreviation cell_of := (schedule_cell batches faculty classrooms ρ).
Local Abbreviation sched := (build_schedule self batches faculty classrooms ρ).

(** How often faculty member [f] teaches batch [b] at [t], and how often
    batch [b] sits in classroom [c] at [t]. *)
Local Abbreviation taught_by b f t :=
  (sumf (range ns) (λ s, sumf (range nc) (λ c, ρ (x b s f c t)))).
Local Abbreviation held_in b c t :=
  (sumf (range ns) (λ s, sumf (range nf) (λ f, ρ (x b s f c t)))).

Hypothesis Hbuild :
  build_model self batches faculty classrooms min_hours_day max_hours_day
  = inr (m, obj).
Hypothesis Hsat : satisfies ρ m = true.

Lemma cell_at_schedule b t :
  cell_at sched b t
  = if bool_decide (b < nb ∧ t < total)%nat then cell_of b t else None.
Proof.
  unfold cell_at, build_schedule, range.
  destruct (decide (b < nb)%nat) as [Hb|Hb].
  - rewrite list_lookup_fmap, lookup_seq_lt by done. simpl.
    destruct (decide (t < total)%nat) as [Ht|Ht].
    + rewrite list_lookup_fmap, lookup_seq_lt by done. simpl.
      by rewrite bool_decide_eq_true_2.
    + rewrite list_lookup_fmap, lookup_seq_ge by lia. simpl.
      rewrite bool_decide_eq_false_2; [done | lia].
  - rewrite list_lookup_fmap, lookup_seq_ge by lia. simpl.
    rewrite bool_decide_eq_false_2; [done | lia].
Qed.

Lemma faculty_slot_sum f t :
  sumf (vars_of_faculty_slot batches classrooms f t) ρ
  = sumf (range nb) (λ b, taught_by b f t).
Proof.
  unfold vars_of_faculty_slot. rewrite sumf_bind.
  apply sumf_ext. intros b _. rewrite sumf_bind.
  apply sumf_ext. intros s _. rewrite sumf_bind.
  apply sumf_ext. intros c _. simpl. lia.
Qed.


Lemma x_nonneg b s f c t :
  (b < nb)%nat → (s < ns)%nat → (f < nf)%nat → (c < nc)%nat → (t < total)%nat →
  0 ≤ ρ (x b s f c t).
Proof.
  intros. pose proof (gen_x_bool _ _ _ _ _ _ _ _ _ Hbuild Hsat b s f c t). lia.
Qed.

Lemma taught_by_nonneg b f t :
  (b < nb)%nat → (f < nf)%nat → (t < total)%nat → 0 ≤ taught_by b f t.
Proof.
  intros Hb Hf Ht. apply sumf_nonneg. intros s Hs%elem_of_range.
  apply sumf_nonneg. intros c Hc%elem_of_range. by apply x_nonneg.
Qed.


Lemma taught_by_member b s f c t :
  (b < nb)%nat → (s < ns)%nat → (f < nf)%nat → (c < nc)%nat → (t < total)%nat →
  ρ (x b s f c t) ≤ taught_by b f t.
Proof.
  intros Hb Hs Hf Hc Ht.
  etrans; [|apply (sumf_member_le (range ns) _ s)].
  - apply (sumf_member_le (range nc) (λ c, ρ (x b s f c t)) c).
    + intros c' Hc'%elem_of_range. by apply x_nonneg.
    + by apply elem_of_range.
  - intros s' Hs'%elem_of_range. apply sumf_nonneg. intros c' Hc'%elem_of_range.
    by apply x_nonneg.
  - by apply elem_of_range.
Qed.


(** A cell that names a faculty member, or a classroom, comes from a true
    variable of that faculty member, or classroom. *)
Lemma cell_faculty_taught b t f_name :
  cell_faculty (cell_at sched b t) = Some f_name →
  (b < nb)%nat ∧ (t < total)%nat
  ∧ ∃ f, faculty_list faculty !! f = Some f_name ∧ 1 ≤ taught_by b f t.
Proof.
  rewrite cell_at_schedule. case_bool_decide as Hbt; [|done].
  destruct Hbt as [Hb Ht]. intros Hcell. split; [done|]. split; [done|].
  destruct (schedule_cell_cases batches faculty classrooms ρ b t)
    as [[Hnone _] | (s & f & c & Hs & Hf & Hc & Hx & Hsome)].
  { by rewrite Hnone in Hcell. }
  rewrite Hsome in Hcell. simpl in Hcell. injection Hcell as Hname.
  exists f. split.
  - rewrite <- Hname. by apply list_lookup_lookup_total_lt.
  - pose proof (taught_by_member b s f c t Hb Hs Hf Hc Ht).
    pose proof (x_nonneg b s f c t Hb Hs Hf Hc Ht). lia.
Qed.


(** No faculty member is in two cells of one timeslot. *)
Lemma schedule_faculty_once t f_name b1 b2 :
  cell_faculty (cell_at sched b1 t) = Some f_name →
  cell_faculty (cell_at sched b2 t) = Some f_name →
  b1 = b2.
Proof.
  intros (Hb1 & Ht & f1 & Hf1 & H1)%cell_faculty_taught
         (Hb2 & _ & f2 & Hf2 & H2)%cell_faculty_taught.
  assert (f1 = f2) as <-
    by (eapply NoDup_lookup; [apply (NoDup_sorted_keys faculty) | done..]).
  destruct (decide (b1 = b2)) as [|Hne]; [done|]. exfalso.
  assert (f1 < nf)%nat as Hf by (by apply lookup_lt_Some in Hf1).
  pose proof (gen_faculty_slot _ _ _ _ _ _ _ _ _ Hbuild Hsat f1 t Hf Ht) as Hle.
  rewrite faculty_slot_sum in Hle.
  pose proof (sumf_two_members_le (range nb) (λ b, taught_by b f1 t) b1 b2
                (NoDup_range _)) as Htwo.
  simpl in Htwo.
  assert (taught_by b1 f1 t + taught_by b2 f1 t
          ≤ sumf (range nb) (λ b, taught_by b f1 t)); [|lia].
  apply Htwo; [|by apply elem_of_range|by apply elem_of_range|done].
  intros b Hb%elem_of_range. by apply taught_by_nonneg.
Qed.

End generator_schedule.

(** ** What the solve functions return *)

Section solve_results.
Import cp_model.

Lemma accepted_iff (s : status) : accepted s = true ↔ s = OPTIMAL ∨ s = FEASIBLE.
Proof.
  destruct s; simpl; split; intros H;
    try discriminate; try (destruct H; discriminate); auto.
Qed.

Lemma solve_timetable_checked (engine : solver TT_prototype.var)
    subjects num_batches num_rooms max_per_day max_per_week min_per_day
    days slots time_limit :
  TT_prototype.feasibility_checks subjects num_batches num_rooms max_per_day
    max_per_week min_per_day (length days) (length slots) = None →
  TT_prototype.solve_timetable engine subjects num_batches num_rooms max_per_day
    max_per_week min_per_day days slots time_limit
  = if accepted (status_of (engine
         (TT_prototype.model subjects num_batches num_rooms max_per_day
            max_per_week min_per_day (length days) (length slots))
         (TT_prototype.objective subjects num_batches (length days) (length slots))
         time_limit))
    then inr (TT_prototype.build_schedule subjects num_batches (length days)
                (length slots)
                (TT_prototype.solution_values engine subjects num_batches
                   num_rooms max_per_day max_per_week min_per_day days slots
                   time_limit),
              TT_prototype.build_room_assignments num_batches (length days)
                (length slots)
                (TT_prototype.solution_values engine subjects num_batches
                   num_rooms max_per_day max_per_week min_per_day days slots
                   time_limit))
    else inl (RuntimeError TT_prototype.msg_no_solution).
Proof.
  intros Hchk. unfold TT_prototype.solve_timetable. rewrite Hchk.
  unfold TT_prototype.solution_values. by destruct (accepted _).
Qed.

Lemma solve_timetable_inr (engine : solver TT_prototype.var)
    subjects num_batches num_rooms max_per_day max_per_week min_per_day
    days slots time_limit res :
  sound engine →
  TT_prototype.solve_timetable engine subjects num_batches num_rooms max_per_day
    max_per_week min_per_day days slots time_limit = inr res →
  satisfies
    (TT_prototype.solution_values engine subjects num_batches num_rooms
       max_per_day max_per_week min_per_day days slots time_limit)
    (TT_prototype.model subjects num_batches num_rooms max_per_day max_per_week
       min_per_day (length days) (length slots)) = true
  ∧ res.1 = TT_prototype.build_schedule subjects num_batches (length days)
              (length slots)
              (TT_prototype.solution_values engine subjects num_batches
                 num_rooms max_per_day max_per_week min_per_day days slots
                 time_limit).
Proof.
  intros Hsound Hres.
  destruct (TT_prototype.feasibility_checks subjects num_batches num_rooms
              max_per_day max_per_week min_per_day (length days) (length slots))
    as [msg|] eqn:Hchk.
  { unfold TT_prototype.solve_timetable in Hres. by rewrite Hchk in Hres. }
  rewrite solve_timetable_checked in Hres by done.
  destruct (accepted _) eqn:Hacc; [|discriminate].
  injection Hres as <-. split; [|done]. by apply Hsound.
Qed.

Lemma solve_timetable_model_built (engine : solver TimetableGenerator.var)
    self batches faculty classrooms time_limit min_hours_day max_hours_day m obj :
  TimetableGenerator.build_model self batches faculty classrooms min_hours_day
    max_hours_day = inr (m, obj) →
  TimetableGenerator.solution_values engine self batches faculty classrooms
    time_limit min_hours_day max_hours_day = Value (engine m obj time_limit)
  ∧ TimetableGenerator.solve_timetable_model engine self batches faculty
      classrooms time_limit min_hours_day max_hours_day
    = if accepted (status_of (engine m obj time_limit))
      then inr {| TimetableGenerator.result_schedule :=
                    TimetableGenerator.build_schedule self batches faculty
                      classrooms (Value (engine m obj time_limit));
                  TimetableGenerator.result_batch_list :=
                    TimetableGenerator.batch_list batches;
                  TimetableGenerator.result_workloads :=
                    TimetableGenerator.build_workloads faculty
                      (TimetableGenerator.build_schedule self batches faculty
                         classrooms (Value (engine m obj time_limit))) |}
      else inl (RuntimeError TimetableGenerator.msg_no_solution).
Proof.
  intros Hbuild.
  unfold TimetableGenerator.solution_values,
    TimetableGenerator.solve_timetable_model.
  rewrite Hbuild. split; [done|]. by destruct (accepted _).
Qed.

Lemma solve_timetable_model_inr (engine : solver TimetableGenerator.var)
    self batches faculty classrooms time_limit min_hours_day max_hours_day res :
  sound engine →
  TimetableGenerator.solve_timetable_model engine self batches faculty
    classrooms time_limit min_hours_day max_hours_day = inr res →
  ∃ m obj,
    TimetableGenerator.build_model self batches faculty classrooms
      min_hours_day max_hours_day = inr (m, obj)
    ∧ satisfies
        (TimetableGenerator.solution_values engine self batches faculty
           classrooms time_limit min_hours_day max_hours_day) m = true
    ∧ TimetableGenerator.result_schedule res
      = TimetableGenerator.build_schedule self batches faculty classrooms
          (TimetableGenerator.solution_values engine self batches faculty
             classrooms time_limit min_hours_day max_hours_day)
    ∧ TimetableGenerator.result_batch_list res
      = TimetableGenerator.batch_list batches.
Proof.
  intros Hsound Hres.
  destruct (TimetableGenerator.build_model self batches faculty classrooms
              min_hours_day max_hours_day) as [e|[m obj]] eqn:Hbuild.
  { unfold TimetableGenerator.solve_timetable_model in Hres.
    by rewrite Hbuild in Hres. }
  destruct (solve_timetable_model_built engine self batches faculty classrooms
              time_limit min_hours_day max_hours_day m obj Hbuild) as [Hval Hsolve].
  rewrite Hsolve in Hres. destruct (accepted _) eqn:Hacc; [|discriminate].
  injection Hres as <-. exists m, obj. rewrite Hval. simpl.
  split; [done|]. split; [by apply Hsound | done].
Qed.
End solve_results.

(** ** Claims on the result of a solve *)

Section solve_claims.
Import cp_model.

(** C8, as the code has it.  Once the model is built, the solve returns the
    decoded schedule exactly when the status is OPTIMAL or FEASIBLE; for each
    of the other statuses (INFEASIBLE, UNKNOWN, MODEL_INVALID) it raises one
    and the same [RuntimeError] with a fixed message.  First part:
    [solve_timetable] of the prototype; second part:
    [solve_timetable_model]. *)
Theorem solve_failure_is_one_runtime_error :
  (∀ (engine : solver TT_prototype.var) subjects num_batches num_rooms
     max_per_day max_per_week min_per_day days slots time_limit,
     TT_prototype.feasibility_checks subjects num_batches num_rooms max_per_day
       max_per_week min_per_day (length days) (length slots) = None →
     ∀ st,
       status_of (engine
         (TT_prototype.model subjects num_batches num_rooms max_per_day
            max_per_week min_per_day (length days) (length slots))
         (TT_prototype.objective subjects num_batches (length days) (length slots))
         time_limit) = st →
       (st = OPTIMAL ∨ st = FEASIBLE →
        TT_prototype.solve_timetable engine subjects num_batches num_rooms
          max_per_day max_per_week min_per_day days slots time_limit
        = inr (TT_prototype.build_schedule subjects num_batches (length days)
                 (length slots)
                 (TT_prototype.solution_values engine subjects num_batches
                    num_rooms max_per_day max_per_week min_per_day days slots
                    time_limit),
               TT_prototype.build_room_assignments num_batches (length days)
                 (length slots)
                 (TT_prototype.solution_values engine subjects num_batches
                    num_rooms max_per_day max_per_week min_per_day days slots
                    time_limit)))
       ∧ (st = INFEASIBLE ∨ st = UNKNOWN ∨ st = MODEL_INVALID →
          TT_prototype.solve_timetable engine subjects num_batches num_rooms
            max_per_day max_per_week min_per_day days slots time_limit
          = inl (RuntimeError TT_prototype.msg_no_solution)))
  ∧ (∀ (engine : solver TimetableGenerator.var) self batches faculty classrooms
       time_limit min_hours_day max_hours_day m obj,
       TimetableGenerator.build_model self batches faculty classrooms
         min_hours_day max_hours_day = inr (m, obj) →
       ∀ st,
         status_of (engine m obj time_limit) = st →
         (st = OPTIMAL ∨ st = FEASIBLE →
          TimetableGenerator.solve_timetable_model engine self batches faculty
            classrooms time_limit min_hours_day max_hours_day
          = inr {| TimetableGenerator.result_schedule :=
                     TimetableGenerator.build_schedule self batches faculty
                       classrooms (Value (engine m obj time_limit));
                   TimetableGenerator.result_batch_list :=
                     TimetableGenerator.batch_list batches;
                   TimetableGenerator.result_workloads :=
                     TimetableGenerator.build_workloads faculty
                       (TimetableGenerator.build_schedule self batches faculty
                          classrooms (Value (engine m obj time_limit))) |})
         ∧ (st = INFEASIBLE ∨ st = UNKNOWN ∨ st = MODEL_INVALID →
            TimetableGenerator.solve_timetable_model engine self batches
              faculty classrooms time_limit min_hours_day max_hours_day
            = inl (RuntimeError TimetableGenerator.msg_no_solution))).
Proof.
  split.
  - intros engine subjects num_batches num_rooms max_per_day max_per_week
      min_per_day days slots time_limit Hchk st Hst.
    rewrite solve_timetable_checked by done. rewrite Hst.
    split; intros H; destruct st; simpl; try done; destruct H as [H|H];
      try discriminate; destruct H; discriminate.
  - intros engine self batches faculty classrooms time_limit min_hours_day
      max_hours_day m obj Hbuild st Hst.
    destruct (solve_timetable_model_built engine self batches faculty classrooms
                time_limit min_hours_day max_hours_day m obj Hbuild) as [_ ->].
    rewrite Hst.
    split; intros H; destruct st; simpl; try done; destruct H as [H|H];
      try discriminate; destruct H; discriminate.
Qed.

Lemma solve_failure_is_one_runtime_error_witness :
  examples.run (answer INFEASIBLE examples.tiny_values) examples.tiny_app 2
  = inl (RuntimeError TimetableGenerator.msg_no_solution).
Proof.
  destruct solve_failure_is_one_runtime_error as [_ Hgen].
  destruct (Hgen (answer INFEASIBLE examples.tiny_values) examples.tiny_app
              (TimetableGenerator.batches examples.tiny_app)
              (TimetableGenerator.faculty examples.tiny_app)
              (TimetableGenerator.classrooms examples.tiny_app)
              45 1 2 _ _ eq_refl INFEASIBLE eq_refl) as [_ Hfail].
  apply Hfail. by left.
Defined.

(** C8, as the specification states it, fails: a proof of infeasibility and
    a timeout reach the caller as the same exception, in both programs. *)
Lemma infeasible_and_timeout_raise_the_same_error :
  examples.run (answer INFEASIBLE examples.tiny_values) examples.tiny_app 2
  = inl (RuntimeError TimetableGenerator.msg_no_solution)
  ∧ examples.run (answer UNKNOWN examples.tiny_values) examples.tiny_app 2
    = inl (RuntimeError TimetableGenerator.msg_no_solution)
  ∧ examples.proto_run (answer INFEASIBLE examples.proto_values) 2
    = inl (RuntimeError TT_prototype.msg_no_solution)
  ∧ examples.proto_run (answer UNKNOWN examples.proto_values) 2
    = inl (RuntimeError TT_prototype.msg_no_solution).
Proof. repeat split; vm_compute; reflexivity. Qed.

(** C7, as the code has it.  In the prototype every input that fails one of
    the five checks makes [solve_timetable] raise a [ValueError] that does not
    depend on the engine: no model is built and the engine is not called.
    [solve_timetable_model] makes none of these checks: for every input whose
    model is built it calls the engine, and it returns a schedule whenever the
    engine's status is accepted. *)
Theorem feasibility_checks_only_in_prototype :
  (∀ subjects num_batches num_rooms max_per_day max_per_week min_per_day
     (days slots : list string) time_limit,
     max_per_day > Z.of_nat (length slots)
     ∨ max_per_week > Z.of_nat (length days * length slots)
     ∨ min_per_day > max_per_day
     ∨ TT_prototype.required_hours subjects > max_per_week
     ∨ TT_prototype.required_hours subjects * num_batches
       > num_rooms * Z.of_nat (length days * length slots) →
     ∃ msg, ∀ engine : solver TT_prototype.var,
       TT_prototype.solve_timetable engine subjects num_batches num_rooms
         max_per_day max_per_week min_per_day days slots time_limit
       = inl (ValueError msg))
  ∧ (∀ (engine : solver TimetableGenerator.var) self batches faculty classrooms
       time_limit min_hours_day max_hours_day m obj,
       TimetableGenerator.build_model self batches faculty classrooms
         min_hours_day max_hours_day = inr (m, obj) →
       accepted (status_of (engine m obj time_limit)) = true →
       ∃ res,
         TimetableGenerator.solve_timetable_model engine self batches faculty
           classrooms time_limit min_hours_day max_hours_day = inr res).
Proof.
  split.
  - intros subjects num_batches num_rooms max_per_day max_per_week min_per_day
      days slots time_limit Hfail.
    assert (∃ msg, TT_prototype.feasibility_checks subjects num_batches
              num_rooms max_per_day max_per_week min_per_day (length days)
              (length slots) = Some msg) as [msg Hmsg].
    { unfold TT_prototype.feasibility_checks.
      repeat (case_bool_decide; [by eexists|]). lia. }
    exists msg. intros engine. unfold TT_prototype.solve_timetable.
    by rewrite Hmsg.
  - intros engine self batches faculty classrooms time_limit min_hours_day
      max_hours_day m obj Hbuild Hacc.
    destruct (solve_timetable_model_built engine self batches faculty classrooms
                time_limit min_hours_day max_hours_day m obj Hbuild) as [_ ->].
    rewrite Hacc. by eexists.
Qed.

Lemma feasibility_checks_only_in_prototype_witness :
  ∃ msg, ∀ engine : solver TT_prototype.var,
    examples.proto_run engine 3 = inl (ValueError msg).
Proof.
  destruct feasibility_checks_only_in_prototype as [Hproto _].
  apply (Hproto examples.proto_subjects 1 1 3 2 1 examples.proto_days
           examples.proto_slots 40).
  left. reflexivity.
Defined.

(** C7, as the specification states it, fails for [solve_timetable_model]:
    with ten hours allowed per day on a grid of two slots per day it raises
    nothing and returns a schedule. *)
Lemma solve_timetable_model_skips_the_checks :
  10 > Z.of_nat (length (TimetableGenerator.slots examples.tiny_app))
  ∧ sound (try_values examples.tiny_values)
  ∧ ∃ res, examples.run (try_values examples.tiny_values) examples.tiny_app 10
           = inr res.
Proof.
  split; [reflexivity|]. split; [apply try_values_sound|].
  eexists. vm_compute. reflexivity.
Qed.
End solve_claims.

(** ** Claims on every returned schedule *)


Section schedule_claims.
Import cp_model.

(** C1, as amended.  In every schedule returned by a successful solve, each
    batch has, for each subject it requires, exactly the declared weekly
    hours.  First part, [solve_timetable_model]: the row of the batch in the
    returned schedule holds the subject in exactly [hours] timeslots ([hours]
    read with its default 0).  Second part, [solve_timetable] of the
    prototype: exactly [hours] of the variables [x[b, s, t]] of the batch and
    subject are true; its schedule holds names only, with "Free" in an empty
    cell, and the row of the batch holds the name of the subject in exactly
    [hours] timeslots when that name is not "Free" and no other subject has
    it. *)
Theorem exact_weekly_hours :
  (∀ (engine : solver TimetableGenerator.var) self batches faculty classrooms
     time_limit min_hours_day max_hours_day res,
     sound engine →
     TimetableGenerator.solve_timetable_model engine self batches faculty
       classrooms time_limit min_hours_day max_hours_day = inr res →
     ∀ b_name bd s_name subj,
       batches !! b_name = Some bd →
       TimetableGenerator.b_subjects bd !! s_name = Some subj →
       ∃ b row,
         TimetableGenerator.result_batch_list res !! b = Some b_name
         ∧ TimetableGenerator.result_schedule res !! b = Some row
         ∧ Z.of_nat (TimetableGenerator.slots_with s_name row)
           = default 0 (TimetableGenerator.s_hours subj))
  ∧ (∀ (engine : solver TT_prototype.var) subjects num_batches num_rooms
       max_per_day max_per_week min_per_day days slots time_limit res,
       sound engine →
       TT_prototype.solve_timetable engine subjects num_batches num_rooms
         max_per_day max_per_week min_per_day days slots time_limit = inr res →
       ∀ b s subj,
         (b < Z.to_nat num_batches)%nat → subjects !! s = Some subj →
         Z.of_nat (count_true
                     (TT_prototype.solution_values engine subjects num_batches
                        num_rooms max_per_day max_per_week min_per_day days
                        slots time_limit)
                     ((λ t, TT_prototype.x b s t)
                        <$> range (length days * length slots)))
         = TT_prototype.hours_of subj
         ∧ (TT_prototype.name_of subj ≠ "Free" →
            (∀ s' subj', subjects !! s' = Some subj' →
                         TT_prototype.name_of subj' = TT_prototype.name_of subj →
                         s' = s) →
            ∃ row,
              res.1 !! b = Some row
              ∧ Z.of_nat (TT_prototype.slots_with (TT_prototype.name_of subj) row)
                = TT_prototype.hours_of subj)).
Proof.
  split.
  - intros engine self batches faculty classrooms time_limit min_hours_day
      max_hours_day res Hsound Hres b_name bd s_name subj Hb Hsubj.
    destruct (solve_timetable_model_inr _ _ _ _ _ _ _ _ _ Hsound Hres)
      as (m & obj & Hbuild & Hsat & Hsched & Hlist).
    destruct (sorted_keys_lookup batches b_name bd Hb) as [b Hidx].
    exists b. eexists. rewrite Hlist, Hsched. split; [exact Hidx|]. split.
    + apply build_schedule_lookup_row. by apply lookup_lt_Some in Hidx.
    + eapply gen_hours_in_row; [exact Hbuild|exact Hsat|exact Hidx|].
      by rewrite (lookup_total_correct _ _ _ Hb).
  - intros engine subjects num_batches num_rooms max_per_day max_per_week
      min_per_day days slots time_limit res Hsound Hres b s subj Hb Hs.
    destruct (solve_timetable_inr _ _ _ _ _ _ _ _ _ _ _ Hsound Hres)
      as [Hsat Hsched].
    split.
    + by eapply proto_hours_count.
    + intros Hfree Hown. eexists. rewrite Hsched. split.
      * by apply build_schedule_lookup.
      * by eapply proto_hours_in_row.
Qed.

Lemma exact_weekly_hours_witness :
  (∃ b row,
     TimetableGenerator.result_batch_list examples.tiny_result !! b = Some "B1"
     ∧ TimetableGenerator.result_schedule examples.tiny_result !! b = Some row
     ∧ Z.of_nat (TimetableGenerator.slots_with "Math" row) = 2)
  ∧ Z.of_nat (count_true
                (TT_prototype.solution_values (try_values examples.proto_values)
                   examples.proto_subjects 1 1 2 2 1 examples.proto_days
                   examples.proto_slots 40)
                ((λ t, TT_prototype.x 0 0 t) <$> range 2)) = 1
  ∧ ∃ row,
      examples.proto_result.1 !! 0%nat = Some row
      ∧ Z.of_nat (TT_prototype.slots_with "Math" row) = 1.
Proof.
  destruct exact_weekly_hours as [Hgen Hproto]. split.
  - apply (Hgen (try_values examples.tiny_values) examples.tiny_app
             (TimetableGenerator.batches examples.tiny_app)
             (TimetableGenerator.faculty examples.tiny_app)
             (TimetableGenerator.classrooms examples.tiny_app) 45 1 2
             examples.tiny_result
             (try_values_sound _) ltac:(vm_compute; reflexivity)
             "B1" (examples.math_batch 2) "Math" (examples.math_subject 2)
             ltac:(vm_compute; reflexivity) ltac:(vm_compute; reflexivity)).
  - destruct (Hproto (try_values examples.proto_values) examples.proto_subjects
                1 1 2 2 1 examples.proto_days examples.proto_slots 40
                examples.proto_result
                (try_values_sound _) ltac:(vm_compute; reflexivity)
                0%nat 0%nat ("Math", 1, 1)
                ltac:(vm_compute; lia) ltac:(reflexivity))
      as [Hcount Hrow].
    split; [exact Hcount|].
    apply Hrow.
    + intros H. vm_compute in H. discriminate H.
    + intros [|s'] subj' Hs' _; [reflexivity|]. discriminate Hs'.
Defined.

(** C1, as the specification states it, fails for the schedule that the
    prototype returns, which holds the names of the subjects and "Free" in
    an empty cell.  With one hour of a subject named "Free" the row of the
    batch holds "Free" in both timeslots; with two subjects named "Math", of
    one hour each, it holds "Math" in two timeslots. *)
Lemma prototype_row_counts_names :
  sound (try_values examples.proto_values)
  ∧ sound (try_values examples.same_name_values)
  ∧ (∃ res row,
       examples.free_run = inr res
       ∧ examples.free_subjects !! 0%nat = Some ("Free", 1, 1)
       ∧ res.1 !! 0%nat = Some row
       ∧ row = ["Free"; "Free"]
       ∧ TT_prototype.slots_with "Free" row = 2%nat
       ∧ Z.of_nat (TT_prototype.slots_with "Free" row)
         ≠ TT_prototype.hours_of ("Free", 1, 1))
  ∧ ∃ res row,
      examples.same_name_run = inr res
      ∧ examples.same_name_subjects !! 0%nat = Some ("Math", 1, 1)
      ∧ res.1 !! 0%nat = Some row
      ∧ row = ["Math"; "Math"]
      ∧ TT_prototype.slots_with "Math" row = 2%nat
      ∧ Z.of_nat (TT_prototype.slots_with "Math" row)
        ≠ TT_prototype.hours_of ("Math", 1, 1).
Proof.
  split; [apply try_values_sound|]. split; [apply try_values_sound|]. split.
  - destruct examples.free_run as [e|res] eqn:Hrun;
      [vm_compute in Hrun; discriminate Hrun|].
    exists res, ["Free"; "Free"]. split; [reflexivity|].
    split; [reflexivity|].
    split; [by vm_compute in Hrun; injection Hrun as <-|].
    split; [reflexivity|]. split; [vm_compute; reflexivity|].
    vm_compute. discriminate.
  - destruct examples.same_name_run as [e|res] eqn:Hrun;
      [vm_compute in Hrun; discriminate Hrun|].
    exists res, ["Math"; "Math"]. split; [reflexivity|].
    split; [reflexivity|].
    split; [by vm_compute in Hrun; injection Hrun as <-|].
    split; [reflexivity|]. split; [vm_compute; reflexivity|].
    vm_compute. discriminate.
Qed.


Lemma sumf_const {A} (l : list A) (c : Z) :
  sumf l (λ _, c) = Z.of_nat (length l) * c.
Proof. induction l as [|a l IH]; simpl; [done | rewrite IH; lia]. Qed.



End schedule_claims.

(** ** A subject without a teacher *)

Section no_teacher.
Import cp_model TimetableGenerator.




End no_teacher.

(** ** The decoder and inconsistent values *)

Lemma two_members_filter_length {A} (P : A → Prop) `{!∀ a, Decision (P a)}
    (l : list A) (a1 a2 : A) :
  a1 ∈ l → a2 ∈ l → a1 ≠ a2 → P a1 → P a2 → (2 ≤ length (filter P l))%nat.
Proof.
  intros H1 H2 Hne HP1 HP2.
  assert (a1 ∈ filter P l) as Hf1 by (by apply list_elem_of_filter).
  assert (a2 ∈ filter P l) as Hf2 by (by apply list_elem_of_filter).
  destruct (filter P l) as [|b [|b' l']]; simpl; [|exfalso|lia].
  - by apply elem_of_nil in Hf1.
  - apply list_elem_of_singleton in Hf1, Hf2. congruence.
Qed.

Section decoder_claims.
Import cp_model TimetableGenerator.

(** C6, as the code has it.  Decoding is a function of the values of the
    assignment variables alone, and [solve_timetable_model] makes no
    consistency check: every accepted answer is decoded and returned.  A cell
    ends up with the last true variable of its batch and timeslot in loop
    order (subjects, then faculty, then classrooms) and is empty when none is
    true; so when at most one variable is true, as the single-booking
    constraint demands, the cell is that one and nothing is masked. *)
Theorem decoder_keeps_last_true_assignment self batches faculty classrooms :
  (∀ ρ ρ' : var → Z,
     (∀ b s f c t, ρ (x b s f c t) = ρ' (x b s f c t)) →
     build_schedule self batches faculty classrooms ρ
     = build_schedule self batches faculty classrooms ρ')
  ∧ (∀ (engine : solver var) time_limit min_hours_day max_hours_day m obj,
       build_model self batches faculty classrooms min_hours_day max_hours_day
       = inr (m, obj) →
       accepted (status_of (engine m obj time_limit)) = true →
       ∃ res,
         solve_timetable_model engine self batches faculty classrooms
           time_limit min_hours_day max_hours_day = inr res
         ∧ result_schedule res
           = build_schedule self batches faculty classrooms
               (Value (engine m obj time_limit)))
  ∧ (∀ (ρ : var → Z) b t l1 a l2,
       cell_candidates batches faculty classrooms = l1 ++ a :: l2 →
       ρ (x b a.1.1 a.1.2 a.2 t) ≠ 0 →
       (∀ a', a' ∈ l2 → ρ (x b a'.1.1 a'.1.2 a'.2 t) = 0) →
       schedule_cell batches faculty classrooms ρ b t
       = Some (all_subjects batches !!! a.1.1, faculty_list faculty !!! a.1.2,
               classroom_list classrooms !!! a.2))
  ∧ (∀ (ρ : var → Z) b t,
       (∀ s f c, (s < num_subjects batches)%nat →
                 (f < num_faculty faculty)%nat →
                 (c < num_classrooms classrooms)%nat →
                 ρ (x b s f c t) = 0) →
       schedule_cell batches faculty classrooms ρ b t = None)
  ∧ (∀ (ρ : var → Z) b t s f c,
       (s < num_subjects batches)%nat →
       (f < num_faculty faculty)%nat →
       (c < num_classrooms classrooms)%nat →
       (count_true ρ (vars_of_batch_slot batches faculty classrooms b t) ≤ 1)%nat →
       ρ (x b s f c t) ≠ 0 →
       schedule_cell batches faculty classrooms ρ b t
       = Some (all_subjects batches !!! s, faculty_list faculty !!! f,
               classroom_list classrooms !!! c)).
Proof.
  split; [|split; [|split; [|split]]].
  - intros ρ ρ'. apply build_schedule_ext.
  - intros engine time_limit min_hours_day max_hours_day m obj Hbuild Hacc.
    destruct (solve_timetable_model_built engine self batches faculty classrooms
                time_limit min_hours_day max_hours_day m obj Hbuild) as [_ ->].
    rewrite Hacc. by eexists.
  - intros ρ b t l1 a l2. apply schedule_cell_last.
  - intros ρ b t Hzero.
    destruct (schedule_cell_cases batches faculty classrooms ρ b t)
      as [[Hnone _] | (s & f & c & Hs & Hf & Hc & Hx & _)]; [done|].
    by rewrite Hzero in Hx.
  - intros ρ b t s f c Hs Hf Hc Hone Hx.
    destruct (schedule_cell_cases batches faculty classrooms ρ b t)
      as [[_ Hall] | (s' & f' & c' & Hs' & Hf' & Hc' & Hx' & Hcell)].
    { by rewrite Hall in Hx. }
    rewrite Hcell. simpl.
    destruct (decide ((s', f', c') = (s, f, c))) as [Heq|Hne].
    { by simplify_eq. }
    exfalso. unfold count_true in Hone.
    assert (x b s' f' c' t ≠ x b s f c t) as Hne' by (intros [=]; by subst).
    assert (2 ≤ length (filter (λ v, ρ v ≠ 0%Z)
                          (vars_of_batch_slot batches faculty classrooms b t)))%nat;
      [|lia].
    apply (two_members_filter_length _ _ (x b s' f' c' t) (x b s f c t));
      try done.
    + unfold vars_of_batch_slot. in_loop s'. in_loop f'. in_loop c'. in_body.
    + unfold vars_of_batch_slot. in_loop s. in_loop f. in_loop c. in_body.
Qed.

Lemma decoder_keeps_last_true_assignment_witness :
  schedule_cell (batches examples.two_rooms_app) (faculty examples.two_rooms_app)
    (classrooms examples.two_rooms_app) examples.double_booked_values 0 0
  = Some ("Math", "F1", "R2").
Proof.
  destruct (decoder_keeps_last_true_assignment examples.two_rooms_app
              (batches examples.two_rooms_app) (faculty examples.two_rooms_app)
              (classrooms examples.two_rooms_app)) as (_ & _ & Hlast & _).
  apply (Hlast examples.double_booked_values 0%nat 0%nat
           [(0, 0, 0)%nat] (0, 0, 1)%nat []).
  - vm_compute. reflexivity.
  - vm_compute. discriminate.
  - intros a' Ha'. by apply elem_of_nil in Ha'.
Defined.

(** C6, as the specification states it, fails: when the engine answers
    FEASIBLE with two true assignment variables for batch B1 in the first
    timeslot (rooms R1 and R2), the solve raises nothing and returns a
    schedule whose cell keeps R2 only. *)
Lemma double_booking_is_masked :
  count_true examples.double_booked_values
    (vars_of_batch_slot (batches examples.two_rooms_app)
       (faculty examples.two_rooms_app) (classrooms examples.two_rooms_app) 0 0)
  = 2%nat
  ∧ ∃ res row,
      examples.run (answer FEASIBLE examples.double_booked_values)
        examples.two_rooms_app 2 = inr res
      ∧ result_schedule res !! 0%nat = Some row
      ∧ row !! 0%nat = Some (Some ("Math", "F1", "R2")).
Proof.
  split; [vm_compute; reflexivity|].
  exists (examples.result_of
            (examples.run (answer FEASIBLE examples.double_booked_values)
               examples.two_rooms_app 2)),
         (Some ("Math", "F1", "R2") :: replicate 9 None).
  repeat split; vm_compute; reflexivity.
Qed.
End decoder_claims.

(** ** The indicators of the objective *)

Section prototype_indicators.
Import cp_model TT_prototype.
Variables (subjects : list subject_row).
Variables (num_batches num_rooms max_per_day max_per_week min_per_day : Z).
Variables (num_days num_slots_per_day : nat).
Variable ρ : var → Z.

Local Abbreviation the_model :=
  (model subjects num_batches num_rooms max_per_day max_per_week min_per_day
     num_days num_slots_per_day).
Local Abbreviation nb := (Z.to_nat num_batches).
Local Abbreviation total := (num_days * num_slots_per_day)%nat.

Hypothesis Hsat : satisfies ρ the_model = true.

Ltac in_model H := unfold model; rewrite !elem_of_app; tauto.

(** In the prototype the full-slot indicator is true exactly when every room
    is occupied. *)
Lemma proto_full_slot_linked t :
  (t < total)%nat →
  ρ (full_slot t) = 1 ↔ sumf (range nb) (λ b, ρ (y b t)) = num_rooms.
Proof.
  intros Ht.
  assert (∀ c, c ∈ slot_filled_constraints num_batches num_rooms num_days
                     num_slots_per_day → c ∈ the_model) as Hsf
    by (intros c Hc; in_model Hc).
  assert (∀ c, c ∈ full_slot_constraints num_rooms num_days num_slots_per_day
               → c ∈ the_model) as Hfs
    by (intros c Hc; in_model Hc).
  assert (ρ (slot_filled t) = sumf (range nb) (λ b, ρ (y b t))) as Hfilled.
  { assert (Add (Var (slot_filled t)) EQ
                (psum ((λ b, Var (y b t)) <$> range nb)) ∈ the_model) as Hin.
    { apply Hsf. unfold slot_filled_constraints. in_loop t. in_body. }
    pose proof (add_ok _ _ _ _ _ Hsat Hin) as H. simpl in H.
    apply bool_decide_eq_true in H. by rewrite eval_psum_fmap in H. }
  assert (0 ≤ ρ (full_slot t) ≤ 1) as Hbool.
  { apply (bool_var_ok ρ the_model); [done|]. apply Hfs.
    unfold full_slot_constraints. in_loop t. in_body. }
  rewrite <- Hfilled. split.
  - intros Hone.
    assert (OnlyEnforceIf (Pos (full_slot t))
              (Add (Var (slot_filled t)) EQ (Const num_rooms)) ∈ the_model) as Hin.
    { apply Hfs. unfold full_slot_constraints. in_loop t. in_body. }
    pose proof (add_if_ok _ _ _ _ _ _ Hsat Hin) as H.
    rewrite lit_true_pos in H. specialize (H Hone). simpl in H.
    by apply bool_decide_eq_true in H.
  - intros Hfull. destruct (decide (ρ (full_slot t) = 1)) as [|Hne]; [done|].
    exfalso.
    assert (OnlyEnforceIf (Neg (full_slot t))
              (Add (Var (slot_filled t)) NE (Const num_rooms)) ∈ the_model) as Hin.
    { apply Hfs. unfold full_slot_constraints. in_loop t. in_body. }
    pose proof (add_if_ok _ _ _ _ _ _ Hsat Hin) as H.
    rewrite lit_true_neg in H. assert (ρ (full_slot t) = 0) as H0 by lia.
    specialize (H H0). simpl in H. by apply bool_decide_eq_true in H.
Qed.

(** In the prototype the adjacency indicator is true exactly when both
    timeslots are occupied. *)
Lemma proto_adj_linked b d k :
  (b < nb)%nat → (d < num_days)%nat → (k < num_slots_per_day - 1)%nat →
  ρ (adj b d k) = 1
  ↔ ρ (y b (d * num_slots_per_day + k)) = 1
    ∧ ρ (y b (d * num_slots_per_day + k + 1)) = 1.
Proof.
  intros Hb Hd Hk.
  assert (∀ c, c ∈ adjacency_constraints num_batches num_days num_slots_per_day
               → c ∈ the_model) as Hadj
    by (intros c Hc; in_model Hc).
  assert (0 ≤ ρ (adj b d k) ≤ 1) as Hbool.
  { apply (bool_var_ok ρ the_model); [done|]. apply Hadj.
    unfold adjacency_constraints. in_loop b. in_loop d. in_loop k. in_body. }
  assert (d * num_slots_per_day + k + 1 < total)%nat as Ht1 by nia.
  assert (d * num_slots_per_day + k < total)%nat as Ht by lia.
  pose proof (proto_y_bool _ _ _ _ _ _ _ _ _ Hsat b _ Hb Ht) as Hy.
  pose proof (proto_y_bool _ _ _ _ _ _ _ _ _ Hsat b _ Hb Ht1) as Hy1.
  split.
  - intros Hone.
    assert (OnlyEnforceIf (Pos (adj b d k))
              (AddBoolAnd [Pos (y b (d * num_slots_per_day + k));
                           Pos (y b (d * num_slots_per_day + k + 1))])
            ∈ the_model) as Hin.
    { apply Hadj. unfold adjacency_constraints. in_loop b. in_loop d. in_loop k.
      in_body. }
    pose proof (bool_and_if_ok _ _ _ _ Hsat Hin) as H.
    rewrite lit_true_pos in H. specialize (H Hone).
    split; apply lit_true_pos, H; [by left | right; by left].
  - intros [Hy' Hy1']. destruct (decide (ρ (adj b d k) = 1)) as [|Hne]; [done|].
    exfalso.
    assert (OnlyEnforceIf (Neg (adj b d k))
              (AddBoolOr [Neg (y b (d * num_slots_per_day + k));
                          Neg (y b (d * num_slots_per_day + k + 1))])
            ∈ the_model) as Hin.
    { apply Hadj. unfold adjacency_constraints. in_loop b. in_loop d. in_loop k.
      in_body. }
    pose proof (bool_or_if_ok _ _ _ _ Hsat Hin) as H.
    rewrite lit_true_neg in H. assert (ρ (adj b d k) = 0) as H0 by lia.
    destruct (H H0) as (l & Hl & Htrue).
    apply elem_of_cons in Hl as [->|Hl].
    + apply lit_true_neg in Htrue. lia.
    + apply list_elem_of_singleton in Hl as ->. apply lit_true_neg in Htrue. lia.
Qed.

(** In the prototype the free-day term of the objective, the negation of
    [day_active], is true exactly when the batch has no occupied slot that
    day. *)
Lemma proto_free_day_linked b d :
  (b < nb)%nat → (d < num_days)%nat →
  lit_true ρ (Neg (day_active b d)) = true
  ↔ eval ρ (daily_hours num_slots_per_day b d) = 0.
Proof.
  intros Hb Hd.
  assert (∀ c, c ∈ daily_constraints num_batches max_per_day min_per_day
                     num_days num_slots_per_day → c ∈ the_model) as Hday
    by (intros c Hc; in_model Hc).
  assert (∀ c, c ∈ [Add (daily_hours num_slots_per_day b d) LE (Const max_per_day);
                    NewBoolVar (day_active b d);
                    OnlyEnforceIf (Pos (day_active b d))
                      (Add (daily_hours num_slots_per_day b d) GE (Const 1));
                    OnlyEnforceIf (Neg (day_active b d))
                      (Add (daily_hours num_slots_per_day b d) EQ (Const 0))]
               → c ∈ the_model) as Hin.
  { intros c Hc. apply Hday. unfold daily_constraints. in_loop b. in_loop d.
    apply elem_of_app. by left. }
  assert (0 ≤ ρ (day_active b d) ≤ 1) as Hbool.
  { apply (bool_var_ok ρ the_model); [done|]. apply Hin. in_body. }
  split.
  - intros Hfree.
    assert (OnlyEnforceIf (Neg (day_active b d))
              (Add (daily_hours num_slots_per_day b d) EQ (Const 0)) ∈ the_model)
      as Hc by (apply Hin; in_body).
    pose proof (add_if_ok _ _ _ _ _ _ Hsat Hc Hfree) as H. simpl in H.
    by apply bool_decide_eq_true in H.
  - intros Hzero. apply lit_true_neg.
    destruct (decide (ρ (day_active b d) = 0)) as [|Hne]; [done|]. exfalso.
    assert (OnlyEnforceIf (Pos (day_active b d))
              (Add (daily_hours num_slots_per_day b d) GE (Const 1)) ∈ the_model)
      as Hc by (apply Hin; in_body).
    pose proof (add_if_ok _ _ _ _ _ _ Hsat Hc) as H.
    rewrite lit_true_pos in H. assert (ρ (day_active b d) = 1) as H1 by lia.
    specialize (H H1). simpl in H. apply bool_decide_eq_true in H. lia.
Qed.
End prototype_indicators.

Section generator_indicators.
Import cp_model TimetableGenerator.
Variables (self : App).
Variables (batches : gmap string batch) (faculty : gmap string faculty_member)
          (classrooms : gmap string classroom).
Variables (min_hours_day max_hours_day : Z).
Variables (ρ : var → Z) (m : list (call var)) (obj : expr var).
Variable ps : list (nat * nat).

Hypothesis Hprefs : preference_slots self faculty = inr ps.
Hypothesis Hbuild :
  build_model self batches faculty classrooms min_hours_day max_hours_day
  = inr (m, obj).
Hypothesis Hsat : satisfies ρ m = true.

Lemma model_parts :
  m = hard_constraints self batches faculty classrooms min_hours_day max_hours_day
      ++ adjacency_constraints self batches ++ free_day_constraints self batches
      ++ long_stretch_constraints self batches
      ++ preference_constraints batches classrooms ps.
Proof.
  unfold build_model in Hbuild. rewrite Hprefs in Hbuild. by injection Hbuild as <- _.
Qed.

(** What [solve_timetable_model] does constrain: an indicator that is true
    has its condition true.  Nothing makes an indicator true. *)
Lemma generator_indicators_imply_condition :
  (∀ b d k,
     (b < num_batches batches)%nat → (d < num_days self)%nat →
     (k < num_slots_per_day self - 1)%nat →
     ρ (adj b d k) = 1 →
     ρ (y b (d * num_slots_per_day self + k)) = 1
     ∧ ρ (y b (d * num_slots_per_day self + k + 1)) = 1)
  ∧ (∀ b d,
       (b < num_batches batches)%nat → (d < num_days self)%nat →
       ρ (free_day b d) = 1 → eval ρ (daily_hours self b d) = 0)
  ∧ (∀ b d k i,
       (b < num_batches batches)%nat → (d < num_days self)%nat →
       (k < num_slots_per_day self - MAX_CONSECUTIVE_CLASSES)%nat →
       (i < MAX_CONSECUTIVE_CLASSES + 1)%nat →
       ρ (long_stretch b d k) = 1 →
       ρ (y b (d * num_slots_per_day self + k + i)) = 1)
  ∧ (∀ f t,
       (f, t) ∈ ps → ρ (pref f t) = 1 →
       sumf (vars_of_faculty_slot batches classrooms f t) ρ > 0).
Proof.
  pose proof model_parts as Hm.
  split; [|split; [|split]].
  - intros b d k Hb Hd Hk Hone.
    assert (OnlyEnforceIf (Pos (adj b d k))
              (AddBoolAnd [Pos (y b (d * num_slots_per_day self + k));
                           Pos (y b (d * num_slots_per_day self + k + 1))]) ∈ m)
      as Hin.
    { rewrite Hm, !elem_of_app. right. left. unfold adjacency_constraints.
      in_loop b. in_loop d. in_loop k. in_body. }
    pose proof (bool_and_if_ok _ _ _ _ Hsat Hin) as H.
    rewrite lit_true_pos in H. specialize (H Hone).
    split; apply lit_true_pos, H; [by left | right; by left].
  - intros b d Hb Hd Hone.
    assert (OnlyEnforceIf (Pos (free_day b d))
              (Add (daily_hours self b d) EQ (Const 0)) ∈ m) as Hin.
    { rewrite Hm, !elem_of_app. right. right. left. unfold free_day_constraints.
      in_loop b. in_loop d. in_body. }
    pose proof (add_if_ok _ _ _ _ _ _ Hsat Hin) as H.
    rewrite lit_true_pos in H. specialize (H Hone). simpl in H.
    by apply bool_decide_eq_true in H.
  - intros b d k i Hb Hd Hk Hi Hone.
    assert (OnlyEnforceIf (Pos (long_stretch b d k))
              (AddBoolAnd ((λ i, Pos (y b (d * num_slots_per_day self + k + i)))
                             <$> range (MAX_CONSECUTIVE_CLASSES + 1))) ∈ m)
      as Hin.
    { rewrite Hm, !elem_of_app. right. right. right. left.
      unfold long_stretch_constraints. in_loop b. in_loop d. in_loop k. in_body. }
    pose proof (bool_and_if_ok _ _ _ _ Hsat Hin) as H.
    rewrite lit_true_pos in H. specialize (H Hone).
    apply lit_true_pos, H. apply list_elem_of_fmap. exists i.
    split; [done | by apply elem_of_range].
  - intros f t Hft Hone.
    assert (OnlyEnforceIf (Pos (pref f t))
              (Add (psum (Var <$> vars_of_faculty_slot batches classrooms f t))
                   GT (Const 0)) ∈ m) as Hin.
    { rewrite Hm, !elem_of_app. right. right. right. right.
      unfold preference_constraints. in_loop (f, t). in_body. }
    pose proof (add_if_ok _ _ _ _ _ _ Hsat Hin) as H.
    rewrite lit_true_pos in H. specialize (H Hone). simpl in H.
    apply bool_decide_eq_true in H. by rewrite eval_psum_vars in H.
Qed.
End generator_indicators.

(** Taking the indicators out of a solution leaves a solution: no constraint
    of [solve_timetable_model] ever asks an indicator to be true. *)
Section without_indicators.
Import cp_model TimetableGenerator.
Variables (self : App).
Variables (batches : gmap string batch) (faculty : gmap string faculty_member)
          (classrooms : gmap string classroom).
Variables (min_hours_day max_hours_day : Z).
Variable ρ : var → Z.

Local Abbreviation ρ' := (without_indicators ρ).

Ltac x_only H :=
  repeat (apply list_elem_of_bind in H as (? & H & _));
  apply list_elem_of_singleton in H as ->; reflexivity.

Lemma sum_without_indicators (vs : list var) :
  (∀ v, v ∈ vs → ρ' v = ρ v) →
  eval ρ' (psum (Var <$> vs)) = eval ρ (psum (Var <$> vs)).
Proof. intros Hvs. rewrite !eval_psum_vars. by apply sumf_ext. Qed.

Lemma batch_subject_without b s :
  eval ρ' (psum (Var <$> vars_of_batch_subject self faculty classrooms b s))
  = eval ρ (psum (Var <$> vars_of_batch_subject self faculty classrooms b s)).
Proof.
  apply sum_without_indicators. intros v Hv.
  unfold vars_of_batch_subject in Hv. x_only Hv.
Qed.

Lemma batch_subject_faculty_without b s f :
  eval ρ' (psum (Var <$> vars_of_batch_subject_faculty self classrooms b s f))
  = eval ρ (psum (Var <$> vars_of_batch_subject_faculty self classrooms b s f)).
Proof.
  apply sum_without_indicators. intros v Hv.
  unfold vars_of_batch_subject_faculty in Hv. x_only Hv.
Qed.

Lemma batch_subject_classroom_without b s c :
  eval ρ' (psum (Var <$> vars_of_batch_subject_classroom self faculty b s c))
  = eval ρ (psum (Var <$> vars_of_batch_subject_classroom self faculty b s c)).
Proof.
  apply sum_without_indicators. intros v Hv.
  unfold vars_of_batch_subject_classroom in Hv. x_only Hv.
Qed.

Lemma batch_slot_without b t :
  eval ρ' (psum (Var <$> vars_of_batch_slot batches faculty classrooms b t))
  = eval ρ (psum (Var <$> vars_of_batch_slot batches faculty classrooms b t)).
Proof.
  apply sum_without_indicators. intros v Hv.
  unfold vars_of_batch_slot in Hv. x_only Hv.
Qed.

Lemma faculty_slot_without f t :
  eval ρ' (psum (Var <$> vars_of_faculty_slot batches classrooms f t))
  = eval ρ (psum (Var <$> vars_of_faculty_slot batches classrooms f t)).
Proof.
  apply sum_without_indicators. intros v Hv.
  unfold vars_of_faculty_slot in Hv. x_only Hv.
Qed.

Lemma classroom_slot_without c t :
  eval ρ' (psum (Var <$> vars_of_classroom_slot batches faculty c t))
  = eval ρ (psum (Var <$> vars_of_classroom_slot batches faculty c t)).
Proof.
  apply sum_without_indicators. intros v Hv.
  unfold vars_of_classroom_slot in Hv. x_only Hv.
Qed.

Lemma classroom_day_without c d :
  eval ρ' (psum (Var <$> vars_of_classroom_day self batches faculty c d))
  = eval ρ (psum (Var <$> vars_of_classroom_day self batches faculty c d)).
Proof.
  apply sum_without_indicators. intros v Hv.
  unfold vars_of_classroom_day in Hv. x_only Hv.
Qed.

Lemma daily_hours_without b d :
  eval ρ' (daily_hours self b d) = eval ρ (daily_hours self b d).
Proof. unfold daily_hours. by rewrite !eval_psum_fmap. Qed.

Ltac same_call :=
  unfold call_ok, OnlyEnforceIf, Add, constraint_holds, body_holds;
  cbn [c_body c_enforce app];
  rewrite ?batch_subject_without, ?batch_subject_faculty_without,
    ?batch_subject_classroom_without, ?batch_slot_without,
    ?faculty_slot_without, ?classroom_slot_without, ?classroom_day_without,
    ?daily_hours_without;
  reflexivity.

Ltac each_call H :=
  repeat (apply elem_of_cons in H as [->|H]; [same_call|]);
  by apply elem_of_nil in H.

Lemma hard_without_indicators c :
  c ∈ hard_constraints self batches faculty classrooms min_hours_day max_hours_day →
  call_ok ρ' c = call_ok ρ c.
Proof.
  unfold hard_constraints. rewrite !elem_of_app.
  intros [H|[H|[H|[H|[H|[H|[H|[H|H]]]]]]]].
  - unfold decision_variables in H.
    repeat (apply list_elem_of_bind in H as (? & H & _)). each_call H.
  - unfold structural_constraints in H.
    apply list_elem_of_bind in H as ([b_idx b_name] & H & _).
    apply list_elem_of_bind in H as ([s_idx s_name] & H & _).
    destruct (b_subjects (batches !!! b_name) !! s_name) as [subj|];
      [|each_call H].
    apply elem_of_app in H as [H|H].
    + apply list_elem_of_bind in H as ([f_idx f_name] & H & _).
      case_bool_decide; each_call H.
    + apply list_elem_of_bind in H as ([c_idx c_name] & H & _).
      case_bool_decide; each_call H.
  - unfold batch_slot_constraints in H.
    repeat (apply list_elem_of_bind in H as (? & H & _)). each_call H.
  - unfold faculty_slot_constraints in H.
    repeat (apply list_elem_of_bind in H as (? & H & _)). each_call H.
  - unfold classroom_capacity_constraints in H.
    apply list_elem_of_bind in H as ([c_idx c_name] & H & _).
    apply list_elem_of_bind in H as (t & H & _). each_call H.
  - unfold classroom_daily_constraints in H.
    apply list_elem_of_bind in H as ([c_idx c_name] & H & _).
    apply list_elem_of_bind in H as (d & H & _). each_call H.
  - unfold required_hours_constraints in H.
    apply list_elem_of_bind in H as ([b_idx b_name] & H & _).
    apply list_elem_of_bind in H as ([s_idx s_name] & H & _).
    destruct (b_subjects (batches !!! b_name) !! s_name) as [subj|];
      each_call H.
  - unfold occupied_variables in H.
    repeat (apply list_elem_of_bind in H as (? & H & _)). each_call H.
  - unfold daily_constraints in H.
    repeat (apply list_elem_of_bind in H as (? & H & _)). each_call H.
Qed.

Lemma indicator_calls_without_indicators (ps : list (nat * nat)) c :
  c ∈ adjacency_constraints self batches ++ free_day_constraints self batches
      ++ long_stretch_constraints self batches
      ++ preference_constraints batches classrooms ps →
  call_ok ρ' c = true.
Proof.
  rewrite !elem_of_app. intros [H|[H|[H|H]]].
  - unfold adjacency_constraints in H.
    repeat (apply list_elem_of_bind in H as (? & H & _)).
    repeat (apply elem_of_cons in H as [->|H]; [reflexivity|]).
    by apply elem_of_nil in H.
  - unfold free_day_constraints in H.
    repeat (apply list_elem_of_bind in H as (? & H & _)).
    repeat (apply elem_of_cons in H as [->|H]; [reflexivity|]).
    by apply elem_of_nil in H.
  - unfold long_stretch_constraints in H.
    repeat (apply list_elem_of_bind in H as (? & H & _)).
    repeat (apply elem_of_cons in H as [->|H]; [reflexivity|]).
    by apply elem_of_nil in H.
  - unfold preference_constraints in H.
    apply list_elem_of_bind in H as ([f t] & H & _).
    repeat (apply elem_of_cons in H as [->|H]; [reflexivity|]).
    by apply elem_of_nil in H.
Qed.

(** Every solution of the model stays one when all indicators are put to 0;
    so whenever a solution has a free day, a long stretch, a disfavoured slot
    or two adjacent lessons, there is a solution in which the indicator is
    false although its condition holds. *)
Lemma solution_without_indicators (m : list (call var)) (obj : expr var) :
  build_model self batches faculty classrooms min_hours_day max_hours_day
  = inr (m, obj) →
  satisfies ρ m = true → satisfies ρ' m = true.
Proof.
  intros Hbuild Hsat. unfold build_model in Hbuild.
  destruct (preference_slots self faculty) as [e|ps]; [discriminate|].
  injection Hbuild as <- _.
  unfold satisfies. apply forallb_forall. intros c Hc%list_elem_of_In.
  apply elem_of_app in Hc as [Hc|Hc].
  - rewrite hard_without_indicators by done.
    eapply satisfies_elem_of; [exact Hsat|]. apply elem_of_app. by left.
  - by eapply indicator_calls_without_indicators.
Qed.
End without_indicators.

Section indicator_claims.
Import cp_model.

(** C2 at a failing input of [solve_timetable_model].  Batch B1 has its two
    hours of Math on Monday 11-12 and 12-13 with F1, who prefers mornings, and
    every indicator of the objective is 0.  The model is satisfied and the
    solve returns a schedule, although: the free-day indicator of Tuesday is 0
    on a day without any occupied slot; the adjacency indicator of the two
    Monday slots is 0 while both are occupied; the preference indicator of F1
    at 12-13 is 0 while F1 teaches then.  Likewise the long-stretch indicator
    is 0 on a day of four occupied slots in a row.  Each indicator is
    constrained in one direction only. *)
Theorem generator_indicators_are_not_linked :
  (∃ obj,
     TimetableGenerator.build_model examples.tiny_app
       (TimetableGenerator.batches examples.tiny_app)
       (TimetableGenerator.faculty examples.tiny_app)
       (TimetableGenerator.classrooms examples.tiny_app) 1 2
     = inr (examples.tiny_model, obj))
  ∧ satisfies examples.tiny_values examples.tiny_model = true
  ∧ (∃ res, examples.run (try_values examples.tiny_values) examples.tiny_app 2
            = inr res)
  ∧ (TimetableGenerator.declares examples.tiny_model
       (TimetableGenerator.free_day 0 1) = true
     ∧ eval examples.tiny_values
         (TimetableGenerator.daily_hours examples.tiny_app 0 1) = 0
     ∧ examples.tiny_values (TimetableGenerator.free_day 0 1) = 0)
  ∧ (TimetableGenerator.declares examples.tiny_model
       (TimetableGenerator.adj 0 0 0) = true
     ∧ examples.tiny_values (TimetableGenerator.y 0 0) = 1
     ∧ examples.tiny_values (TimetableGenerator.y 0 1) = 1
     ∧ examples.tiny_values (TimetableGenerator.adj 0 0 0) = 0)
  ∧ (TimetableGenerator.declares examples.tiny_model
       (TimetableGenerator.pref 0 1) = true
     ∧ eval examples.tiny_values
         (psum (Var <$> TimetableGenerator.vars_of_faculty_slot
                          (TimetableGenerator.batches examples.tiny_app)
                          (TimetableGenerator.classrooms examples.tiny_app) 0 1))
       = 1
     ∧ examples.tiny_values (TimetableGenerator.pref 0 1) = 0)
  ∧ (satisfies examples.long_day_values examples.long_day_model = true
     ∧ TimetableGenerator.declares examples.long_day_model
         (TimetableGenerator.long_stretch 0 0 0) = true
     ∧ (∀ i, (i < 4)%nat → examples.long_day_values (TimetableGenerator.y 0 i) = 1)
     ∧ examples.long_day_values (TimetableGenerator.long_stretch 0 0 0) = 0).
Proof.
  split; [eexists; vm_compute; reflexivity|].
  split; [vm_compute; reflexivity|].
  split; [eexists; vm_compute; reflexivity|].
  split; [repeat split; vm_compute; reflexivity|].
  split; [repeat split; vm_compute; reflexivity|].
  split; [repeat split; vm_compute; reflexivity|].
  split; [vm_compute; reflexivity|].
  split; [vm_compute; reflexivity|].
  split; [|reflexivity].
  intros i Hi. simpl. by rewrite bool_decide_eq_true_2.
Qed.
End indicator_claims.

(** * Further properties of the two programs *)

(** ** Counting with sums *)

Lemma sumf_indicator {A} (P : A → Prop) `{!∀ a, Decision (P a)} (l : list A)
    (g : A → Z) :
  (∀ a, a ∈ l → g a = if decide (P a) then 1 else 0) →
  sumf l g = Z.of_nat (length (filter P l)).
Proof.
  induction l as [|a l IH]; intros Hg; simpl; [done|].
  rewrite IH by (intros b Hb; apply Hg; by right).
  rewrite (Hg a) by left. rewrite filter_cons.
  destruct (decide (P a)); simpl length; lia.
Qed.

Section generator_days.
Import cp_model TimetableGenerator.
Variables (self : App).
Variables (batches : gmap string batch) (faculty : gmap string faculty_member)
          (classrooms : gmap string classroom).
Variables (min_hours_day max_hours_day : Z).
Variables (ρ : var → Z) (m : list (call var)) (obj : expr var).

Local Abbreviation nb := (num_batches batches).
Local Abbreviation ns := (num_subjects batches).
Local Abbreviation nf := (num_faculty faculty).
Local Abbreviation nc := (num_classrooms classrooms).
Local Abbreviation n := (num_slots_per_day self).
Local Abbreviation total := (total_slots self).
Local Abbreviation cell_of := (schedule_cell batches faculty classrooms ρ).
Local Abbreviation sched := (build_schedule self batches faculty classrooms ρ).
Local Abbreviation hours_on b d := (sumf (range n) (λ k, ρ (y b (d * n + k)))).

Hypothesis Hbuild :
  build_model self batches faculty classrooms min_hours_day max_hours_day
  = inr (m, obj).
Hypothesis Hsat : satisfies ρ m = true.








(** *** The daily limit of a classroom *)

Local Abbreviation held_in b c t :=
  (sumf (range ns) (λ s, sumf (range nf) (λ f, ρ (x b s f c t)))).



End generator_days.

(** ** Who teaches what, and where *)

Section generator_cells.
Import cp_model TimetableGenerator.
Variables (self : App).
Variables (batches : gmap string batch) (faculty : gmap string faculty_member)
          (classrooms : gmap string classroom).
Variables (min_hours_day max_hours_day : Z).
Variables (ρ : var → Z) (m : list (call var)) (obj : expr var).

Local Abbreviation nb := (num_batches batches).
Local Abbreviation ns := (num_subjects batches).
Local Abbreviation nf := (num_faculty faculty).
Local Abbreviation nc := (num_classrooms classrooms).
Local Abbreviation total := (total_slots self).
Local Abbreviation sched := (build_schedule self batches faculty classrooms ρ).

Hypothesis Hbuild :
  build_model self batches faculty classrooms min_hours_day max_hours_day
  = inr (m, obj).
Hypothesis Hsat : satisfies ρ m = true.

Lemma structural_in_model c :
  c ∈ structural_constraints self batches faculty classrooms → c ∈ m.
Proof.
  intros Hc. eapply hard_in_model; [exact Hbuild|exact Hsat|].
  unfold hard_constraints. rewrite !elem_of_app. tauto.
Qed.

Lemma gen_not_studied b_idx b_name s_idx s_name :
  batch_list batches !! b_idx = Some b_name →
  all_subjects batches !! s_idx = Some s_name →
  b_subjects (batches !!! b_name) !! s_name = None →
  sumf (vars_of_batch_subject self faculty classrooms b_idx s_idx) ρ = 0.
Proof.
  intros Hb Hs Hsubj.
  assert (Add (psum (Var <$> vars_of_batch_subject self faculty classrooms b_idx s_idx))
              EQ (Const 0) ∈ m) as Hin.
  { apply structural_in_model. unfold structural_constraints.
    in_loop (b_idx, b_name). in_loop (s_idx, s_name). rewrite Hsubj. in_body. }
  pose proof (add_ok _ _ _ _ _ Hsat Hin) as H. simpl in H.
  apply bool_decide_eq_true in H. by rewrite eval_psum_vars in H.
Qed.

Lemma gen_wrong_room b_idx b_name s_idx s_name subj c_idx c_name :
  batch_list batches !! b_idx = Some b_name →
  all_subjects batches !! s_idx = Some s_name →
  b_subjects (batches !!! b_name) !! s_name = Some subj →
  classroom_list classrooms !! c_idx = Some c_name →
  Some (c_type (classrooms !!! c_name)) ≠ s_type subj →
  sumf (vars_of_batch_subject_classroom self faculty b_idx s_idx c_idx) ρ = 0.
Proof.
  intros Hb Hs Hsubj Hc Hne.
  assert (Add (psum (Var <$> vars_of_batch_subject_classroom self faculty
                               b_idx s_idx c_idx))
              EQ (Const 0) ∈ m) as Hin.
  { apply structural_in_model. unfold structural_constraints.
    in_loop (b_idx, b_name). in_loop (s_idx, s_name). rewrite Hsubj.
    apply elem_of_app. right.
    in_loop (c_idx, c_name). rewrite bool_decide_eq_true_2 by done. in_body. }
  pose proof (add_ok _ _ _ _ _ Hsat Hin) as H. simpl in H.
  apply bool_decide_eq_true in H. by rewrite eval_psum_vars in H.
Qed.

(** A variable that stands in a sum of value 0 is 0. *)
Lemma zero_sum_member (vs : list var) (v : var) :
  (∀ w, w ∈ vs → 0 ≤ ρ w) → sumf vs ρ = 0 → v ∈ vs → ρ v = 0.
Proof.
  intros Hnn Hsum Hv. pose proof (sumf_member_le vs ρ v Hnn Hv).
  pose proof (Hnn v Hv). lia.
Qed.

Lemma in_faculty_for_subject (s_name b_name f_name : string) :
  f_name ∈ faculty_for_subject faculty s_name b_name →
  ∃ dat bs, faculty !! f_name = Some dat
            ∧ f_assignments dat !! s_name = Some bs ∧ b_name ∈ bs.
Proof.
  unfold faculty_for_subject. intros [dat Hdat]%elem_of_dom.
  apply map_lookup_filter_Some in Hdat as [Hf Hteach]. simpl in Hteach.
  unfold teaches in Hteach.
  destruct (f_assignments dat !! s_name) as [bs|] eqn:Hbs; [|done].
  apply bool_decide_eq_true in Hteach. by exists dat, bs.
Qed.

(** A true assignment variable joins a subject of the batch, a faculty
    member who teaches it to the batch and a classroom of its type. *)
Lemma gen_true_var_allowed b b_name s s_name f f_name c c_name t :
  batch_list batches !! b = Some b_name →
  all_subjects batches !! s = Some s_name →
  faculty_list faculty !! f = Some f_name →
  classroom_list classrooms !! c = Some c_name →
  (t < total)%nat →
  ρ (x b s f c t) ≠ 0 →
  ∃ subj,
    b_subjects (batches !!! b_name) !! s_name = Some subj
    ∧ f_name ∈ faculty_for_subject faculty s_name b_name
    ∧ Some (c_type (classrooms !!! c_name)) = s_type subj.
Proof.
  intros Hb Hs Hf Hc Ht Hx.
  assert (b < nb)%nat as Hbn by (by apply lookup_lt_Some in Hb).
  assert (s < ns)%nat as Hsn by (by apply lookup_lt_Some in Hs).
  assert (f < nf)%nat as Hfn by (by apply lookup_lt_Some in Hf).
  assert (c < nc)%nat as Hcn by (by apply lookup_lt_Some in Hc).
  assert (∀ vs : list var, (∀ w, w ∈ vs → ∃ s' f' c' t',
                   w = x b s' f' c' t' ∧ (s' < ns)%nat ∧ (f' < nf)%nat
                   ∧ (c' < nc)%nat ∧ (t' < total)%nat) →
                ∀ w, w ∈ vs → 0 ≤ ρ w) as Hnn.
  { intros vs Hvs w Hw.
    destruct (Hvs w Hw) as (s' & f' & c' & t' & -> & ? & ? & ? & ?).
    pose proof (gen_x_bool _ _ _ _ _ _ _ _ _ Hbuild Hsat b s' f' c' t'). lia. }
  destruct (b_subjects (batches !!! b_name) !! s_name) as [subj|] eqn:Hsubj;
    last first.
  { exfalso. apply Hx.
    apply (zero_sum_member (vars_of_batch_subject self faculty classrooms b s)).
    - apply Hnn. intros w Hw. unfold vars_of_batch_subject in Hw.
      var_in_ranges Hw. eauto 10.
    - by eapply gen_not_studied.
    - unfold vars_of_batch_subject. in_loop f. in_loop c. in_loop t. in_body. }
  exists subj. split; [done|]. split.
  - destruct (decide (f_name ∈ faculty_for_subject faculty s_name b_name))
      as [|Hnot]; [done|].
    exfalso. apply Hx.
    apply (zero_sum_member (vars_of_batch_subject_faculty self classrooms b s f)).
    + apply Hnn. intros w Hw. unfold vars_of_batch_subject_faculty in Hw.
      var_in_ranges Hw. eauto 10.
    + by eapply gen_not_taught_by.
    + unfold vars_of_batch_subject_faculty. in_loop c. in_loop t. in_body.
  - destruct (decide (Some (c_type (classrooms !!! c_name)) = s_type subj))
      as [|Hne]; [done|].
    exfalso. apply Hx.
    apply (zero_sum_member (vars_of_batch_subject_classroom self faculty b s c)).
    + apply Hnn. intros w Hw. unfold vars_of_batch_subject_classroom in Hw.
      var_in_ranges Hw. eauto 10.
    + by eapply gen_wrong_room.
    + unfold vars_of_batch_subject_classroom. in_loop f. in_loop t. in_body.
Qed.

Lemma schedule_cell_allowed b b_name t subj fac room :
  batch_list batches !! b = Some b_name →
  cell_at sched b t = Some (subj, fac, room) →
  ∃ bd sd dat bs r,
    batches !! b_name = Some bd
    ∧ b_subjects bd !! subj = Some sd
    ∧ faculty !! fac = Some dat
    ∧ f_assignments dat !! subj = Some bs ∧ b_name ∈ bs
    ∧ classrooms !! room = Some r
    ∧ s_type sd = Some (c_type r).
Proof.
  intros Hb. rewrite cell_at_schedule. case_bool_decide as Hbt; [|done].
  destruct Hbt as [Hbn Ht]. intros Hcell.
  destruct (schedule_cell_cases batches faculty classrooms ρ b t)
    as [[Hnone _] | (s & f & c & Hs & Hf & Hc & Hx & Hsome)].
  { by rewrite Hnone in Hcell. }
  rewrite Hsome in Hcell. simpl in Hcell. injection Hcell as Hsn Hfn Hcn.
  assert (all_subjects batches !! s = Some subj) as Hs'
    by (rewrite <- Hsn; by apply list_lookup_lookup_total_lt).
  assert (faculty_list faculty !! f = Some fac) as Hf'
    by (rewrite <- Hfn; by apply list_lookup_lookup_total_lt).
  assert (classroom_list classrooms !! c = Some room) as Hc'
    by (rewrite <- Hcn; by apply list_lookup_lookup_total_lt).
  destruct (gen_true_var_allowed b b_name s subj f fac c room t
              Hb Hs' Hf' Hc' Ht Hx) as (sd & Hsd & Hteach & Htype).
  destruct (sorted_keys_elem _ _ _ Hb) as [bd Hbd].
  destruct (sorted_keys_elem _ _ _ Hc') as [r Hr].
  destruct (in_faculty_for_subject _ _ _ Hteach) as (dat & bs & Hdat & Hbs & Hin).
  rewrite (lookup_total_correct _ _ _ Hbd) in Hsd.
  rewrite (lookup_total_correct _ _ _ Hr) in Htype.
  exists bd, sd, dat, bs, r. done.
Qed.
End generator_cells.

(** ** Workloads *)

Section workloads.
Import cp_model TimetableGenerator.

Lemma length_filter_concat_fmap {A B} (P : B → Prop) `{!∀ b, Decision (P b)}
    (F : A → list B) (l : list A) :
  Z.of_nat (length (filter P (concat (F <$> l))))
  = sumf l (λ a, Z.of_nat (length (filter P (F a)))).
Proof.
  induction l as [|a l IH]; csimpl; [done|].
  rewrite filter_app, length_app, Nat2Z.inj_add, IH. done.
Qed.

Lemma workloads_row_step (f : string) (row : list cell) (w : gmap string Z) :
  foldl (λ (w : gmap string Z) (entry : cell),
           match entry with
           | Some (_, fac, _) => alter (λ n, n + 1) fac w
           | None => w
           end) w row !! f
  = (λ k, k + Z.of_nat (length (filter (λ e, cell_faculty e = Some f) row)))
      <$> (w !! f).
Proof.
  revert w. induction row as [|entry row IH]; intros w; cbn [foldl].
  - rewrite filter_nil. simpl. destruct (w !! f); simpl; [f_equal; lia | done].
  - rewrite IH. rewrite filter_cons.
    destruct entry as [[[subj fac] room]|]; cbn [cell_faculty].
    + destruct (decide (fac = f)) as [->|Hne].
      * rewrite lookup_alter_eq. rewrite decide_True by done.
        destruct (w !! f); cbn; [f_equal; lia | done].
      * rewrite lookup_alter_ne by done.
        rewrite decide_False by (intros [= ?]; done). done.
    + rewrite decide_False by done. done.
Qed.

(** The workload of a faculty member is the number of cells of the schedule
    that name them; only the names of the registry are counted. *)
Lemma build_workloads_lookup (faculty : gmap string faculty_member)
    (sched : list (list cell)) (f : string) :
  build_workloads faculty sched !! f
  = if decide (f ∈ dom faculty) then Some (Z.of_nat (lessons_of f sched))
    else None.
Proof.
  unfold build_workloads, lessons_of.
  assert (∀ w : gmap string Z,
            foldl (λ w row,
                     foldl (λ (w : gmap string Z) (entry : cell),
                              match entry with
                              | Some (_, fac, _) => alter (λ n, n + 1) fac w
                              | None => w
                              end) w row) w sched !! f
            = (λ k, k + Z.of_nat (length (filter (λ e, cell_faculty e = Some f)
                                            (concat sched))))
                <$> (w !! f)) as Hfold.
  { induction sched as [|row rows IH]; intros w; cbn [foldl concat].
    - rewrite filter_nil. simpl. destruct (w !! f); simpl; [f_equal; lia | done].
    - rewrite IH, workloads_row_step, filter_app, length_app.
      destruct (w !! f); simpl; [f_equal; lia | done]. }
  rewrite Hfold. clear Hfold.
  destruct (decide (f ∈ dom faculty)) as [Hin|Hnot].
  - rewrite (elem_of_list_to_map_1 _ f 0).
    + simpl. f_equal; lia.
    + rewrite <- list_fmap_compose.
      replace ((fst ∘ (λ f0 : string, (f0, 0))) <$> faculty_list faculty)
        with (faculty_list faculty)
        by (symmetry; etrans; [|apply list_fmap_id]; by apply list_fmap_ext).
      apply NoDup_sorted_keys.
    + apply list_elem_of_fmap. exists f. split; [done|].
      unfold faculty_list. rewrite elem_of_sorted.
      apply elem_of_dom in Hin as [dat Hdat].
      apply list_elem_of_fmap. exists (f, dat). split; [done|].
      by apply elem_of_map_to_list.
  - rewrite not_elem_of_list_to_map_1; [done|].
    rewrite <- list_fmap_compose. intros (f' & Heq & Hf')%list_elem_of_fmap.
    simpl in Heq. subst f'. apply Hnot.
    unfold faculty_list in Hf'. rewrite elem_of_sorted in Hf'.
    apply list_elem_of_fmap in Hf' as ([f' dat] & -> & Hin).
    apply elem_of_map_to_list in Hin. apply elem_of_dom. by exists dat.
Qed.
End workloads.

Lemma filter_at_most_one {A} (P : A → Prop) `{!∀ a, Decision (P a)} (l : list A) :
  NoDup l → (∀ a1 a2, a1 ∈ l → a2 ∈ l → P a1 → P a2 → a1 = a2) →
  (length (filter P l) ≤ 1)%nat.
Proof.
  induction l as [|a l IH]; intros Hnd Hone; [rewrite filter_nil; simpl; lia|].
  apply NoDup_cons in Hnd as [Ha Hnd].
  assert ((length (filter P l) ≤ 1)%nat) as IH'.
  { apply IH; [done|]. intros a1 a2 H1 H2. apply Hone; by right. }
  rewrite filter_cons. case_decide as HPa; [|done].
  destruct (filter P l) as [|b rest] eqn:Hfilter; [simpl; lia|]. exfalso.
  assert (b ∈ filter P l) as [HPb Hb]%list_elem_of_filter
    by (rewrite Hfilter; left).
  assert (a = b) as -> by (apply Hone; [left|by right|done..]). done.
Qed.

Section generator_workloads.
Import cp_model TimetableGenerator.
Variables (self : App).
Variables (batches : gmap string batch) (faculty : gmap string faculty_member)
          (classrooms : gmap string classroom).
Variables (min_hours_day max_hours_day : Z).
Variables (ρ : var → Z) (m : list (call var)) (obj : expr var).

Local Abbreviation nb := (num_batches batches).
Local Abbreviation total := (total_slots self).
Local Abbreviation cell_of := (schedule_cell batches faculty classrooms ρ).
Local Abbreviation sched := (build_schedule self batches faculty classrooms ρ).

Hypothesis Hbuild :
  build_model self batches faculty classrooms min_hours_day max_hours_day
  = inr (m, obj).
Hypothesis Hsat : satisfies ρ m = true.

(** A faculty member gives at most one lesson in a timeslot, so at most
    [total_slots] in the week. *)
Lemma lessons_of_le_total f_name : (lessons_of f_name sched ≤ total)%nat.
Proof.
  apply Nat2Z.inj_le. unfold lessons_of, build_schedule.
  rewrite length_filter_concat_fmap.
  erewrite sumf_ext; last first.
  { intros b Hb.
    rewrite (length_filter_fmap_ext _
               (λ t, cell_faculty (cell_of b t) = Some f_name)) by done.
    rewrite <- (sumf_indicator _ _
                  (λ t, if decide (cell_faculty (cell_of b t) = Some f_name)
                        then 1 else 0)) by done.
    done. }
  rewrite sumf_swap.
  etrans; [apply (sumf_le _ _ (λ _, 1))|].
  - intros t Ht%elem_of_range.
    rewrite (sumf_indicator (λ b, cell_faculty (cell_of b t) = Some f_name))
      by done.
    change 1 with (Z.of_nat 1). apply Nat2Z.inj_le.
    apply filter_at_most_one; [apply NoDup_range|].
    intros b1 b2 Hb1%elem_of_range Hb2%elem_of_range H1 H2.
    eapply (schedule_faculty_once self batches faculty classrooms _ _ ρ m obj
              Hbuild Hsat t f_name);
      rewrite cell_at_schedule, bool_decide_eq_true_2; done.
  - rewrite sumf_const. unfold range. rewrite length_seq. lia.
Qed.
End generator_workloads.

(** ** What a returned timetable guarantees *)

Section timetable_properties.
Import cp_model TimetableGenerator.

Lemma solve_timetable_model_workloads (engine : solver var) self batches faculty
    classrooms time_limit min_hours_day max_hours_day res :
  solve_timetable_model engine self batches faculty classrooms time_limit
    min_hours_day max_hours_day = inr res →
  result_workloads res = build_workloads faculty (result_schedule res).
Proof.
  unfold solve_timetable_model.
  destruct (build_model _ _ _ _ _ _) as [e|[m obj]]; [done|].
  destruct (negb _); [done|]. by intros [= <-].
Qed.





(** X3.  Every occupied cell of a timetable that [solve_timetable_model]
    returns respects the registry: its subject is one of the batch, its
    faculty member has the batch in their assignment set for that subject,
    and its classroom has the type of the subject. *)
Theorem cells_respect_registry (engine : solver var) self batches faculty
    classrooms time_limit min_hours_day max_hours_day res :
  sound engine →
  solve_timetable_model engine self batches faculty classrooms time_limit
    min_hours_day max_hours_day = inr res →
  ∀ b b_name t subj fac room,
    result_batch_list res !! b = Some b_name →
    cell_at (result_schedule res) b t = Some (subj, fac, room) →
    ∃ bd sd dat bs r,
      batches !! b_name = Some bd
      ∧ b_subjects bd !! subj = Some sd
      ∧ faculty !! fac = Some dat
      ∧ f_assignments dat !! subj = Some bs ∧ b_name ∈ bs
      ∧ classrooms !! room = Some r
      ∧ s_type sd = Some (c_type r).
Proof.
  intros Hsound Hres b b_name t subj fac room Hb Hcell.
  destruct (solve_timetable_model_inr _ _ _ _ _ _ _ _ _ Hsound Hres)
    as (m & obj & Hbuild & Hsat & Hsched & Hlist).
  rewrite Hsched in Hcell. rewrite Hlist in Hb.
  by eapply schedule_cell_allowed.
Qed.

Lemma cells_respect_registry_witness :
  ∃ bd sd dat bs r,
    batches examples.tiny_app !! "B1" = Some bd
    ∧ b_subjects bd !! "Math" = Some sd
    ∧ faculty examples.tiny_app !! "F1" = Some dat
    ∧ f_assignments dat !! "Math" = Some bs ∧ "B1" ∈ bs
    ∧ classrooms examples.tiny_app !! "R1" = Some r
    ∧ s_type sd = Some (c_type r).
Proof.
  apply (cells_respect_registry (try_values examples.tiny_values)
           examples.tiny_app
           (batches examples.tiny_app) (faculty examples.tiny_app)
           (classrooms examples.tiny_app) 45 1 2 examples.tiny_result
           (try_values_sound _) ltac:(vm_compute; reflexivity)
           0%nat "B1" 0%nat "Math" "F1" "R1"
           ltac:(vm_compute; reflexivity) ltac:(vm_compute; reflexivity)).
Defined.

(** X4.  The workloads of a timetable that [solve_timetable_model] returns
    have the faculty members of the registry as keys; the workload of each is
    the number of cells of the schedule that name them, and it is at most the
    number of timeslots of the week. *)
Theorem workloads_count_lessons (engine : solver var) self batches faculty
    classrooms time_limit min_hours_day max_hours_day res :
  sound engine →
  solve_timetable_model engine self batches faculty classrooms time_limit
    min_hours_day max_hours_day = inr res →
  dom (result_workloads res) = dom faculty
  ∧ ∀ f_name,
      f_name ∈ dom faculty →
      result_workloads res !! f_name
      = Some (Z.of_nat (lessons_of f_name (result_schedule res)))
      ∧ (lessons_of f_name (result_schedule res) ≤ total_slots self)%nat.
Proof.
  intros Hsound Hres.
  pose proof (solve_timetable_model_workloads _ _ _ _ _ _ _ _ _ Hres) as Hw.
  destruct (solve_timetable_model_inr _ _ _ _ _ _ _ _ _ Hsound Hres)
    as (m & obj & Hbuild & Hsat & Hsched & _).
  split.
  - apply set_eq. intros f. rewrite Hw, (elem_of_dom (build_workloads _ _)).
    rewrite build_workloads_lookup.
    destruct (decide (f ∈ dom faculty)) as [Hf|Hf]; split; intros H; try done;
      by destruct H.
  - intros f_name Hf. rewrite Hw, build_workloads_lookup.
    rewrite decide_True by done. split; [done|].
    rewrite Hsched. by eapply lessons_of_le_total.
Qed.

Lemma workloads_count_lessons_witness :
  result_workloads examples.tiny_result !! "F1"
  = Some (Z.of_nat (lessons_of "F1" (result_schedule examples.tiny_result)))
  ∧ (lessons_of "F1" (result_schedule examples.tiny_result) ≤ 10)%nat.
Proof.
  destruct (workloads_count_lessons (try_values examples.tiny_values)
              examples.tiny_app
              (batches examples.tiny_app) (faculty examples.tiny_app)
              (classrooms examples.tiny_app) 45 1 2 examples.tiny_result
              (try_values_sound _) ltac:(vm_compute; reflexivity))
    as [_ Hall].
  apply (Hall "F1"). vm_compute. reflexivity.
Defined.
End timetable_properties.

(** ** Slot labels and the start hour read back from them *)

Section slot_labels.
Import cp_model TimetableGenerator.

Lemma pretty_N_char_digit (d : N) :
  (d < 10)%N →
  digit_of (pretty_N_char d) = Some (Z.of_N d) ∧ pretty_N_char d ≠ "-"%char.
Proof.
  intros Hd.
  assert (d = 0 ∨ d = 1 ∨ d = 2 ∨ d = 3 ∨ d = 4 ∨ d = 5 ∨ d = 6 ∨ d = 7
          ∨ d = 8 ∨ d = 9)%N as Hcases by lia.
  repeat (destruct Hcases as [->|Hcases]); try subst d;
    (split; [vm_compute; reflexivity | intros H; discriminate H]).
Qed.

Lemma pretty_N_go_app (x : N) (s s' : string) :
  pretty_N_go x s +:+ s' = pretty_N_go x (s +:+ s').
Proof.
  revert s. induction (N.lt_wf_0 x) as [x _ IH]; intros s.
  assert (x = 0 ∨ 0 < x)%N as [->|Hx] by lia.
  - by rewrite !pretty_N_go_0.
  - rewrite (pretty_N_go_step x s), (pretty_N_go_step x (s +:+ s')) by done.
    rewrite IH by (by apply N.div_lt). done.
Qed.

Lemma before_dash_pretty_N_go (x : N) (s : string) :
  before_dash (pretty_N_go x s) = pretty_N_go x (before_dash s).
Proof.
  revert s. induction (N.lt_wf_0 x) as [x _ IH]; intros s.
  assert (x = 0 ∨ 0 < x)%N as [->|Hx] by lia.
  - by rewrite !pretty_N_go_0.
  - rewrite (pretty_N_go_step x s), (pretty_N_go_step x (before_dash s)) by done.
    rewrite IH by (by apply N.div_lt).
    f_equal. simpl.
    destruct (pretty_N_char_digit (x `mod` 10)) as [_ Hne];
      [by apply N.mod_lt|].
    by rewrite bool_decide_eq_false_2.
Qed.

(** Reading the decimal digits of [x] adds [x] to the digits read so far. *)
Lemma digits_value_pretty_N_go (x : N) :
  ∃ k : Z, 0 ≤ k ∧ ∀ acc s,
    digits_value acc (pretty_N_go x s)
    = digits_value (acc * 10 ^ k + Z.of_N x) s.
Proof.
  induction (N.lt_wf_0 x) as [x _ IH].
  assert (x = 0 ∨ 0 < x)%N as [->|Hx] by lia.
  - exists 0. split; [done|]. intros acc s. rewrite pretty_N_go_0.
    f_equal. simpl. lia.
  - destruct (IH (x `div` 10)%N) as (k & Hk & Hgo); [by apply N.div_lt|].
    exists (k + 1). split; [lia|]. intros acc s.
    rewrite pretty_N_go_step by done. rewrite Hgo. simpl.
    destruct (pretty_N_char_digit (x `mod` 10)) as [-> _];
      [by apply N.mod_lt|].
    f_equal. rewrite Z.pow_add_r by lia.
    rewrite N2Z.inj_div, N2Z.inj_mod.
    pose proof (Z.div_mod (Z.of_N x) 10). change (Z.of_N 10) with 10. lia.
Qed.

Lemma int_pretty_N_go (x : N) :
  (0 < x)%N → int (pretty_N_go x "") = Some (Z.of_N x).
Proof.
  intros Hx. destruct (digits_value_pretty_N_go x) as (k & _ & Hgo).
  specialize (Hgo 0 ""). simpl in Hgo. unfold int.
  destruct (pretty_N_go x "") as [|a rest] eqn:Hs.
  - simpl in Hgo. injection Hgo as Hgo. lia.
  - rewrite Hgo. done.
Qed.

Lemma for_each_ok {A B} (l : list A) (body : A → exn + list B) :
  (∀ a, a ∈ l → ∃ bs, body a = inr bs) → ∃ r, for_each l body = inr r.
Proof.
  induction l as [|a l IH]; intros Hall; simpl; [by eexists|].
  destruct (Hall a) as [bs ->]; [left|].
  destruct IH as [r ->]; [intros b Hb; apply Hall; by right|]. by eexists.
Qed.

Lemma for_each_raises {A B} (l : list A) (body : A → exn + list B) (e : exn) :
  (∀ a, a ∈ l → (∃ bs, body a = inr bs) ∨ body a = inl e) →
  (∃ a, a ∈ l ∧ body a = inl e) → for_each l body = inl e.
Proof.
  induction l as [|a l IH]; intros Hall (a0 & Hin & Hraise).
  { by apply elem_of_nil in Hin. }
  simpl. destruct (Hall a) as [[bs Hbs] | He]; [left| |by rewrite He].
  rewrite Hbs. rewrite IH; [done| |].
  - intros b Hb. apply Hall. by right.
  - apply elem_of_cons in Hin as [->|Hin]; [congruence|]. by exists a0.
Qed.

Lemma length_get_current_days (self : App) : (0 < length (get_current_days self))%nat.
Proof.
  unfold get_current_days. destruct (saturday_var self); simpl; lia.
Qed.

(** The labels made by [update_slots] are those of hours from the start
    hour on. *)
Lemma new_slots_lookup (a : App) (k : nat) :
  start_hour_var a < end_hour_var a →
  (k < length (slots (update_slots a).1))%nat →
  ∃ hour, start_hour_var a ≤ hour
          ∧ slots (update_slots a).1 !!! k = slot_label hour.
Proof.
  intros Hlt Hk. rewrite new_slots_eq in * by done.
  rewrite length_fmap in Hk.
  destruct (lookup_lt_is_Some_2 _ _ Hk) as [hour Hhour].
  exists hour. split.
  - apply list_elem_of_lookup_2, list_elem_of_filter in Hhour as [_ Hin].
    unfold range2 in Hin. apply elem_of_seqZ in Hin. lia.
  - apply list_lookup_total_correct. by rewrite list_lookup_fmap, Hhour.
Qed.

Lemma new_slots_first (a : App) :
  start_hour_var a < end_hour_var a →
  start_hour_var a ≠ lunch_hour_var a →
  (0 < length (slots (update_slots a).1))%nat
  ∧ slots (update_slots a).1 !!! 0%nat = slot_label (start_hour_var a).
Proof.
  intros Hlt Hne. rewrite new_slots_eq by done. unfold range2.
  rewrite seqZ_cons by lia. rewrite filter_cons, decide_True by done.
  split; [simpl; lia | done].
Qed.

(** The loop over the slots of a day raises at the first slot when its
    label does not parse, whatever the other labels do. *)
Ltac days_raise :=
  apply for_each_raises;
  [ intros ? ?Hk%elem_of_range;
    match goal with
    | Hlt : start_hour_var ?a < end_hour_var ?a, Hk : (_ < _)%nat |- _ =>
        let hour := fresh "hour" in
        destruct (new_slots_lookup a _ Hlt Hk) as (hour & _ & ->)
    end;
    match goal with
    | Hparse : ∀ hour, slot_start_hour (slot_label hour) = _ |- _ =>
        rewrite Hparse
    end;
    case_bool_decide; [left; case_bool_decide; by eexists | by right]
  | exists 0%nat; split; [by apply elem_of_range|];
    match goal with
    | Hfirst : slots _ !!! 0%nat = _,
      Hparse : ∀ hour, slot_start_hour (slot_label hour) = _ |- _ =>
        rewrite Hfirst, Hparse
    end;
    by rewrite bool_decide_eq_false_2 by lia ].

(** X5.  Slot labels and the start hour that the faculty-preference loop of
    [solve_timetable_model] reads back from them.  The hour read from a label
    made by [update_slots] is the hour the label was made from, if that hour
    is not negative; for a negative hour the label starts with the sign, the
    text before the first dash is empty and [int] raises [ValueError].  So
    after a rebuild of the slots from a start hour that is not negative the
    solve never ends in a [ValueError]; after a rebuild from a negative start
    hour (that is not the lunch hour) it always does, once some faculty
    member prefers mornings. *)
Theorem slot_labels_and_preference_loop :
  (∀ hour,
     slot_start_hour (slot_label hour)
     = if bool_decide (0 ≤ hour) then inr hour
       else inl (ValueError (msg_invalid_literal "")))
  ∧ (∀ (engine : solver var) (a : App) batches faculty classrooms time_limit
       min_hours_day max_hours_day,
       start_hour_var a < end_hour_var a →
       (0 ≤ start_hour_var a →
        ∀ msg,
          solve_timetable_model engine (update_slots a).1 batches faculty
            classrooms time_limit min_hours_day max_hours_day
          ≠ inl (ValueError msg))
       ∧ (start_hour_var a < 0 →
          start_hour_var a ≠ lunch_hour_var a →
          (∃ f_name dat, faculty !! f_name = Some dat
                         ∧ f_prefers_morning dat = true) →
          solve_timetable_model engine (update_slots a).1 batches faculty
            classrooms time_limit min_hours_day max_hours_day
          = inl (ValueError (msg_invalid_literal "")))).
Proof.
  assert (∀ hour,
            slot_start_hour (slot_label hour)
            = if bool_decide (0 ≤ hour) then inr hour
              else inl (ValueError (msg_invalid_literal ""))) as Hparse.
  { intros hour. unfold slot_start_hour, slot_label.
    destruct hour as [|p|p].
    - done.
    - rewrite bool_decide_eq_true_2 by lia.
      assert (before_dash (pretty (Z.pos p) +:+ "-" +:+ pretty (Z.pos p + 1))
              = pretty_N_go (N.pos p) "") as ->.
      { unfold pretty at 1, pretty_Z, pretty, pretty_positive, pretty, pretty_N.
        rewrite decide_False by done.
        rewrite pretty_N_go_app, before_dash_pretty_N_go. done. }
      rewrite int_pretty_N_go by lia. done.
    - rewrite bool_decide_eq_false_2 by lia. done. }
  split; [exact Hparse|].
  intros engine a batches faculty classrooms time_limit min_hours_day
    max_hours_day Hlt.
  split.
  - intros Hstart msg.
    assert (∃ ps, preference_slots (update_slots a).1 faculty = inr ps)
      as [ps Hps].
    { unfold preference_slots. apply for_each_ok. intros [f_idx f_name] _.
      destruct (f_prefers_morning (faculty !!! f_name)); [|by eexists].
      apply for_each_ok. intros d _. apply for_each_ok.
      intros k Hk%elem_of_range.
      destruct (new_slots_lookup a k Hlt Hk) as (hour & Hhour & ->).
      rewrite Hparse, bool_decide_eq_true_2 by lia.
      case_bool_decide; by eexists. }
    unfold solve_timetable_model, build_model. rewrite Hps.
    by destruct (negb _).
  - intros Hneg Hlunch (f_name & dat & Hdat & Hpref).
    destruct (new_slots_first a Hlt Hlunch) as [Hlen Hfirst].
    assert (preference_slots (update_slots a).1 faculty
            = inl (ValueError (msg_invalid_literal ""))) as Hps.
    { unfold preference_slots. apply for_each_raises.
      - intros [f_idx f'] _.
        destruct (f_prefers_morning (faculty !!! f')); [right|left; by eexists].
        apply for_each_raises.
        + intros d _. right. days_raise.
        + exists 0%nat. split.
          * apply elem_of_range. apply length_get_current_days.
          * days_raise.
      - destruct (sorted_keys_lookup faculty f_name dat Hdat) as [f_idx Hidx].
        exists (f_idx, f_name). split; [by apply elem_of_enumerate|].
        rewrite (lookup_total_correct _ _ _ Hdat), Hpref.
        apply for_each_raises.
        + intros d _. right. days_raise.
        + exists 0%nat. split.
          * apply elem_of_range. apply length_get_current_days.
          * days_raise. }
    unfold solve_timetable_model, build_model. by rewrite Hps.
Qed.

Lemma slot_labels_and_preference_loop_witness :
  solve_timetable_model (try_values examples.tiny_values)
    (update_slots examples.negative_start_app).1
    (batches examples.negative_start_app) (faculty examples.negative_start_app)
    (classrooms examples.negative_start_app) 45 1 3
  = inl (ValueError (msg_invalid_literal "")).
Proof.
  destruct slot_labels_and_preference_loop as [_ Hloop].
  destruct (Hloop (try_values examples.tiny_values) examples.negative_start_app
              (batches examples.negative_start_app)
              (faculty examples.negative_start_app)
              (classrooms examples.negative_start_app) 45 1 3
              ltac:(reflexivity)) as [_ Hraise].
  apply Hraise; [reflexivity | discriminate |].
  exists "F1". eexists. split; [vm_compute; reflexivity | reflexivity].
Defined.
End slot_labels.

(** ** Further properties of the prototype's timetables *)

Section prototype_days.
Import cp_model TT_prototype.
Variables (subjects : list subject_row).
Variables (num_batches num_rooms max_per_day max_per_week min_per_day : Z).
Variables (num_days num_slots_per_day : nat).
Variable ρ : var → Z.

Local Abbreviation the_model :=
  (model subjects num_batches num_rooms max_per_day max_per_week min_per_day
     num_days num_slots_per_day).
Local Abbreviation nb := (Z.to_nat num_batches).
Local Abbreviation n := num_slots_per_day.
Local Abbreviation total := (num_days * num_slots_per_day)%nat.
Local Abbreviation row_of := (schedule_row subjects num_days num_slots_per_day ρ).
Local Abbreviation hours_on b d := (sumf (range n) (λ k, ρ (y b (d * n + k)))).

Hypothesis Hsat : satisfies ρ the_model = true.

Lemma proto_eval_daily_hours b d :
  eval ρ (daily_hours num_slots_per_day b d) = hours_on b d.
Proof.
  unfold daily_hours. rewrite eval_psum_fmap, sumf_fmap. done.
Qed.



(** A cell that is not ["Free"] belongs to an occupied timeslot; when no
    subject is called ["Free"], the cell of every occupied timeslot is not
    ["Free"]. *)
Lemma proto_cell_occupied b t :
  (b < nb)%nat → (t < total)%nat →
  cell_name subjects ρ b t ≠ "Free" → ρ (y b t) = 1.
Proof.
  intros Hb Ht Hcell.
  pose proof (proto_y_bool _ _ _ _ _ _ _ _ _ Hsat b t Hb Ht) as Hy.
  pose proof (proto_y_link _ _ _ _ _ _ _ _ _ Hsat b t Hb Ht) as Hlink.
  destruct (cell_name_cases subjects ρ b t)
    as [[Hf _] | (s & subj & Hs & Hx & _)]; [done|].
  pose proof (sumf_member_le (range (length subjects)) (λ s, ρ (x b s t)) s) as Hle.
  simpl in Hle. rewrite Hx, Hlink in Hle.
  assert (1 ≤ ρ (y b t)); [|lia]. apply Hle.
  - intros s' Hs'%elem_of_range.
    pose proof (proto_x_bool _ _ _ _ _ _ _ _ _ Hsat b s' t Hb Hs' Ht). lia.
  - apply elem_of_range. by eapply lookup_lt_Some.
Qed.

Lemma proto_occupied_cell b t :
  "Free" ∉ name_of <$> subjects →
  (b < nb)%nat → (t < total)%nat →
  ρ (y b t) = 1 → cell_name subjects ρ b t ≠ "Free".
Proof.
  intros Hfree Hb Ht Hy.
  pose proof (proto_y_link _ _ _ _ _ _ _ _ _ Hsat b t Hb Ht) as Hlink.
  destruct (cell_name_cases subjects ρ b t)
    as [[_ Hnone] | (s & subj & Hs & Hx & Hname)].
  - exfalso. rewrite sumf_zero in Hlink; [lia|].
    intros s Hs%elem_of_range.
    destruct (lookup_lt_is_Some_2 subjects s Hs) as [subj Hsubj].
    pose proof (Hnone s subj Hsubj).
    pose proof (proto_x_bool _ _ _ _ _ _ _ _ _ Hsat b s t Hb Hs Ht). lia.
  - rewrite Hname. intros Heq. apply Hfree. rewrite <- Heq.
    apply list_elem_of_fmap. exists subj. split; [done|].
    by eapply list_elem_of_lookup_2.
Qed.




(** *** Room assignments *)

Lemma build_room_assignments_lookup t :
  (t < total)%nat →
  build_room_assignments num_batches num_days num_slots_per_day ρ !! t
  = Some (room_row num_batches ρ t).
Proof.
  intros Ht. unfold build_room_assignments. rewrite foldl_insert_lookup.
  rewrite bool_decide_eq_true_2; [done | by apply elem_of_range].
Qed.

Lemma room_row_rooms t :
  (room_row num_batches ρ t).*1
  = seq 1 (length (room_row num_batches ρ t)).
Proof.
  unfold room_row, enumerate.
  generalize (filter (λ b, ρ (y b t) = 1) (range nb)). intros l.
  rewrite length_fmap, length_zip_with, length_seq, Nat.min_id.
  rewrite <- list_fmap_compose.
  assert (∀ j, ((fst ∘ (λ '(idx, b), ((idx + 1)%nat, b))) <$> zip (seq j (length l)) l)
               = seq (j + 1) (length l)) as H.
  { induction l as [|a l IH]; intros j; csimpl; [done|].
    rewrite IH. by replace (S j + 1)%nat with (S (j + 1)) by lia. }
  apply (H 0%nat).
Qed.

Lemma room_row_batches t :
  (room_row num_batches ρ t).*2 = filter (λ b, ρ (y b t) = 1) (range nb).
Proof.
  unfold room_row, enumerate.
  generalize (filter (λ b, ρ (y b t) = 1) (range nb)). intros l.
  rewrite <- list_fmap_compose.
  assert (∀ j, ((snd ∘ (λ '(idx, b), ((idx + 1)%nat, b))) <$> zip (seq j (length l)) l)
               = l) as H.
  { induction l as [|a l IH]; intros j; csimpl; [done|]. by rewrite IH. }
  apply (H 0%nat).
Qed.

Lemma room_row_length t :
  (t < total)%nat → Z.of_nat (length (room_row num_batches ρ t)) ≤ num_rooms.
Proof.
  intros Ht. rewrite <- (length_fmap snd), room_row_batches.
  etrans; [|by apply (proto_rooms _ _ _ _ _ _ _ _ _ Hsat t)].
  apply count_le_sumf.
  - intros b Hb%elem_of_range.
    pose proof (proto_y_bool _ _ _ _ _ _ _ _ _ Hsat b t Hb Ht). lia.
  - intros b _ ->. done.
Qed.

(** *** A subject that nobody teaches *)

Lemma proto_no_faculty s subj :
  subjects !! s = Some subj → faculty_count_of subj ≤ 0 → (0 < nb)%nat →
  hours_of subj ≤ 0.
Proof.
  intros Hs Hfc Hnb.
  assert (s < length subjects)%nat as Hsl by (by eapply lookup_lt_Some).
  rewrite <- (proto_subject_hours _ _ _ _ _ _ _ _ _ Hsat 0%nat s subj Hnb Hs).
  rewrite sumf_zero; [done|]. intros t Ht%elem_of_range.
  pose proof (proto_faculty _ _ _ _ _ _ _ _ _ Hsat s subj t Hs Ht) as Hle.
  pose proof (sumf_member_le (range nb) (λ b, ρ (x b s t)) 0%nat) as Hmem.
  simpl in Hmem.
  pose proof (proto_x_bool _ _ _ _ _ _ _ _ _ Hsat 0%nat s t Hnb Hsl Ht).
  assert (ρ (x 0 s t) ≤ sumf (range nb) (λ b, ρ (x b s t))); [|lia].
  apply Hmem; [|by apply elem_of_range].
  intros b Hb%elem_of_range.
  pose proof (proto_x_bool _ _ _ _ _ _ _ _ _ Hsat b s t Hb Hsl Ht). lia.
Qed.
End prototype_days.

Section prototype_properties.
Import cp_model TT_prototype.

Lemma solve_timetable_inr_rooms (engine : solver var)
    subjects num_batches num_rooms max_per_day max_per_week min_per_day
    days slots time_limit res :
  solve_timetable engine subjects num_batches num_rooms max_per_day
    max_per_week min_per_day days slots time_limit = inr res →
  res.2 = build_room_assignments num_batches (length days) (length slots)
            (solution_values engine subjects num_batches num_rooms max_per_day
               max_per_week min_per_day days slots time_limit).
Proof.
  unfold solve_timetable, solution_values.
  destruct (feasibility_checks _ _ _ _ _ _ _ _); [done|].
  destruct (negb _); [done|]. by intros [= <-].
Qed.

Lemma build_schedule_lookup_Some subjects num_batches num_days num_slots_per_day
    (ρ : var → Z) b row :
  build_schedule subjects num_batches num_days num_slots_per_day ρ !! b = Some row →
  (b < Z.to_nat num_batches)%nat
  ∧ row = schedule_row subjects num_days num_slots_per_day ρ b.
Proof.
  unfold build_schedule. rewrite foldl_insert_lookup.
  case_bool_decide as Hb; [|by rewrite lookup_empty].
  apply elem_of_range in Hb. by intros [= <-].
Qed.



(** X7.  The room assignments that the prototype's [solve_timetable]
    returns: in every timeslot the rooms handed out are numbered 1, 2, ...
    without a gap, they are at most [num_rooms], no batch is listed twice,
    every batch whose cell in the schedule is not ["Free"] is listed, and,
    when no subject is called ["Free"], only those are. *)
Theorem room_assignments_are_valid (engine : solver var)
    subjects num_batches num_rooms max_per_day max_per_week min_per_day
    days slots time_limit res :
  sound engine →
  solve_timetable engine subjects num_batches num_rooms max_per_day
    max_per_week min_per_day days slots time_limit = inr res →
  ∀ t,
    (t < length days * length slots)%nat →
    ∃ assigns,
      res.2 !! t = Some assigns
      ∧ assigns.*1 = seq 1 (length assigns)
      ∧ Z.of_nat (length assigns) ≤ num_rooms
      ∧ NoDup assigns.*2
      ∧ ∀ b row,
          res.1 !! b = Some row →
          (row !! t ≠ Some "Free" → b ∈ assigns.*2)
          ∧ ("Free" ∉ name_of <$> subjects →
             b ∈ assigns.*2 → row !! t ≠ Some "Free").
Proof.
  intros Hsound Hres t Ht.
  destruct (solve_timetable_inr _ _ _ _ _ _ _ _ _ _ _ Hsound Hres)
    as [Hsat Hsched].
  pose proof (solve_timetable_inr_rooms _ _ _ _ _ _ _ _ _ _ _ Hres) as Hrooms.
  eexists. split.
  { rewrite Hrooms. by apply build_room_assignments_lookup. }
  split; [apply room_row_rooms|].
  split; [by eapply room_row_length|].
  rewrite room_row_batches.
  split; [apply NoDup_filter, NoDup_range|].
  intros b row Hrow. rewrite Hsched in Hrow.
  apply build_schedule_lookup_Some in Hrow as [Hb ->].
  rewrite schedule_row_lookup by done.
  rewrite list_elem_of_filter, elem_of_range. split.
  - intros Hcell. split; [|done].
    eapply proto_cell_occupied; [done..|]. intros Heq. apply Hcell. by rewrite Heq.
  - intros Hfree [Hy _] [= Heq].
    by eapply (proto_occupied_cell _ _ _ _ _ _ _ _ _ Hsat b t).
Qed.

Lemma room_assignments_are_valid_witness :
  ∃ assigns,
    examples.proto_result.2 !! 0%nat = Some assigns
    ∧ assigns.*1 = seq 1 (length assigns)
    ∧ Z.of_nat (length assigns) ≤ 1.
Proof.
  destruct (room_assignments_are_valid (try_values examples.proto_values)
              examples.proto_subjects 1 1 2 2 1 examples.proto_days
              examples.proto_slots 40 examples.proto_result
              (try_values_sound _) ltac:(vm_compute; reflexivity)
              0%nat ltac:(vm_compute; lia))
    as (assigns & Hlookup & Hrooms & Hlen & _).
  by exists assigns.
Defined.

(** X8.  A subject of the prototype with positive weekly hours and a faculty
    count that is not positive can never be scheduled once there is a batch:
    [solve_timetable] returns no timetable, and when the feasibility checks
    pass it ends in the solve-failure [RuntimeError]. *)
Theorem prototype_no_faculty_is_infeasible (engine : solver var)
    subjects num_batches num_rooms max_per_day max_per_week min_per_day
    days slots time_limit s subj :
  sound engine →
  subjects !! s = Some subj →
  0 < hours_of subj → faculty_count_of subj ≤ 0 → 0 < num_batches →
  (∀ res,
     solve_timetable engine subjects num_batches num_rooms max_per_day
       max_per_week min_per_day days slots time_limit ≠ inr res)
  ∧ (feasibility_checks subjects num_batches num_rooms max_per_day
       max_per_week min_per_day (length days) (length slots) = None →
     solve_timetable engine subjects num_batches num_rooms max_per_day
       max_per_week min_per_day days slots time_limit
     = inl (RuntimeError msg_no_solution)).
Proof.
  intros Hsound Hs Hhours Hfc Hnb.
  assert (∀ res,
            solve_timetable engine subjects num_batches num_rooms max_per_day
              max_per_week min_per_day days slots time_limit ≠ inr res) as Hno.
  { intros res Hres.
    destruct (solve_timetable_inr _ _ _ _ _ _ _ _ _ _ _ Hsound Hres)
      as [Hsat _].
    pose proof (proto_no_faculty _ _ _ _ _ _ _ _ _ Hsat s subj Hs Hfc
                  ltac:(lia)). lia. }
  split; [done|]. intros Hchk.
  pose proof (solve_timetable_checked engine subjects num_batches num_rooms
                max_per_day max_per_week min_per_day days slots time_limit Hchk)
    as Hsolve.
  destruct (accepted _); [|done]. by destruct (Hno _ Hsolve).
Qed.

Lemma prototype_no_faculty_is_infeasible_witness :
  solve_timetable (try_values examples.proto_values) examples.untaught_subjects
    1 1 2 2 1 examples.proto_days examples.proto_slots 40
  = inl (RuntimeError msg_no_solution).
Proof.
  destruct (prototype_no_faculty_is_infeasible
              (try_values examples.proto_values) examples.untaught_subjects
              1 1 2 2 1 examples.proto_days examples.proto_slots 40
              0%nat ("Math", 1, 0) (try_values_sound _)
              ltac:(reflexivity) ltac:(reflexivity) ltac:(vm_compute; discriminate)
              ltac:(reflexivity))
    as [_ Hfail].
  apply Hfail. vm_compute. reflexivity.
Defined.

(** X9.  In the prototype the indicators of the objective are exact, in
    every solution that [solve_timetable] accepts: [full_slot[t]] is 1 exactly
    when [num_rooms] batches are occupied at [t], [adj_b_d_k] is 1 exactly
    when the batch is occupied in slots [k] and [k+1] of the day, and
    [day_active_b_d] is 0 exactly when the batch has no occupied slot that
    day. *)
Theorem prototype_indicators_are_linked (engine : solver var)
    subjects num_batches num_rooms max_per_day max_per_week min_per_day
    days slots time_limit res :
  sound engine →
  solve_timetable engine subjects num_batches num_rooms max_per_day
    max_per_week min_per_day days slots time_limit = inr res →
  (∀ t,
     (t < length days * length slots)%nat →
     solution_values engine subjects num_batches num_rooms max_per_day
       max_per_week min_per_day days slots time_limit (full_slot t) = 1
     ↔ Z.of_nat
         (count_true
            (solution_values engine subjects num_batches num_rooms max_per_day
               max_per_week min_per_day days slots time_limit)
            ((λ b, y b t) <$> range (Z.to_nat num_batches)))
       = num_rooms)
  ∧ (∀ b d k,
       (b < Z.to_nat num_batches)%nat → (d < length days)%nat →
       (k < length slots - 1)%nat →
       solution_values engine subjects num_batches num_rooms max_per_day
         max_per_week min_per_day days slots time_limit (adj b d k) = 1
       ↔ solution_values engine subjects num_batches num_rooms max_per_day
           max_per_week min_per_day days slots time_limit
           (y b (d * length slots + k)) = 1
         ∧ solution_values engine subjects num_batches num_rooms max_per_day
             max_per_week min_per_day days slots time_limit
             (y b (d * length slots + k + 1)) = 1)
  ∧ (∀ b d,
       (b < Z.to_nat num_batches)%nat → (d < length days)%nat →
       solution_values engine subjects num_batches num_rooms max_per_day
         max_per_week min_per_day days slots time_limit (day_active b d) = 0
       ↔ count_true
           (solution_values engine subjects num_batches num_rooms max_per_day
              max_per_week min_per_day days slots time_limit)
           ((λ k, y b (d * length slots + k)) <$> range (length slots))
         = 0%nat).
Proof.
  intros Hsound Hres.
  destruct (solve_timetable_inr _ _ _ _ _ _ _ _ _ _ _ Hsound Hres)
    as [Hsat _].
  set (ρ := solution_values engine subjects num_batches num_rooms max_per_day
              max_per_week min_per_day days slots time_limit) in *.
  split; [|split].
  - intros t Ht.
    rewrite (proto_full_slot_linked _ _ _ _ _ _ _ _ _ Hsat t Ht).
    rewrite <- sumf_count_true, sumf_fmap; [done|].
    intros v (b & -> & Hb%elem_of_range)%list_elem_of_fmap.
    by eapply proto_y_bool.
  - intros b d k Hb Hd Hk. by eapply proto_adj_linked.
  - intros b d Hb Hd.
    rewrite <- lit_true_neg.
    rewrite (proto_free_day_linked _ _ _ _ _ _ _ _ _ Hsat b d Hb Hd).
    rewrite (proto_eval_daily_hours _ ρ b d).
    rewrite <- (sumf_fmap (λ k, y b (d * length slots + k)) _ ρ).
    rewrite sumf_count_true; [lia|].
    intros v (k & -> & Hk%elem_of_range)%list_elem_of_fmap.
    eapply proto_y_bool; [done..|nia].
Qed.

Lemma prototype_indicators_are_linked_witness :
  solution_values (try_values examples.proto_values) examples.proto_subjects
    1 1 2 2 1 examples.proto_days examples.proto_slots 40 (full_slot 0) = 1
  ↔ Z.of_nat
      (count_true
         (solution_values (try_values examples.proto_values)
            examples.proto_subjects 1 1 2 2 1 examples.proto_days
            examples.proto_slots 40)
         ((λ b, y b 0) <$> range (Z.to_nat 1)))
    = 1.
Proof.
  destruct (prototype_indicators_are_linked (try_values examples.proto_values)
              examples.proto_subjects 1 1 2 2 1 examples.proto_days
              examples.proto_slots 40 examples.proto_result
              (try_values_sound _) ltac:(vm_compute; reflexivity))
    as [Hfull _].
  apply (Hfull 0%nat). vm_compute. lia.
Defined.
End prototype_properties.

(** ** Editing the registry *)

Section registry_editing.
Import TimetableGenerator.

Lemma on_faculty_select_app (w : Window) :
  app (window (on_faculty_select w)) = app w.
Proof.
  unfold on_faculty_select. cbn.
  destruct (faculty_tree_selection w) as [|fac_name rest]; [done|].
  by destruct (faculty (app w) !! fac_name).
Qed.

(** With its faculty member in the registry, [on_faculty_select] raises
    nothing. *)
Lemma on_faculty_select_ok (w : Window) fac_name rest fac_data :
  faculty_tree_selection w = fac_name :: rest →
  faculty (app w) !! fac_name = Some fac_data →
  raised_error (on_faculty_select w) = None.
Proof. intros Hsel Hfac. unfold on_faculty_select. cbn. by rewrite Hsel, Hfac. Qed.

Lemma update_all_views_app (w : Window) :
  app (window (update_all_views w)) = app w
  ∧ raised_error (update_all_views w) = None
  ∧ selected_item_for_edit (window (update_all_views w)) = None.
Proof. done. Qed.

Lemma lookup_without_batch (batch_name fac_name : string)
    (m : gmap string faculty_member) :
  (without_batch batch_name <$> m) !! fac_name
  = without_batch batch_name <$> (m !! fac_name).
Proof. apply lookup_fmap. Qed.

(** X10.  [remove_batch], once a batch of the registry is selected and the
    question is answered with yes, deletes that batch and nothing else of the
    registry of batches, and takes its name out of every assignment set of
    every faculty member: the faculty members, their subjects taught and
    their preferences stay, and each assignment set is the old one without
    the batch.  Answered with no, it changes nothing. *)
Theorem remove_batch_cleans_assignments (askyesno : string → string → bool)
    (w : Window) (batch_name : string) (rest : list string) (data : batch) :
  batch_tree_selection w = batch_name :: rest →
  batches (app w) !! batch_name = Some data →
  (askyesno "Confirm Deletion" (confirm_remove_batch batch_name) = false →
   remove_batch askyesno w = finish w)
  ∧ (askyesno "Confirm Deletion" (confirm_remove_batch batch_name) = true →
     let o := remove_batch askyesno w in
     raised_error o = None
     ∧ batches (app (window o)) !! batch_name = None
     ∧ (∀ other, other ≠ batch_name →
          batches (app (window o)) !! other = batches (app w) !! other)
     ∧ classrooms (app (window o)) = classrooms (app w)
     ∧ ∀ fac_name,
         match faculty (app w) !! fac_name,
               faculty (app (window o)) !! fac_name with
         | Some fac_data, Some fac_data' =>
             f_prefers_morning fac_data' = f_prefers_morning fac_data
             ∧ ∀ subj_name,
                 match f_assignments fac_data !! subj_name,
                       f_assignments fac_data' !! subj_name with
                 | Some b_set, Some b_set' => b_set' = b_set ∖ {[ batch_name ]}
                 | None, None => True
                 | _, _ => False
                 end
         | None, None => True
         | _, _ => False
         end).
Proof.
  intros Hsel Hdata. split.
  - intros Hno. unfold remove_batch. by rewrite Hsel, Hno.
  - intros Hyes. cbv zeta. unfold remove_batch. rewrite Hsel, Hyes, Hdata. cbn.
    split; [done|]. split; [apply lookup_delete_eq|].
    split; [intros other Hne; by apply lookup_delete_ne|].
    split; [done|].
    intros fac_name. rewrite lookup_fmap.
    destruct (faculty (app w) !! fac_name) as [fac_data|]; cbn; [|done].
    split; [done|]. intros subj_name. rewrite lookup_fmap.
    by destruct (f_assignments fac_data !! subj_name).
Qed.

Lemma remove_batch_cleans_assignments_witness :
  batches (app (window (remove_batch examples.yes examples.tiny_window)))
    !! "B1" = None.
Proof.
  destruct (remove_batch_cleans_assignments examples.yes examples.tiny_window
              "B1" [] (examples.math_batch 2)
              ltac:(reflexivity) ltac:(vm_compute; reflexivity))
    as [_ Hyes].
  destruct (Hyes ltac:(reflexivity)) as (_ & Hgone & _). exact Hgone.
Defined.



(** *** Assignments name batches of the registry *)

Lemma assignments_known_step (a a' : App) :
  (∀ b, is_Some (batches a !! b) → is_Some (batches a' !! b)) →
  (∀ f fd' s bs' b,
     faculty a' !! f = Some fd' → f_assignments fd' !! s = Some bs' → b ∈ bs' →
     is_Some (batches a' !! b)
     ∨ ∃ f0 fd s0 bs,
         faculty a !! f0 = Some fd ∧ f_assignments fd !! s0 = Some bs ∧ b ∈ bs) →
  assignments_known a → assignments_known a'.
Proof.
  intros Hb Hf Hknown f fd' s bs' b Hfd Hs Hin.
  destruct (Hf f fd' s bs' b Hfd Hs Hin) as [?|(f0 & fd & s0 & bs & H1 & H2 & H3)];
    [done|].
  apply Hb. by eapply Hknown.
Qed.

(** A change of the faculty registry at one key that brings in no new
    batch name. *)
Lemma assignments_known_insert_faculty (a : App) fac_name fd' :
  (∀ s bs' b, f_assignments fd' !! s = Some bs' → b ∈ bs' →
     is_Some (batches a !! b)
     ∨ ∃ f0 fd s0 bs,
         faculty a !! f0 = Some fd ∧ f_assignments fd !! s0 = Some bs ∧ b ∈ bs) →
  assignments_known a →
  assignments_known (set_faculty (<[fac_name := fd']> (faculty a)) a).
Proof.
  intros Hnew. apply assignments_known_step; [done|]. cbn.
  intros f fd0 s bs' b Hfd Hs Hin.
  destruct (decide (f = fac_name)) as [->|Hne].
  - rewrite lookup_insert_eq in Hfd. injection Hfd as <-. by eapply Hnew.
  - rewrite lookup_insert_ne in Hfd by done. right. by exists f, fd0, s, bs'.
Qed.

(** A change of the batch registry that keeps every key. *)
Lemma assignments_known_insert_batch (a : App) batch_name data :
  assignments_known a →
  assignments_known (set_batches (<[batch_name := data]> (batches a)) a).
Proof.
  apply assignments_known_step; cbn.
  - intros b Hb. destruct (decide (b = batch_name)) as [->|Hne].
    + rewrite lookup_insert_eq. by eexists.
    + by rewrite lookup_insert_ne.
  - intros f fd' s bs' b Hfd Hs Hin. right. by exists f, fd', s, bs'.
Qed.

(** A change that keeps every batch key and the faculty registry. *)
Lemma assignments_known_same_faculty (a a' : App) :
  (∀ b, is_Some (batches a !! b) → is_Some (batches a' !! b)) →
  faculty a' = faculty a →
  assignments_known a → assignments_known a'.
Proof.
  intros Hb Hf. apply assignments_known_step; [done|].
  rewrite Hf. intros f fd' s bs' b Hfd Hs Hin. right. by exists f, fd', s, bs'.
Qed.

Lemma first_word_batch_line (name : string) (data : batch) :
  first_word (batch_line name data) = first_word name.
Proof.
  unfold batch_line. induction name as [|a name IH]; [reflexivity|].
  simpl. destruct (bool_decide (a = " "%char)); [reflexivity|].
  f_equal. exact IH.
Qed.

Lemma all_batches_formatted_lookup (a : App) (i : nat) (line : string) :
  all_batches_formatted a !! i = Some line →
  ∃ name data, batch_list (batches a) !! i = Some name
               ∧ batches a !! name = Some data
               ∧ line = batch_line name data.
Proof.
  unfold all_batches_formatted. rewrite list_lookup_fmap.
  destruct (batch_list (batches a) !! i) as [name|] eqn:Hname; [|done].
  intros [= <-]. destruct (sorted_keys_elem _ _ _ Hname) as [data Hdata].
  exists name, data. by rewrite (lookup_total_correct _ _ _ Hdata).
Qed.

Lemma newly_assigned_elem (listbox : list string) (curselection : list nat)
    (acc : gset string) (b : string) :
  b ∈ foldl (λ acc i,
               acc ∪ {[ first_word (default EmptyString (listbox !! i)) ]})
            acc curselection
  ↔ b ∈ acc
    ∨ ∃ i, i ∈ curselection
           ∧ b = first_word (default EmptyString (listbox !! i)).
Proof.
  revert acc. induction curselection as [|i l IH]; intros acc; cbn [foldl].
  - split; [by left|]. intros [?|(i & Hi & _)]; [done|]. by apply elem_of_nil in Hi.
  - rewrite IH, elem_of_union, elem_of_singleton. split.
    + intros [[? | ->] | (j & Hj & ->)]; [by left|right..].
      * exists i. split; [left|done].
      * exists j. split; [by right|done].
    + intros [?|(j & Hj & ->)]; [by left; left|].
      apply elem_of_cons in Hj as [->|Hj]; [left; by right|].
      right. by exists j.
Qed.

Lemma add_batch_known (w : Window) :
  assignments_known (app w) → assignments_known (app (window (add_batch w))).
Proof.
  intros Hknown. unfold add_batch. case_bool_decide; [done|].
  destruct (IntVar_get (batch_year_var (entries w))) as [e|year]; [done|]. cbn.
  by apply assignments_known_insert_batch.
Qed.

Lemma remove_batch_known askyesno (w : Window) :
  assignments_known (app w) →
  assignments_known (app (window (remove_batch askyesno w))).
Proof.
  intros Hknown. unfold remove_batch.
  destruct (batch_tree_selection w) as [|batch_name rest]; [done|].
  destruct (askyesno _ _); [|done].
  destruct (batches (app w) !! batch_name) as [data|] eqn:Hdata; [|done].
  cbn. intros f fd' s bs' b. cbn. rewrite lookup_fmap.
  destruct (faculty (app w) !! f) as [fd|] eqn:Hfd; [|done].
  intros [= <-]. cbn. rewrite lookup_fmap.
  destruct (f_assignments fd !! s) as [bs|] eqn:Hbs; [|done].
  intros [= <-]. rewrite elem_of_difference, elem_of_singleton.
  intros [Hin Hne]. rewrite lookup_delete_ne by done. by eapply Hknown.
Qed.

Lemma update_batch_known (w : Window) (year : Z) :
  batch_year_var (entries w) = Reads year →
  assignments_known (app w) → assignments_known (app (window (update_batch w))).
Proof.
  intros Hyear Hknown. unfold update_batch.
  destruct (edited_item w) as [old_name|]; [|done].
  case_bool_decide as Htaken; [done|].
  destruct (batches (app w) !! old_name) as [data|] eqn:Hdata; [|done].
  rewrite Hyear. cbn [IntVar_get].
  case_bool_decide as Hne; cbn.
  - intros f fd' s bs' b. cbn. rewrite lookup_fmap.
    destruct (faculty (app w) !! f) as [fd|] eqn:Hfd; [|done].
    intros [= <-]. cbn. rewrite lookup_fmap.
    destruct (f_assignments fd !! s) as [bs|] eqn:Hbs; [|done].
    intros [= <-] Hin.
    destruct (decide (b = strip (batch_name_var (entries w)))) as [->|Hnew].
    { rewrite lookup_insert_eq. by eexists. }
    rewrite lookup_insert_ne by done.
    assert (b ∈ bs ∧ b ≠ old_name) as [Hb Hold].
    { revert Hin. case_bool_decide.
      - rewrite elem_of_union, elem_of_singleton, elem_of_difference,
          elem_of_singleton. tauto.
      - intros Hin. split; [done|]. by intros ->. }
    rewrite lookup_delete_ne by done. by eapply Hknown.
  - assert (old_name = strip (batch_name_var (entries w))) as <-
      by (destruct (decide (old_name = strip (batch_name_var (entries w))));
          [done|tauto]).
    revert Hknown. apply assignments_known_step; cbn.
    + intros b Hb. destruct (decide (b = old_name)) as [->|Hb'].
      * rewrite lookup_insert_eq. by eexists.
      * rewrite lookup_insert_ne by done. by rewrite lookup_delete_ne.
    + intros f fd' s bs' b Hfd Hs Hin. right. by exists f, fd', s, bs'.
Qed.

Lemma add_faculty_known (w : Window) :
  assignments_known (app w) → assignments_known (app (window (add_faculty w))).
Proof.
  intros Hknown. unfold add_faculty. case_bool_decide; [done|].
  unfold update_faculty_view. rewrite on_faculty_select_app. cbn.
  apply assignments_known_insert_faculty; [|done].
  intros s bs' b Hs. cbn in Hs. by rewrite lookup_empty in Hs.
Qed.

Lemma remove_faculty_known askyesno (w : Window) :
  assignments_known (app w) →
  assignments_known (app (window (remove_faculty askyesno w))).
Proof.
  intros Hknown. unfold remove_faculty.
  destruct (faculty_tree_selection w) as [|faculty_name rest]; [done|].
  destruct (askyesno _ _); [|done].
  destruct (faculty (app w) !! faculty_name) as [fd|] eqn:Hfd; [|done].
  unfold update_faculty_view. rewrite on_faculty_select_app. cbn.
  revert Hknown. apply assignments_known_step; [done|]. cbn.
  intros f fd' s bs' b Hfd' Hs Hin. right.
  apply lookup_delete_Some in Hfd' as [_ Hfd']. by exists f, fd', s, bs'.
Qed.

Lemma update_faculty_known (w : Window) :
  assignments_known (app w) →
  assignments_known (app (window (update_faculty w))).
Proof.
  intros Hknown. unfold update_faculty.
  destruct (edited_item w) as [old_name|]; [|done].
  case_bool_decide; [done|]. case_bool_decide; [done|].
  case_bool_decide as Hne.
  - destruct (faculty (app w) !! old_name) as [data|] eqn:Hdata; [|done].
    unfold update_faculty_view. rewrite on_faculty_select_app. cbn.
    revert Hknown. apply assignments_known_step; [done|]. cbn.
    intros f fd' s bs' b Hfd' Hs Hin. right.
    apply lookup_insert_Some in Hfd' as [[_ <-]|[_ Hfd']].
    + by exists old_name, data, s, bs'.
    + apply lookup_delete_Some in Hfd' as [_ Hfd']. by exists f, fd', s, bs'.
  - unfold update_faculty_view. by rewrite on_faculty_select_app.
Qed.

Lemma set_faculty_preferences_known (w : Window) :
  assignments_known (app w) →
  assignments_known (app (window (set_faculty_preferences w))).
Proof.
  intros Hknown. unfold set_faculty_preferences.
  destruct (faculty_tree_selection w) as [|faculty_name rest]; [done|].
  destruct (faculty (app w) !! faculty_name) as [fd|] eqn:Hfd; [|done]. cbn.
  apply assignments_known_insert_faculty; [|done]. cbn.
  intros s bs' b Hs Hin. right. by exists faculty_name, fd, s, bs'.
Qed.

Lemma add_subject_known (w : Window) :
  assignments_known (app w) → assignments_known (app (window (add_subject w))).
Proof.
  intros Hknown. unfold add_subject.
  destruct (batch_tree_selection w) as [|batch_name rest]; [done|].
  case_bool_decide; [done|].
  destruct (batches (app w) !! batch_name) as [data|]; [|done].
  case_bool_decide; [done|].
  destruct (subject_of_form w) as [e|subj]; [done|].
  cbn. by apply assignments_known_insert_batch.
Qed.

Lemma update_subject_known (w : Window) :
  assignments_known (app w) →
  assignments_known (app (window (update_subject w))).
Proof.
  intros Hknown. unfold update_subject.
  destruct (batch_tree_selection w) as [|batch_name rest]; [done|].
  destruct (subject_tree_selection w) as [|old_subj_name rest']; [done|].
  case_bool_decide; [done|].
  case_bool_decide as Hne.
  - destruct (batches (app w) !! batch_name) as [data|] eqn:Hdata; [|done].
    case_bool_decide; [done|].
    destruct (b_subjects data !! old_subj_name); [|done].
    destruct (subject_of_form w) as [e|subj].
    { cbn. by apply assignments_known_insert_batch. }
    cbn. rewrite lookup_insert_eq. cbn.
    revert Hknown. apply assignments_known_same_faculty; [|done]. cbn.
    intros b Hb. rewrite !lookup_insert_is_Some'. auto.
  - destruct (subject_of_form w) as [e|subj]; [done|].
    destruct (batches (app w) !! batch_name) as [data|] eqn:Hdata; [|done].
    cbn. by apply assignments_known_insert_batch.
Qed.

Lemma remove_subject_known askyesno (w : Window) :
  assignments_known (app w) →
  assignments_known (app (window (remove_subject askyesno w))).
Proof.
  intros Hknown. unfold remove_subject.
  destruct (batch_tree_selection w) as [|batch_name rest]; [done|].
  destruct (subject_tree_selection w) as [|subj_name rest']; [done|].
  destruct (askyesno _ _); [|done].
  destruct (batches (app w) !! batch_name) as [data|]; [|done].
  destruct (b_subjects data !! subj_name); [|done].
  cbn. by apply assignments_known_insert_batch.
Qed.

Lemma add_assignment_known choice (w : Window) :
  assignments_known (app w) →
  assignments_known (app (window (add_assignment choice w))).
Proof.
  intros Hknown. unfold add_assignment.
  destruct (faculty_tree_selection w) as [|fac_name rest]; [done|].
  destruct choice as [subject_var|]; [|done].
  unfold on_add. case_bool_decide; [done|].
  destruct (faculty (app w) !! fac_name) as [fd|] eqn:Hfd; [|done].
  case_bool_decide; [done|].
  rewrite on_faculty_select_app. cbn.
  apply assignments_known_insert_faculty; [|done]. cbn.
  intros s bs' b Hs Hin. apply lookup_insert_Some in Hs as [[_ <-]|[_ Hs]].
  - by apply elem_of_empty in Hin.
  - right. by exists fac_name, fd, s, bs'.
Qed.

Lemma remove_assignment_known askyesno (w : Window) :
  assignments_known (app w) →
  assignments_known (app (window (remove_assignment askyesno w))).
Proof.
  intros Hknown. unfold remove_assignment.
  destruct (faculty_tree_selection w) as [|fac_name rest]; [done|].
  destruct (assignment_tree_selection w) as [|subj_name rest']; [done|].
  destruct (askyesno _ _); [|done].
  destruct (faculty (app w) !! fac_name) as [fd|] eqn:Hfd; [|done].
  rewrite on_faculty_select_app. cbn.
  apply assignments_known_insert_faculty; [|done]. cbn.
  intros s bs' b Hs Hin. apply lookup_delete_Some in Hs as [_ Hs].
  right. by exists fac_name, fd, s, bs'.
Qed.

Lemma edit_assignment_known choice (w : Window) :
  (∀ curselection, choice = Some curselection →
     (∀ name, is_Some (batches (app w) !! name) → first_word name = name)
     ∧ ∀ i, i ∈ curselection →
            (i < length (all_batches_formatted (app w)))%nat) →
  assignments_known (app w) →
  assignments_known (app (window (edit_assignment choice w))).
Proof.
  intros Hchoice Hknown. unfold edit_assignment.
  destruct (faculty_tree_selection w) as [|fac_name rest]; [done|].
  destruct (assignment_tree_selection w) as [|subj_name rest']; [done|].
  destruct (preselected (app w) fac_name subj_name); [done|].
  destruct choice as [curselection|]; [|done].
  destruct (Hchoice curselection eq_refl) as [Hwords Hsel].
  unfold _save_assignment_changes.
  destruct (faculty (app w) !! fac_name) as [fd|] eqn:Hfd; [|done].
  rewrite on_faculty_select_app. cbn.
  apply assignments_known_insert_faculty; [|done]. cbn.
  intros s bs' b Hs Hin. apply lookup_insert_Some in Hs as [[_ <-]|[_ Hs]].
  - left. apply newly_assigned_elem in Hin as [Hin|(i & Hi & ->)].
    { by apply elem_of_empty in Hin. }
    destruct (lookup_lt_is_Some_2 _ _ (Hsel i Hi)) as [line Hline].
    rewrite Hline. cbn.
    apply all_batches_formatted_lookup in Hline as (name & data & _ & Hdata & ->).
    rewrite first_word_batch_line, Hwords by (by eexists). by eexists.
  - right. by exists fac_name, fd, s, bs'.
Qed.

(** X12.  The editing callbacks of the registry tabs keep the teaching
    assignments within the registry: if every batch named in an assignment
    set is a batch of the registry before the callback, so it is after it,
    whatever the selections and answers are and whether or not the callback
    ends in an exception, under two conditions.  For [update_batch] the year
    of the form must read as an integer: otherwise the batch is popped and
    lost.  For the "Save" of the assignment dialog no batch name may hold a
    space (and the indices selected must be lines of the list box): the
    dialog stores the text before the first space of a line. *)
Theorem callbacks_keep_assignments_known (askyesno : string → string → bool)
    (c : callback) (w : Window) :
  assignments_known (app w) →
  (c = UpdateBatch → ∃ year, batch_year_var (entries w) = Reads year) →
  (∀ curselection,
     c = EditAssignment (Some curselection) →
     (∀ name, is_Some (batches (app w) !! name) → first_word name = name)
     ∧ ∀ i, i ∈ curselection →
            (i < length (all_batches_formatted (app w)))%nat) →
  assignments_known (app (window (run_callback askyesno c w))).
Proof.
  intros Hknown Hyear Hedit. destruct c; cbn [run_callback].
  - by apply add_batch_known.
  - by apply remove_batch_known.
  - destruct (Hyear eq_refl) as [year Hreads]. by eapply update_batch_known.
  - by apply add_faculty_known.
  - by apply remove_faculty_known.
  - by apply update_faculty_known.
  - by apply set_faculty_preferences_known.
  - unfold add_classroom. case_bool_decide; [done|].
    by destruct (classroom_of_form w).
  - unfold remove_classroom.
    destruct (classroom_tree_selection w) as [|classroom_name rest]; [done|].
    destruct (askyesno _ _); [|done].
    by destruct (classrooms (app w) !! classroom_name).
  - unfold update_classroom.
    destruct (edited_item w) as [old_name|]; [|done].
    case_bool_decide; [done|].
    destruct (classrooms (app w) !! old_name); [|done].
    by destruct (classroom_of_form w).
  - by apply add_subject_known.
  - by apply update_subject_known.
  - by apply remove_subject_known.
  - by apply add_assignment_known.
  - by apply remove_assignment_known.
  - apply edit_assignment_known; [|done].
    intros curselection ->. by apply Hedit.
Qed.

Lemma tiny_window_known : assignments_known (app examples.tiny_window).
Proof.
  intros fac_name fac_data subj_name b_set batch_name Hfac Hsubj Hin.
  change (faculty (app examples.tiny_window)) with examples.one_teacher in Hfac.
  unfold examples.one_teacher in Hfac.
  apply lookup_singleton_Some in Hfac as [<- <-]. cbn in Hsubj.
  apply lookup_singleton_Some in Hsubj as [<- <-].
  apply elem_of_singleton in Hin as ->. by eexists.
Qed.

Lemma callbacks_keep_assignments_known_witness :
  assignments_known (app examples.tiny_window)
  ∧ assignments_known
      (app (window (run_callback examples.yes (EditAssignment (Some [0%nat]))
                      examples.tiny_window)))
  ∧ assignments_known
      (app (window (run_callback examples.yes UpdateBatch
                      examples.tiny_window))).
Proof.
  split; [exact tiny_window_known|]. split.
  - apply callbacks_keep_assignments_known;
      [exact tiny_window_known | intros H; discriminate H |].
    intros curselection [= <-]. split.
    + intros name [data Hdata].
      change (batches (app examples.tiny_window)) with (examples.math 2) in Hdata.
      unfold examples.math in Hdata.
      apply lookup_singleton_Some in Hdata as [<- _]. reflexivity.
    + intros i Hi. apply list_elem_of_singleton in Hi as ->. vm_compute. lia.
  - apply callbacks_keep_assignments_known;
      [exact tiny_window_known | | intros curselection H; discriminate H].
    intros _. exists 1. reflexivity.
Defined.

(** *** A number field that cannot be read *)



End registry_editing.
